(** * Vox: the hybrid extraction pipeline and the deterministic risk engine

    A shallow embedding of [backend/app/ml/extraction.py] and
    [backend/app/risk/risk_engine.py].

    Text is modelled as ASCII strings (one [ascii] per character).  Python
    floats are IEEE binary64 and are modelled by Rocq's primitive floats.
    Calls that leave the process (the date parser, the LLaMA subprocess, the
    spaCy and sentiment models, the database session, the clock) are
    parameters of the definitions that use them. *)

From Stdlib Require Import ZArith List String Ascii Bool Lia Floats.
From Stdlib Require Import DecimalString.
Import ListNotations.

Set Warnings "-inexact-float,-register-all".

Local Open Scope string_scope.

(** ** Python exceptions and outcomes *)

Inductive exn : Type :=
| ValueError
| TypeError
| KeyError
| IndexError
| NameError
| AttributeError
| TimeoutExpired
| OSError
| DBAPIError.

Inductive outcome (A : Type) : Type :=
| Ok (a : A)
| Raise (e : exn).
Arguments Ok {A} a.
Arguments Raise {A} e.

(** ** Strings: the part of [str] the two modules use *)

Definition ascii_between (lo hi : nat) (c : ascii) : bool :=
  (Nat.leb lo (nat_of_ascii c) && Nat.leb (nat_of_ascii c) hi)%bool.

Definition lower_ascii (c : ascii) : ascii :=
  if ascii_between 65 90 c then ascii_of_nat (nat_of_ascii c + 32) else c.

Definition upper_ascii (c : ascii) : ascii :=
  if ascii_between 97 122 c then ascii_of_nat (nat_of_ascii c - 32) else c.

(** [str.isspace] on one ASCII character; it is also what [\s] matches. *)
Definition isspace (c : ascii) : bool :=
  (ascii_between 9 13 c || ascii_between 28 32 c)%bool.

(** [\w] on ASCII: letters, digits and the underscore. *)
Definition isword (c : ascii) : bool :=
  (ascii_between 97 122 c || ascii_between 65 90 c
   || ascii_between 48 57 c || Ascii.eqb c "_")%bool.

Definition chars (s : string) : list ascii := list_ascii_of_string s.
Definition text_of (l : list ascii) : string := string_of_list_ascii l.

(** [s.lower()] *)
Definition lower (s : string) : string := text_of (map lower_ascii (chars s)).

Fixpoint lstrip_chars (l : list ascii) : list ascii :=
  match l with
  | c :: l' => if isspace c then lstrip_chars l' else l
  | [] => []
  end.

(** [s.strip()] *)
Definition strip (s : string) : string :=
  text_of (rev (lstrip_chars (rev (lstrip_chars (chars s))))).

(** [sep.join(parts)] *)
Fixpoint join (sep : string) (parts : list string) : string :=
  match parts with
  | [] => ""
  | [p] => p
  | p :: rest => p ++ sep ++ join sep rest
  end.

(** Truthiness of a value that is [None] or a [str]. *)
Definition truthy (o : option string) : bool :=
  match o with
  | Some s => negb (String.eqb s "")
  | None => false
  end.

(** [str(n)] for an [int]. *)
Definition str_of_int (n : Z) : string := NilZero.string_of_int (Z.to_int n).

(** ** A backtracking matcher for the fragment of [re] the tables use

    Alternatives are tried left to right, a greedy repeat tries one more
    iteration before stopping and a lazy one stops before trying more, as
    [re] does; the first success is the match. *)

Inductive regex : Type :=
| Empty
| Lit (c : ascii)
| Class (negated : bool) (p : ascii -> bool)
| Cat (r1 r2 : regex)
| Alt (r1 r2 : regex)
| Repeat (least : nat) (greedy : bool) (r : regex)
| Group (n : nat) (r : regex)
| EndAnchor
| Behind (negated : bool) (p : ascii -> bool).

(** Group table of a match: group number, start and end offsets. *)
Definition spans : Type := list (nat * (nat * nat)).

Definition set_span (n : nat) (sp : nat * nat) (g : spans) : spans :=
  (n, sp) :: filter (fun e => negb (Nat.eqb (fst e) n)) g.

Fixpoint get_span (n : nat) (g : spans) : option (nat * nat) :=
  match g with
  | [] => None
  | (m, sp) :: g' => if Nat.eqb m n then Some sp else get_span n g'
  end.

(** Number of capturing groups of a pattern: [len(match.groups())]. *)
Fixpoint ngroups (r : regex) : nat :=
  match r with
  | Cat a b | Alt a b => Nat.max (ngroups a) (ngroups b)
  | Repeat _ _ a => ngroups a
  | Group n a => Nat.max n (ngroups a)
  | _ => 0%nat
  end.

(** One match object: [start()], [end()] and the group table. *)
Record rmatch : Type := { m_start : nat; m_end : nat; m_groups : spans }.

Section Matcher.
Variable ignorecase : bool.
Variable subject : list ascii.

Definition lit_matches (c d : ascii) : bool :=
  if ignorecase then Ascii.eqb (lower_ascii c) (lower_ascii d) else Ascii.eqb c d.

(** A character against a set [[...]] or a negated set [[^...]]; with
    IGNORECASE the character belongs to the set when one of its cases does. *)
Definition class_matches (negated : bool) (p : ascii -> bool) (d : ascii) : bool :=
  xorb negated
    (if ignorecase then (p d || p (lower_ascii d) || p (upper_ascii d))%bool else p d).

(** [$] without MULTILINE: the end, or just before a final newline. *)
Definition at_end (i : nat) : bool :=
  (Nat.eqb i (List.length subject)
   || (Nat.eqb (S i) (List.length subject)
       && match nth_error subject i with
          | Some c => Ascii.eqb c "010"
          | None => false
          end))%bool.

(** A repeat of a sub-pattern [body] at least [least] times, followed by
    [k].  An iteration that consumes nothing ends the repeat.  [fuel]
    bounds the number of iterations, each of which consumes a character. *)
Fixpoint repeat_loop (body : nat -> spans -> (nat -> spans -> option (nat * spans))
                             -> option (nat * spans))
    (least : nat) (greedy : bool) (k : nat -> spans -> option (nat * spans))
    (fuel count i : nat) (g : spans) {struct fuel} : option (nat * spans) :=
  match fuel with
  | O => None
  | S fuel' =>
      let more :=
        body i g (fun j g' => if Nat.eqb j i then None
                              else repeat_loop body least greedy k fuel' (S count) j g') in
      let stop := if Nat.leb least count then k i g else None in
      if greedy
      then match more with Some res => Some res | None => stop end
      else match stop with Some res => Some res | None => more end
  end.

(** The pattern [r] at offset [i] with group table [g], followed by [k]. *)
Fixpoint run (r : regex) (i : nat) (g : spans)
    (k : nat -> spans -> option (nat * spans)) {struct r} : option (nat * spans) :=
  match r with
  | Empty => k i g
  | Lit c =>
      match nth_error subject i with
      | Some d => if lit_matches c d then k (S i) g else None
      | None => None
      end
  | Class negated p =>
      match nth_error subject i with
      | Some d => if class_matches negated p d then k (S i) g else None
      | None => None
      end
  | Cat a b => run a i g (fun j g' => run b j g' k)
  | Alt a b =>
      match run a i g k with
      | Some res => Some res
      | None => run b i g k
      end
  | Repeat least greedy a =>
      repeat_loop (run a) least greedy k (S (List.length subject)) O i g
  | Group n a => run a i g (fun j g' => k j (set_span n (i, j) g'))
  | EndAnchor => if at_end i then k i g else None
  | Behind negated p =>
      match i with
      | O => None
      | S i' =>
          match nth_error subject i' with
          | Some d => if class_matches negated p d then k i g else None
          | None => None
          end
      end
  end.

(** The pattern anchored at [i]; with [must_advance] an empty match at [i]
    is refused and the matcher backtracks. *)
Definition match_at (r : regex) (must_advance : bool) (i : nat) : option rmatch :=
  match run r i [] (fun j g => if (must_advance && Nat.eqb j i)%bool then None
                               else Some (j, g)) with
  | Some (j, g) => Some {| m_start := i; m_end := j; m_groups := g |}
  | None => None
  end.

(** Leftmost match at or after [i]: [count] start offsets are tried. *)
Fixpoint search_from (r : regex) (must_advance : bool) (count i : nat) : option rmatch :=
  match count with
  | O => None
  | S count' =>
      match match_at r must_advance i with
      | Some m => Some m
      | None => search_from r false count' (S i)
      end
  end.

(** [re.finditer]: successive matches, each search starting where the
    previous match ended. *)
Fixpoint finditer_from (r : regex) (fuel : nat) (must_advance : bool) (i : nat)
    : list rmatch :=
  match fuel with
  | O => []
  | S fuel' =>
      match search_from r must_advance (S (List.length subject) - i) i with
      | Some m =>
          m :: finditer_from r fuel' (Nat.eqb (m_end m) (m_start m)) (m_end m)
      | None => []
      end
  end.

Definition slice (a b : nat) : string := text_of (firstn (b - a) (skipn a subject)).

(** [match.group(n)]: [None] when the group took no part in the match. *)
Definition group (m : rmatch) (n : nat) : option string :=
  match n with
  | O => Some (slice (m_start m) (m_end m))
  | _ => match get_span n (m_groups m) with
         | Some (a, b) => Some (slice a b)
         | None => None
         end
  end.

(** The pieces [re.split] returns for a pattern without groups. *)
Fixpoint pieces (ms : list rmatch) (from : nat) : list string :=
  match ms with
  | [] => [slice from (List.length subject)]
  | m :: ms' => slice from (m_start m) :: pieces ms' (m_end m)
  end.
End Matcher.

Definition re_search (r : regex) (ignorecase : bool) (s : string) : option rmatch :=
  search_from ignorecase (chars s) r false (S (String.length s)) O.

Definition re_finditer (r : regex) (ignorecase : bool) (s : string) : list rmatch :=
  finditer_from ignorecase (chars s) r (2 * String.length s + 2) false O.

(** [m.group(n)] for a match [m] on the subject [s]. *)
Definition re_group (s : string) (m : rmatch) (n : nat) : option string :=
  group (chars s) m n.

Definition re_split (r : regex) (s : string) : list string :=
  pieces (chars s) (re_finditer r false s) O.

(** Pattern combinators, so that a table entry reads like its source. *)

Fixpoint seq (rs : list regex) : regex :=
  match rs with
  | [] => Empty
  | [r] => r
  | r :: rs' => Cat r (seq rs')
  end.

Fixpoint alt (rs : list regex) : regex :=
  match rs with
  | [] => Empty
  | [r] => r
  | r :: rs' => Alt r (alt rs')
  end.

(** A run of literal characters. *)
Definition lits (s : string) : regex := seq (map Lit (chars s)).

(** [r?] *)
Definition opt (r : regex) : regex := Alt r Empty.

(** [r+] *)
Definition plus (r : regex) : regex := Repeat 1 true r.

(** [r*?] *)
Definition lazy_star (r : regex) : regex := Repeat 0 false r.

(** [.] without DOTALL *)
Definition dot : regex := Class true (fun c => Ascii.eqb c "010").

(** [\s] and [\w] *)
Definition ws : regex := Class false isspace.
Definition word : regex := Class false isword.

(** The listed characters, for [[...]] and [[^...]]. *)
Definition one_of (s : string) : ascii -> bool :=
  fun c => existsb (Ascii.eqb c) (chars s).

(** A table entry: the pattern's source text and what it compiles to. *)
Record pattern : Type := { source : string; compiled : regex }.

(** A [datetime]: its position on the time line in microseconds and whether
    it carries a UTC offset (aware) or not (naive). *)
Record datetime : Type := { instant : Z; aware : bool }.

(** A decoded JSON document; also the type of a dict entry that may hold
    whatever a decoded document holds. *)
Inductive value : Type :=
| VNone
| VBool (b : bool)
| VInt (n : Z)
| VFloat (x : float)
| VStr (s : string)
| VList (l : list value)
| VDict (kv : list (string * value)).

(** [d.get(key, default)] on a decoded object. *)
Fixpoint dict_get (key : string) (kv : list (string * value)) (default : value) : value :=
  match kv with
  | [] => default
  | (k, v) :: kv' => if String.eqb k key then v else dict_get key kv' default
  end.

(** [d[key] = v] on a dict of strings kept in insertion order. *)
Fixpoint dict_set (key v : string) (kv : list (string * string)) : list (string * string) :=
  match kv with
  | [] => [(key, v)]
  | (k, w) :: kv' => if String.eqb k key then (k, v) :: kv' else (k, w) :: dict_set key v kv'
  end.

(** [outcome]s of a list of computations, stopping at the first that raises. *)
Fixpoint collect {A : Type} (l : list (outcome A)) : outcome (list A) :=
  match l with
  | [] => Ok []
  | Raise e :: _ => Raise e
  | Ok a :: l' =>
      match collect l' with
      | Ok r => Ok (a :: r)
      | Raise e => Raise e
      end
  end.

(** ** Groups that every match sets *)

Definition has_span (n : nat) (g : spans) : bool :=
  match get_span n g with Some _ => true | None => false end.

(** A sufficient condition for group [n] to take part in every match of a
    pattern. *)
Fixpoint always_sets (n : nat) (r : regex) : bool :=
  match r with
  | Cat a b => (always_sets n a || always_sets n b)%bool
  | Alt a b => (always_sets n a && always_sets n b)%bool
  | Repeat least _ a => (Nat.leb 1 least && always_sets n a)%bool
  | Group m a => (Nat.eqb m n || always_sets n a)%bool
  | _ => false
  end.

Lemma get_span_filter_other (m n : nat) (g : spans) :
  m <> n ->
  get_span m (filter (fun e => negb (Nat.eqb (fst e) n)) g) = get_span m g.
Proof.
  intros Hne. induction g as [|[k sp] g IH]; simpl; [reflexivity|].
  destruct (Nat.eqb_spec k n) as [->|Hk]; simpl.
  - rewrite IH. destruct (Nat.eqb_spec n m); [congruence | reflexivity].
  - rewrite IH. reflexivity.
Qed.

Lemma has_span_set_span (m n : nat) (sp : nat * nat) (g : spans) :
  has_span m g = true -> has_span m (set_span n sp g) = true.
Proof.
  unfold has_span, set_span. simpl. destruct (Nat.eqb_spec n m) as [->|Hne]; [reflexivity|].
  rewrite get_span_filter_other by congruence. trivial.
Qed.

Lemma has_span_set_same (n : nat) (sp : nat * nat) (g : spans) :
  has_span n (set_span n sp g) = true.
Proof. unfold has_span, set_span. simpl. rewrite Nat.eqb_refl. reflexivity. Qed.

Section MatcherFacts.
Variable ignorecase : bool.
Variable subject : list ascii.

(** A successful run ends in a call of its continuation, on a group table
    that kept every group it had and gained the groups in [gained]. *)
Definition reaches (k : nat -> spans -> option (nat * spans)) (res : nat * spans)
    (g : spans) (gained : nat -> bool) : Prop :=
  exists j g',
    k j g' = Some res
    /\ (forall m, has_span m g = true -> has_span m g' = true)
    /\ (forall m, gained m = true -> has_span m g' = true).

Lemma repeat_loop_reaches
    (body : nat -> spans -> (nat -> spans -> option (nat * spans)) -> option (nat * spans))
    (gained : nat -> bool) (least : nat) (greedy : bool)
    (k : nat -> spans -> option (nat * spans)) :
  (forall i g k' res, body i g k' = Some res -> reaches k' res g gained) ->
  forall fuel count i g res,
    (forall m, gained m = true -> 1 <= count -> has_span m g = true) ->
    repeat_loop body least greedy k fuel count i g = Some res ->
    reaches k res g (fun m => (Nat.leb 1 least && gained m)%bool).
Proof.
  intros Hbody. induction fuel as [|fuel IH]; intros count i g res Hinv; simpl;
    [discriminate|].
  assert (forall res',
            body i g (fun j g' => if Nat.eqb j i then None
                                  else repeat_loop body least greedy k fuel (S count) j g')
            = Some res' ->
            reaches k res' g (fun m => (Nat.leb 1 least && gained m)%bool)) as Hmore.
  { intros res' H. destruct (Hbody _ _ _ _ H) as (j1 & g1 & Hk & Hmono & Hgain).
    destruct (Nat.eqb j1 i); [discriminate|].
    destruct (IH (S count) j1 g1 res') as (j & g' & Hk' & Hmono' & Hgain').
    - intros m Hm _. exact (Hgain m Hm).
    - exact Hk.
    - exists j, g'. split; [exact Hk'|]. split; [|exact Hgain'].
      intros m Hm. apply Hmono', Hmono, Hm. }
  assert (forall res',
            (if Nat.leb least count then k i g else None) = Some res' ->
            reaches k res' g (fun m => (Nat.leb 1 least && gained m)%bool)) as Hstop.
  { intros res' H. destruct (Nat.leb_spec least count) as [Hle|]; [|discriminate].
    exists i, g. split; [exact H|]. split; [trivial|].
    intros m Hm. apply andb_prop in Hm as [Hl Hg]. apply Nat.leb_le in Hl.
    apply Hinv; [exact Hg | lia]. }
  destruct greedy.
  - destruct (body i g _) as [r1|] eqn:E.
    + intros [= <-]. exact (Hmore r1 eq_refl).
    + exact (Hstop res).
  - destruct (if Nat.leb least count then k i g else None) as [r1|] eqn:E.
    + intros [= <-]. exact (Hstop r1 eq_refl).
    + exact (Hmore res).
Qed.

Lemma run_reaches (r : regex) :
  forall i g k res,
    run ignorecase subject r i g k = Some res ->
    reaches k res g (fun m => always_sets m r).
Proof.
  induction r as [|c|neg p|a IHa b IHb|a IHa b IHb|least greedy a IHa|n a IHa| |neg p];
    intros i g k res; cbn [run always_sets].
  - intros H. exists i, g. split; [exact H|]. split; [trivial | discriminate].
  - destruct (nth_error subject i) as [d|]; [|discriminate].
    destruct (lit_matches ignorecase c d); [|discriminate].
    intros H. exists (S i), g. split; [exact H|]. split; [trivial | discriminate].
  - destruct (nth_error subject i) as [d|]; [|discriminate].
    destruct (class_matches ignorecase neg p d); [|discriminate].
    intros H. exists (S i), g. split; [exact H|]. split; [trivial | discriminate].
  - intros H. destruct (IHa _ _ _ _ H) as (j1 & g1 & H1 & M1 & G1).
    destruct (IHb _ _ _ _ H1) as (j2 & g2 & H2 & M2 & G2).
    exists j2, g2. split; [exact H2|]. split.
    + intros m Hm. apply M2, M1, Hm.
    + intros m Hm. apply orb_prop in Hm as [Hm|Hm]; [apply M2, G1, Hm | apply G2, Hm].
  - destruct (run ignorecase subject a i g k) as [r1|] eqn:E.
    + intros [= <-]. destruct (IHa _ _ _ _ E) as (j1 & g1 & H1 & M1 & G1).
      exists j1, g1. split; [exact H1|]. split; [exact M1|].
      intros m Hm. apply andb_prop in Hm as [Hm _]. apply G1, Hm.
    + intros H. destruct (IHb _ _ _ _ H) as (j1 & g1 & H1 & M1 & G1).
      exists j1, g1. split; [exact H1|]. split; [exact M1|].
      intros m Hm. apply andb_prop in Hm as [_ Hm]. apply G1, Hm.
  - apply (repeat_loop_reaches _ (fun m => always_sets m a) least greedy k IHa).
    intros m _ Hc. lia.
  - intros H. destruct (IHa _ _ _ _ H) as (j1 & g1 & H1 & M1 & G1).
    exists j1, (set_span n (i, j1) g1). split; [exact H1|]. split.
    + intros m Hm. apply has_span_set_span, M1, Hm.
    + intros m Hm. apply orb_prop in Hm as [Hm|Hm].
      * apply Nat.eqb_eq in Hm as ->. apply has_span_set_same.
      * apply has_span_set_span, G1, Hm.
  - destruct (at_end subject i); [|discriminate].
    intros H. exists i, g. split; [exact H|]. split; [trivial | discriminate].
  - destruct i as [|i']; [discriminate|].
    destruct (nth_error subject i') as [d|]; [|discriminate].
    destruct (class_matches ignorecase neg p d); [|discriminate].
    intros H. exists (S i'), g. split; [exact H|]. split; [trivial | discriminate].
Qed.

Lemma match_at_sets (r : regex) (n : nat) (must_advance : bool) (i : nat) (m : rmatch) :
  always_sets n r = true ->
  match_at ignorecase subject r must_advance i = Some m ->
  has_span n (m_groups m) = true.
Proof.
  intros Hs. unfold match_at.
  destruct (run ignorecase subject r i [] _) as [[j g]|] eqn:E; [|discriminate].
  intros [= <-]. simpl.
  destruct (run_reaches r _ _ _ _ E) as (j1 & g1 & H1 & _ & G1).
  destruct (must_advance && Nat.eqb j1 i)%bool; [discriminate|].
  injection H1 as <- <-. exact (G1 n Hs).
Qed.

Lemma search_from_sets (r : regex) (n : nat) (count : nat) :
  always_sets n r = true ->
  forall must_advance i m,
    search_from ignorecase subject r must_advance count i = Some m ->
    has_span n (m_groups m) = true.
Proof.
  intros Hs. induction count as [|count IH]; intros must_advance i m; simpl;
    [discriminate|].
  destruct (match_at ignorecase subject r must_advance i) as [m'|] eqn:E.
  - intros [= <-]. exact (match_at_sets r n _ _ _ Hs E).
  - apply IH.
Qed.

Lemma finditer_from_sets (r : regex) (n : nat) (fuel : nat) :
  always_sets n r = true ->
  forall must_advance i,
    Forall (fun m => has_span n (m_groups m) = true)
           (finditer_from ignorecase subject r fuel must_advance i).
Proof.
  intros Hs. induction fuel as [|fuel IH]; intros must_advance i; simpl; [constructor|].
  destruct (search_from ignorecase subject r must_advance _ i) as [m|] eqn:E;
    [|constructor].
  constructor; [exact (search_from_sets r n _ Hs _ _ _ E) | apply IH].
Qed.

Lemma group_of_set_span (m : rmatch) (n : nat) :
  has_span n (m_groups m) = true -> exists t, group subject m n = Some t.
Proof.
  unfold has_span, group. destruct n as [|n]; [eauto|].
  destruct (get_span (S n) (m_groups m)) as [[a b]|]; [eauto | discriminate].
Qed.

End MatcherFacts.

Lemma collect_all_ok {A : Type} (l : list (outcome A)) :
  Forall (fun o => exists a, o = Ok a) l -> exists r, collect l = Ok r.
Proof.
  induction 1 as [|o l [a ->] _ [r IH]]; simpl; [eauto|]. rewrite IH. eauto.
Qed.

(** ** Lists and strings: subsequences and verbatim occurrence *)

(** [l] is [l'] with some elements left out, the others in their order. *)
Inductive subsequence {A : Type} : list A -> list A -> Prop :=
| subsequence_nil : subsequence [] []
| subsequence_skip (x : A) (l l' : list A) :
    subsequence l l' -> subsequence l (x :: l')
| subsequence_take (x : A) (l l' : list A) :
    subsequence l l' -> subsequence (x :: l) (x :: l').

Lemma subsequence_refl {A : Type} (l : list A) : subsequence l l.
Proof. induction l; constructor; assumption. Qed.

Lemma subsequence_in {A : Type} (l l' : list A) (x : A) :
  subsequence l l' -> In x l -> In x l'.
Proof.
  induction 1 as [|y l l' _ IH|y l l' _ IH]; simpl; [tauto | auto |].
  intros [->|H]; auto.
Qed.

(** [a] occurs in [b] as a run of consecutive characters. *)
Definition occurs_in (a b : list ascii) : Prop :=
  exists before after, b = (before ++ a ++ after)%list.

Lemma occurs_in_refl (a : list ascii) : occurs_in a a.
Proof. exists [], []. simpl. rewrite app_nil_r. reflexivity. Qed.

Lemma occurs_in_trans (a b c : list ascii) :
  occurs_in a b -> occurs_in b c -> occurs_in a c.
Proof.
  intros (p1 & q1 & ->) (p2 & q2 & ->).
  exists (p2 ++ p1)%list, (q1 ++ q2)%list. rewrite <- !app_assoc. reflexivity.
Qed.

Lemma chars_text_of (l : list ascii) : chars (text_of l) = l.
Proof. apply list_ascii_of_string_of_list_ascii. Qed.

Lemma lstrip_chars_suffix (l : list ascii) :
  exists before, l = (before ++ lstrip_chars l)%list.
Proof.
  induction l as [|c l [before IH]]; simpl.
  - exists []. reflexivity.
  - destruct (isspace c).
    + exists (c :: before). simpl. rewrite <- IH. reflexivity.
    + exists []. reflexivity.
Qed.

(** What [strip] returns occurs in its argument. *)
Lemma strip_occurs (s : string) : occurs_in (chars (strip s)) (chars s).
Proof.
  unfold strip. rewrite chars_text_of.
  destruct (lstrip_chars_suffix (chars s)) as [p Hp].
  destruct (lstrip_chars_suffix (rev (lstrip_chars (chars s)))) as [q Hq].
  exists p, (rev q). rewrite Hp at 1. f_equal.
  rewrite <- (rev_involutive (lstrip_chars (chars s))) at 1.
  rewrite Hq at 1. rewrite rev_app_distr. reflexivity.
Qed.

(** A slice of the subject occurs in the subject. *)
Lemma slice_occurs (subject : list ascii) (a b : nat) :
  occurs_in (chars (slice subject a b)) subject.
Proof.
  unfold slice. rewrite chars_text_of.
  exists (firstn a subject), (skipn (b - a) (skipn a subject)).
  rewrite firstn_skipn, firstn_skipn. reflexivity.
Qed.

Lemma group_occurs (subject : list ascii) (m : rmatch) (n : nat) (t : string) :
  group subject m n = Some t -> occurs_in (chars t) subject.
Proof.
  unfold group. destruct n as [|n].
  - intros [= <-]. apply slice_occurs.
  - destruct (get_span (S n) (m_groups m)) as [[a b]|]; [|discriminate].
    intros [= <-]. apply slice_occurs.
Qed.

Lemma pieces_occur (subject : list ascii) (ms : list rmatch) (from : nat) (p : string) :
  In p (pieces subject ms from) -> occurs_in (chars p) subject.
Proof.
  revert from. induction ms as [|m ms IH]; intros from; simpl.
  - intros [<-|[]]. apply slice_occurs.
  - intros [<-|H]; [apply slice_occurs | exact (IH _ H)].
Qed.

(** Every piece [re.split] returns occurs in the text that was split. *)
Lemma re_split_occurs (r : regex) (s p : string) :
  In p (re_split r s) -> occurs_in (chars p) (chars s).
Proof. apply pieces_occur. Qed.

(** * [app/ml/extraction.py] *)

Module Extraction.

Definition terminator : regex := alt [Lit "."; Lit ","; EndAnchor].

Definition TASK_PATTERNS : list pattern :=
  [ {| source := "(?:will|gonna)\s+(\w+.*?)(?:\.|,|$)";
       compiled := seq [alt [lits "will"; lits "gonna"]; plus ws;
                        Group 1 (seq [plus word; lazy_star dot]); terminator] |};
    {| source := "(?:let[\'s]+)\s+(\w+.*?)(?:\.|,|$)";
       compiled := seq [lits "let"; plus (Class false (one_of "'s")); plus ws;
                        Group 1 (seq [plus word; lazy_star dot]); terminator] |};
    {| source := "(?:assigned to|assigned:)\s+(\w+)";
       compiled := seq [alt [lits "assigned to"; lits "assigned:"]; plus ws;
                        Group 1 (plus word)] |};
    {| source := "(?:should|must)\s+(\w+.*?)(?:\.|,|by|$)";
       compiled := seq [alt [lits "should"; lits "must"]; plus ws;
                        Group 1 (seq [plus word; lazy_star dot]);
                        alt [Lit "."; Lit ","; lits "by"; EndAnchor]] |};
    {| source := "(?:need to|need)\s+(\w+.*?)(?:\.|,|$)";
       compiled := seq [alt [lits "need to"; lits "need"]; plus ws;
                        Group 1 (seq [plus word; lazy_star dot]); terminator] |} ].

Definition DECISION_PATTERNS : list pattern :=
  [ {| source := "(?:we )?decided\s+(?:to|that)\s+(.*?)(?:\.|,|$)";
       compiled := seq [opt (lits "we "); lits "decided"; plus ws;
                        alt [lits "to"; lits "that"]; plus ws;
                        Group 1 (lazy_star dot); terminator] |};
    {| source := "(?:agreed\s+(?:to|that|on)?)\s+(.*?)(?:\.|,|$)";
       compiled := seq [lits "agreed"; plus ws;
                        opt (alt [lits "to"; lits "that"; lits "on"]); plus ws;
                        Group 1 (lazy_star dot); terminator] |};
    {| source := "(?:we will)\s+(.*?)(?:going forward|from now on|$)";
       compiled := seq [lits "we will"; plus ws; Group 1 (lazy_star dot);
                        alt [lits "going forward"; lits "from now on"; EndAnchor]] |};
    {| source := "(?:moving forward|henceforth),?\s+(.*?)(?:\.|$)";
       compiled := seq [alt [lits "moving forward"; lits "henceforth"]; opt (Lit ",");
                        plus ws; Group 1 (lazy_star dot); alt [Lit "."; EndAnchor]] |} ].

Definition DEADLINE_KEYWORDS : list string :=
  ["by"; "due"; "deadline"; "until"; "before"; "on"; "next"].

Definition ASSIGNEE_KEYWORDS : list string :=
  ["assigned to"; "assign to"; "owner:"; "responsible:"; "lead:"].

(** [(?<=[.!?])\s+], the sentence boundary. *)
Definition sentence_boundary : regex := seq [Behind false (one_of ".!?"); plus ws].

(** [rf"{keyword}\s+([^,.\n]+)"] *)
Definition deadline_pattern (keyword : string) : regex :=
  seq [lits keyword; plus ws;
       Group 1 (plus (Class true (one_of (String "," (String "." (String "010" EmptyString))))))].

(** [rf"{keyword}\s+(\w+)"] *)
Definition assignee_pattern (keyword : string) : regex :=
  seq [lits keyword; plus ws; Group 1 (plus word)].

(** A candidate dict.  [task] and [decision] are [None] when the dict has no
    such key; [assignee] and [deadline] are [None] when the key is absent or
    holds [None]. *)
Record item : Type := {
  type : string;
  task : option string;
  decision : option string;
  assignee : option string;
  deadline : option string;
  source_sentence : string;
  pattern_matched : string;
  confidence_score : value;
  entities : option (list (string * string));
  spacy_processed : bool;
  llama_validation : option value
}.

Definition set_confidence_score (it : item) (v : value) : item :=
  {| type := type it; task := task it; decision := decision it;
     assignee := assignee it; deadline := deadline it;
     source_sentence := source_sentence it; pattern_matched := pattern_matched it;
     confidence_score := v;
     entities := entities it; spacy_processed := spacy_processed it;
     llama_validation := llama_validation it |}.

Definition set_llama_validation (it : item) (v : value) : item :=
  {| type := type it; task := task it; decision := decision it;
     assignee := assignee it; deadline := deadline it;
     source_sentence := source_sentence it; pattern_matched := pattern_matched it;
     confidence_score := confidence_score it;
     entities := entities it; spacy_processed := spacy_processed it;
     llama_validation := Some v |}.

Definition set_entities (it : item) (ents : list (string * string)) : item :=
  {| type := type it; task := task it; decision := decision it;
     assignee := assignee it; deadline := deadline it;
     source_sentence := source_sentence it; pattern_matched := pattern_matched it;
     confidence_score := confidence_score it;
     entities := Some ents; spacy_processed := true;
     llama_validation := llama_validation it |}.

(** [item.get(key, "")] for the two text keys. *)
Definition text_or_empty (o : option string) : string :=
  match o with Some s => s | None => "" end.

(** A spaCy [Doc]: its number of tokens (its [len], so its truth value) and
    its entities as (label, text) pairs. *)
Record Doc : Type := { n_tokens : nat; ents : list (string * string) }.

(** What the validation prompt is built from. *)
Inductive prompt : Type :=
| TaskPrompt (task : string) (assignee deadline : option string)
| DecisionPrompt (decision : string).

(** A [subprocess.CompletedProcess]. *)
Record CompletedProcess : Type := { returncode : Z; stdout : string }.

(** [self] *)
Record HybridExtractionPipeline : Type := {
  nlp : option (string -> Doc);
  ollama_available : bool
}.

(** One transcription segment. *)
Record segment : Type := {
  speaker : string;
  start_time : string;
  end_time : string;
  text : string
}.

Record metadata : Type := {
  segment_count : nat;
  rule_based_tasks_found : nat;
  rule_based_decisions_found : nat;
  ollama_validation_used : bool
}.

Record extraction : Type := {
  tasks : list item;
  decisions : list item;
  raw_text : string;
  meta : metadata
}.

Section Pipeline.

(** [dateparser.parse(s, languages=['en'])]: [None] when [s] is no date. *)
Variable parse_date : string -> option datetime.
(** [datetime.isoformat] *)
Variable isoformat : datetime -> string.
(** [subprocess.run(["ollama", "run", "llama2", prompt], timeout=10, ...)]:
    the outcome of the n-th call of a validation pass on a prompt.  The
    call raises [TimeoutExpired] after 10 seconds and [OSError] when the
    program cannot be started. *)
Variable subprocess_run : nat -> prompt -> outcome CompletedProcess.
(** [json.loads]: [None] when it raises. *)
Variable json_loads : string -> option value.

(** One keyword of [_extract_deadline]: the capture after the keyword, parsed. *)
Definition deadline_attempt (text : string) (keyword : string) : option string :=
  match re_search (deadline_pattern keyword) true text with
  | Some m =>
      match re_group text m 1 with
      | Some date_str =>
          match parse_date (strip date_str) with
          | Some parsed => Some (isoformat parsed)
          | None => None
          end
      | None => None
      end
  | None => None
  end.

Fixpoint first_deadline (text : string) (keywords : list string) : option string :=
  match keywords with
  | [] => None
  | keyword :: rest =>
      match deadline_attempt text keyword with
      | Some iso => Some iso
      | None => first_deadline text rest
      end
  end.

Definition _extract_deadline (text : string) : option string :=
  first_deadline text DEADLINE_KEYWORDS.

Fixpoint first_assignee (text : string) (keywords : list string) : option string :=
  match keywords with
  | [] => None
  | keyword :: rest =>
      match re_search (assignee_pattern keyword) true text with
      | Some m => option_map strip (re_group text m 1)
      | None => first_assignee text rest
      end
  end.

Definition _extract_assignee (text : string) : option string :=
  first_assignee text ASSIGNEE_KEYWORDS.

(** [match.group(1) if match.groups() else match.group(0)], then [.strip()];
    a group that took no part is [None], which has no [strip]. *)
Definition matched_text (sent : string) (p : pattern) (m : rmatch) : outcome string :=
  match re_group sent m (if Nat.ltb 0 (ngroups (compiled p)) then 1 else 0) with
  | Some t => Ok (strip t)
  | None => Raise AttributeError
  end.

(** The deduplication loop: [seen] holds the lower-cased texts met so far. *)
Fixpoint unique (key : item -> string) (seen : list string) (items : list item)
    : list item :=
  match items with
  | [] => []
  | it :: rest =>
      let k := lower (key it) in
      if existsb (String.eqb k) seen then unique key seen rest
      else it :: unique key (k :: seen) rest
  end.

Definition task_of_match (sent : string) (p : pattern) (m : rmatch) : outcome item :=
  match matched_text sent p m with
  | Ok task_text =>
      Ok {| type := "task"; task := Some task_text; decision := None;
            assignee := _extract_assignee sent; deadline := _extract_deadline sent;
            source_sentence := strip sent; pattern_matched := source p;
            confidence_score := VFloat 0.0;
            entities := None; spacy_processed := false; llama_validation := None |}
  | Raise e => Raise e
  end.

Definition decision_of_match (sent : string) (p : pattern) (m : rmatch) : outcome item :=
  match matched_text sent p m with
  | Ok decision_text =>
      Ok {| type := "decision"; task := None; decision := Some decision_text;
            assignee := None; deadline := None;
            source_sentence := strip sent; pattern_matched := source p;
            confidence_score := VFloat 0.0;
            entities := None; spacy_processed := false; llama_validation := None |}
  | Raise e => Raise e
  end.

(** The three nested loops: sentences, then patterns, then matches. *)
Definition candidates (table : list pattern)
    (build : string -> pattern -> rmatch -> outcome item) (full_text : string)
    : outcome (list item) :=
  collect
    (flat_map (fun sent =>
       flat_map (fun p =>
         map (build sent p) (re_finditer (compiled p) true sent)) table)
       (re_split sentence_boundary full_text)).

Definition _detect_tasks_rules (full_text : string) : outcome (list item) :=
  match candidates TASK_PATTERNS task_of_match full_text with
  | Ok found => Ok (unique (fun it => text_or_empty (task it)) [] found)
  | Raise e => Raise e
  end.

Definition _detect_decisions_rules (full_text : string) : outcome (list item) :=
  match candidates DECISION_PATTERNS decision_of_match full_text with
  | Ok found => Ok (unique (fun it => text_or_empty (decision it)) [] found)
  | Raise e => Raise e
  end.

(** [{ent.label_: ent.text for ent in doc.ents}] *)
Definition entity_dict (d : Doc) : list (string * string) :=
  fold_left (fun acc e => dict_set (fst e) (snd e) acc) (ents d) [].

(** [item.get("task") or item.get("decision", "")] *)
Definition item_text (it : item) : string :=
  if truthy (task it) then text_or_empty (task it) else text_or_empty (decision it).

(** [doc] is falsy when it is [None] or has no token.  Past that test the
    loop calls [self.nlp] on the text of each item; with no model loaded the
    call on the first item raises [TypeError]. *)
Definition _enrich_with_spacy (self : HybridExtractionPipeline) (items : list item)
    (doc : option Doc) : outcome (list item) :=
  match doc with
  | None => Ok items
  | Some d =>
      if Nat.eqb (n_tokens d) 0 then Ok items
      else
        match nlp self, items with
        | Some annotate, _ =>
            Ok (map (fun it => set_entities it (entity_dict (annotate (item_text it))))
                  items)
        | None, [] => Ok items
        | None, _ :: _ => Raise TypeError
        end
  end.

(** [min(a, b)] on floats: [b] when [b < a], else [a]. *)
Definition fmin (a b : float) : float := if (b <? a)%float then b else a.

Definition _calculate_confidence (it : item) (item_type : string) : float :=
  let score := 0.6%float in
  let score :=
    if String.eqb item_type "task" then
      let score := if truthy (assignee it) then (score + 0.15)%float else score in
      let score := if truthy (deadline it) then (score + 0.15)%float else score in
      if Nat.ltb 10 (String.length (text_or_empty (task it)))
      then (score + 0.1)%float else score
    else
      if Nat.ltb 15 (String.length (text_or_empty (decision it)))
      then (score + 0.2)%float else score in
  fmin score 1.0%float.

Definition _set_fallback_confidence (it : item) (item_type : string) : item :=
  set_confidence_score it (VFloat (_calculate_confidence it item_type)).

(** [item['task']] and [item['decision']] raise [KeyError] on a missing key. *)
Definition _build_validation_prompt (it : item) (item_type : string) : outcome prompt :=
  if String.eqb item_type "task" then
    match task it with
    | Some t => Ok (TaskPrompt t (assignee it) (deadline it))
    | None => Raise KeyError
    end
  else
    match decision it with
    | Some d => Ok (DecisionPrompt d)
    | None => Raise KeyError
    end.

(** What one completed oracle call does to its item. *)
Definition apply_response (it : item) (item_type : string) (result : CompletedProcess)
    : item :=
  if Z.eqb (returncode result) 0 then
    match json_loads (stdout result) with
    | Some (VDict response) =>
        set_llama_validation
          (set_confidence_score it (dict_get "confidence" response (VFloat 0.7)))
          (dict_get "valid" response (VBool true))
    | Some _ => _set_fallback_confidence it item_type
    | None => _set_fallback_confidence it item_type
    end
  else _set_fallback_confidence it item_type.

(** The [for] loop of [_validate_with_llama] from its n-th iteration on.  The
    items are updated in place, so when an iteration raises, the items
    before it stay updated. *)
Fixpoint validate_loop (item_type : string) (n : nat) (items : list item)
    : outcome unit * list item :=
  match items with
  | [] => (Ok tt, [])
  | it :: rest =>
      match _build_validation_prompt it item_type with
      | Raise e => (Raise e, it :: rest)
      | Ok p =>
          match subprocess_run n p with
          | Raise e => (Raise e, it :: rest)
          | Ok result =>
              let (o, rest') := validate_loop item_type (S n) rest in
              (o, apply_response it item_type result :: rest')
          end
      end
  end.

Definition _validate_with_llama (items : list item) (item_type : string) : list item :=
  match validate_loop item_type 0 items with
  | (Ok _, items') => items'
  | (Raise _, items') => map (fun it => _set_fallback_confidence it item_type) items'
  end.

Definition extract_from_segments (self : HybridExtractionPipeline)
    (segments : list segment) : outcome extraction :=
  let full_text := join " " (map text segments) in
  match _detect_tasks_rules full_text with
  | Raise e => Raise e
  | Ok rule_based_tasks =>
      match _detect_decisions_rules full_text with
      | Raise e => Raise e
      | Ok rule_based_decisions =>
          let doc := match nlp self with
                     | Some annotate => Some (annotate full_text)
                     | None => None
                     end in
          match _enrich_with_spacy self rule_based_tasks doc with
          | Raise e => Raise e
          | Ok tasks0 =>
          match _enrich_with_spacy self rule_based_decisions doc with
          | Raise e => Raise e
          | Ok decisions0 =>
          let (tasks1, decisions1) :=
            if ollama_available self
            then (_validate_with_llama tasks0 "task",
                  _validate_with_llama decisions0 "decision")
            else (map (fun it => set_confidence_score it
                                   (VFloat (_calculate_confidence it "task"))) tasks0,
                  map (fun it => set_confidence_score it
                                   (VFloat (_calculate_confidence it "decision"))) decisions0) in
          Ok {| tasks := tasks1; decisions := decisions1; raw_text := full_text;
                meta := {| segment_count := List.length segments;
                           rule_based_tasks_found := List.length rule_based_tasks;
                           rule_based_decisions_found := List.length rule_based_decisions;
                           ollama_validation_used := ollama_available self |} |}
          end
          end
      end
  end.

(** ** Facts about the pipeline *)

(** The keyword loop returns the first attempt that succeeds. *)
Lemma first_deadline_some (text : string) (keywords : list string) (iso : string) :
  first_deadline text keywords = Some iso <->
  exists before keyword after,
    keywords = (before ++ keyword :: after)%list
    /\ deadline_attempt text keyword = Some iso
    /\ forall k, In k before -> deadline_attempt text k = None.
Proof.
  induction keywords as [|kw rest IH]; simpl.
  - split; [discriminate|]. intros (before & k & after & E & _). destruct before; discriminate.
  - destruct (deadline_attempt text kw) as [iso'|] eqn:A.
    + split.
      * intros [= ->]. exists [], kw, rest. repeat split; [exact A | intros k []].
      * intros (before & k & after & E & Hk & Hb). destruct before as [|b before].
        -- injection E as -> ->. congruence.
        -- injection E as -> ->. rewrite (Hb b (or_introl eq_refl)) in A. discriminate.
    + rewrite IH. split.
      * intros (before & k & after & -> & Hk & Hb).
        exists (kw :: before), k, after. repeat split; [exact Hk|].
        intros k' [<-|Hin]; [exact A | exact (Hb k' Hin)].
      * intros (before & k & after & E & Hk & Hb). destruct before as [|b before].
        -- injection E as -> ->. congruence.
        -- injection E as -> ->. exists before, k, after. repeat split; [exact Hk|].
           intros k' Hin. apply Hb. right. exact Hin.
Qed.

Lemma first_deadline_none (text : string) (keywords : list string) :
  first_deadline text keywords = None <->
  forall k, In k keywords -> deadline_attempt text k = None.
Proof.
  induction keywords as [|kw rest IH]; simpl.
  - split; [intros _ k [] | reflexivity].
  - destruct (deadline_attempt text kw) eqn:A.
    + split; [discriminate|]. intros H. rewrite (H kw (or_introl eq_refl)) in A. discriminate.
    + rewrite IH. split.
      * intros H k [<-|Hin]; [exact A | exact (H k Hin)].
      * intros H k Hin. apply H. right. exact Hin.
Qed.

(** C5, as the code has it: the keywords are tried in the fixed order, and a
    keyword whose capture does not parse is passed over for the next one.
    The result is the parsed capture of the first keyword, in that order,
    that occurs in the sentence with a capture that parses; it is none
    exactly when no keyword does. *)
Theorem extract_deadline_first_parsing_keyword (text : string) :
  (forall iso,
     _extract_deadline text = Some iso <->
     exists before keyword after,
       DEADLINE_KEYWORDS = (before ++ keyword :: after)%list
       /\ deadline_attempt text keyword = Some iso
       /\ forall k, In k before -> deadline_attempt text k = None)
  /\ (_extract_deadline text = None <->
      forall k, In k DEADLINE_KEYWORDS -> deadline_attempt text k = None).
Proof.
  split; [intros iso; apply first_deadline_some | apply first_deadline_none].
Qed.

(** *** The rules never fail: group 1 takes part in every match *)

Lemma matched_text_ok (sent : string) (p : pattern) (m : rmatch) :
  has_span 1 (m_groups m) = true -> exists t, matched_text sent p m = Ok t.
Proof.
  intros H. unfold matched_text, re_group.
  destruct (Nat.ltb 0 (ngroups (compiled p))).
  - destruct (group_of_set_span (chars sent) m 1 H) as [t ->]. eauto.
  - simpl. eauto.
Qed.

Lemma candidates_total (table : list pattern)
    (build : string -> pattern -> rmatch -> outcome item) (full_text : string) :
  Forall (fun p => always_sets 1 (compiled p) = true) table ->
  (forall sent p m, has_span 1 (m_groups m) = true -> exists it, build sent p m = Ok it) ->
  exists found, candidates table build full_text = Ok found.
Proof.
  intros Htable Hbuild. unfold candidates. apply collect_all_ok.
  apply Forall_flat_map, Forall_forall. intros sent _.
  apply Forall_flat_map. eapply Forall_impl; [|exact Htable].
  intros p Hp. apply Forall_map. unfold re_finditer.
  eapply Forall_impl; [|exact (finditer_from_sets true (chars sent) (compiled p) 1 _ Hp _ _)].
  intros m Hm. exact (Hbuild sent p m Hm).
Qed.

Lemma detect_tasks_rules_total (full_text : string) :
  exists found, _detect_tasks_rules full_text = Ok found.
Proof.
  unfold _detect_tasks_rules.
  destruct (candidates_total TASK_PATTERNS task_of_match full_text) as [found ->].
  - repeat constructor.
  - intros sent p m Hm. unfold task_of_match.
    destruct (matched_text_ok sent p m Hm) as [t ->]. eauto.
  - eauto.
Qed.

Lemma detect_decisions_rules_total (full_text : string) :
  exists found, _detect_decisions_rules full_text = Ok found.
Proof.
  unfold _detect_decisions_rules.
  destruct (candidates_total DECISION_PATTERNS decision_of_match full_text) as [found ->].
  - repeat constructor.
  - intros sent p m Hm. unfold decision_of_match.
    destruct (matched_text_ok sent p m Hm) as [t ->]. eauto.
  - eauto.
Qed.

(** The document the pipeline hands over comes from the model that
    enriches, so the enrichment of the pipeline does not raise. *)
Lemma enrich_in_pipeline (self : HybridExtractionPipeline) (items : list item)
    (full_text : string) :
  exists items',
    _enrich_with_spacy self items
      (match nlp self with
       | Some annotate => Some (annotate full_text)
       | None => None
       end)
    = Ok items'.
Proof.
  unfold _enrich_with_spacy. destruct (nlp self) as [annotate|]; [|eauto].
  destruct (Nat.eqb _ 0); eauto.
Qed.

(** The pipeline returns on every input. *)
Lemma extract_from_segments_total (self : HybridExtractionPipeline)
    (segments : list segment) :
  exists out, extract_from_segments self segments = Ok out.
Proof.
  unfold extract_from_segments. cbv zeta.
  destruct (detect_tasks_rules_total (join " " (map text segments))) as [ts ->].
  destruct (detect_decisions_rules_total (join " " (map text segments))) as [ds ->].
  destruct (enrich_in_pipeline self ts (join " " (map text segments))) as [ts' ->].
  destruct (enrich_in_pipeline self ds (join " " (map text segments))) as [ds' ->].
  destruct (ollama_available self); eauto.
Qed.

(** A confidence that is a float between 0 and 1. *)
Definition in_unit_interval (v : value) : Prop :=
  exists x, v = VFloat x /\ (0 <=? x)%float = true /\ (x <=? 1)%float = true.

Lemma fallback_in_unit_interval (it : item) (item_type : string) :
  in_unit_interval (VFloat (_calculate_confidence it item_type)).
Proof.
  exists (_calculate_confidence it item_type). split; [reflexivity|].
  unfold _calculate_confidence.
  destruct (String.eqb item_type "task").
  - destruct (truthy (assignee it)), (truthy (deadline it)), (Nat.ltb 10 _);
      split; reflexivity.
  - destruct (Nat.ltb 15 _); split; reflexivity.
Qed.

(** The fallback confidence reads no entry that a validation pass writes. *)
Lemma calculate_confidence_set_confidence (it : item) (v : value) (item_type : string) :
  _calculate_confidence (set_confidence_score it v) item_type
  = _calculate_confidence it item_type.
Proof. reflexivity. Qed.

Lemma calculate_confidence_set_validation (it : item) (v : value) (item_type : string) :
  _calculate_confidence (set_llama_validation it v) item_type
  = _calculate_confidence it item_type.
Proof. reflexivity. Qed.

(** The confidence one completed oracle call leaves on its item. *)
Definition resolved_confidence (it : item) (item_type : string) (result : CompletedProcess)
    : value :=
  if Z.eqb (returncode result) 0 then
    match json_loads (stdout result) with
    | Some (VDict response) => dict_get "confidence" response (VFloat 0.7)
    | _ => VFloat (_calculate_confidence it item_type)
    end
  else VFloat (_calculate_confidence it item_type).

Lemma apply_response_confidence (it : item) (item_type : string)
    (result : CompletedProcess) :
  confidence_score (apply_response it item_type result)
  = resolved_confidence it item_type result.
Proof.
  unfold apply_response, resolved_confidence.
  destruct (Z.eqb (returncode result) 0); [|reflexivity].
  destruct (json_loads (stdout result)) as [[]|]; reflexivity.
Qed.

Lemma apply_response_fallback (it : item) (item_type : string)
    (result : CompletedProcess) :
  _calculate_confidence (apply_response it item_type result) item_type
  = _calculate_confidence it item_type.
Proof.
  unfold apply_response.
  destruct (Z.eqb (returncode result) 0); [|reflexivity].
  destruct (json_loads (stdout result)) as [[]|]; reflexivity.
Qed.

Lemma validate_loop_length (item_type : string) (items : list item) (n : nat) :
  List.length (snd (validate_loop item_type n items)) = List.length items.
Proof.
  revert n. induction items as [|it rest IH]; intros n; simpl; [reflexivity|].
  destruct (_build_validation_prompt it item_type) as [p|e]; [|reflexivity].
  destruct (subprocess_run n p) as [result|e]; [|reflexivity].
  specialize (IH (S n)). destruct (validate_loop item_type (S n) rest) as [o rest'].
  simpl in *. rewrite IH. reflexivity.
Qed.

(** Every item a pass leaves behind is an item it received, with the same
    fallback confidence. *)
Lemma validate_loop_fallback (item_type : string) (items : list item) (n : nat) :
  map (fun it => _calculate_confidence it item_type) (snd (validate_loop item_type n items))
  = map (fun it => _calculate_confidence it item_type) items.
Proof.
  revert n. induction items as [|it rest IH]; intros n; simpl; [reflexivity|].
  destruct (_build_validation_prompt it item_type) as [p|e]; [|reflexivity].
  destruct (subprocess_run n p) as [result|e]; [|reflexivity].
  specialize (IH (S n)). destruct (validate_loop item_type (S n) rest) as [o rest'].
  simpl in *. rewrite IH, apply_response_fallback. reflexivity.
Qed.

(** When every call of the pass completes, the loop ends normally and each
    item carries what its own call resolved to. *)
Lemma validate_loop_completes (item_type : string) (items : list item) (n : nat) :
  (forall i it, nth_error items i = Some it ->
     exists p result, _build_validation_prompt it item_type = Ok p
                      /\ subprocess_run (n + i) p = Ok result) ->
  exists items',
    validate_loop item_type n items = (Ok tt, items')
    /\ forall i it, nth_error items i = Some it ->
         exists p result, _build_validation_prompt it item_type = Ok p
                          /\ subprocess_run (n + i) p = Ok result
                          /\ nth_error items' i = Some (apply_response it item_type result).
Proof.
  revert n. induction items as [|it rest IH]; intros n H; simpl.
  - exists []. split; [reflexivity|]. intros [|i] it'; discriminate.
  - destruct (H 0%nat it eq_refl) as (p & result & Hp & Hr).
    rewrite Nat.add_0_r in Hr. rewrite Hp, Hr.
    destruct (IH (S n)) as (rest' & E & Hrest).
    { intros i it' Hi. destruct (H (S i) it' Hi) as (p' & r' & Hp' & Hr').
      rewrite Nat.add_succ_r in Hr'. eauto. }
    rewrite E. eexists. split; [reflexivity|].
    intros [|i] it' Hi; simpl in Hi.
    + injection Hi as <-. exists p, result. rewrite Nat.add_0_r. auto.
    + destruct (Hrest i it' Hi) as (p' & r' & Hp' & Hr' & Hn).
      exists p', r'. rewrite Nat.add_succ_r. auto.
Qed.

(** When a call of the pass raises, the loop is left by an exception. *)
Lemma validate_loop_raises (item_type : string) (items : list item) (n i : nat)
    (it : item) (p : prompt) (e : exn) :
  nth_error items i = Some it ->
  _build_validation_prompt it item_type = Ok p ->
  subprocess_run (n + i) p = Raise e ->
  exists e', fst (validate_loop item_type n items) = Raise e'.
Proof.
  revert n i. induction items as [|hd rest IH]; intros n i Hi Hp Hr.
  - destruct i; discriminate.
  - simpl. destruct i as [|i]; simpl in Hi.
    + injection Hi as ->. rewrite Nat.add_0_r in Hr. rewrite Hp, Hr.
      eexists; reflexivity.
    + destruct (_build_validation_prompt hd item_type) as [q|e1];
        [|eexists; reflexivity].
      destruct (subprocess_run n q) as [result|e1]; [|eexists; reflexivity].
      rewrite Nat.add_succ_r in Hr.
      destruct (IH (S n) i Hi Hp Hr) as [e' E].
      destruct (validate_loop item_type (S n) rest) as [o rest']. simpl in *.
      exists e'. exact E.
Qed.

Lemma validate_with_llama_after_raise (item_type : string) (items : list item) (e : exn) :
  fst (validate_loop item_type 0 items) = Raise e ->
  map confidence_score (_validate_with_llama items item_type)
  = map (fun it => VFloat (_calculate_confidence it item_type)) items.
Proof.
  intros H. unfold _validate_with_llama.
  pose proof (validate_loop_fallback item_type items 0) as F.
  destruct (validate_loop item_type 0 items) as [o items']. simpl in H, F. subst o.
  rewrite map_map. simpl.
  rewrite <- (map_map (fun it => _calculate_confidence it item_type) VFloat items'), F.
  rewrite map_map. reflexivity.
Qed.

(** C7, as the code has it.  A validation pass always returns every
    candidate it was given.  When every oracle call completes, each
    candidate carries what its own call resolved to: the oracle's confidence
    when the call exited with 0 and printed a JSON object, the fallback
    confidence of that candidate alone otherwise.  When an oracle call
    raises (a timeout, a program that cannot be started), every candidate of
    the batch ends with its fallback confidence, those whose call had
    already succeeded included. *)
Theorem oracle_failure_handling (items : list item) (item_type : string) :
  List.length (_validate_with_llama items item_type) = List.length items
  /\ ((forall i it, nth_error items i = Some it ->
         exists p result, _build_validation_prompt it item_type = Ok p
                          /\ subprocess_run i p = Ok result) ->
      forall i it, nth_error items i = Some it ->
        exists p result it',
          _build_validation_prompt it item_type = Ok p
          /\ subprocess_run i p = Ok result
          /\ nth_error (_validate_with_llama items item_type) i = Some it'
          /\ confidence_score it' = resolved_confidence it item_type result)
  /\ (forall i it p e,
        nth_error items i = Some it ->
        _build_validation_prompt it item_type = Ok p ->
        subprocess_run i p = Raise e ->
        map confidence_score (_validate_with_llama items item_type)
        = map (fun it => VFloat (_calculate_confidence it item_type)) items).
Proof.
  split; [|split].
  - unfold _validate_with_llama.
    pose proof (validate_loop_length item_type items 0) as L.
    destruct (validate_loop item_type 0 items) as [[[]|e] items']; simpl in L;
      [exact L | rewrite length_map; exact L].
  - intros H i it Hi.
    destruct (validate_loop_completes item_type items 0 H) as (items' & E & Hall).
    destruct (Hall i it Hi) as (p & result & Hp & Hr & Hn).
    exists p, result, (apply_response it item_type result).
    unfold _validate_with_llama. rewrite E.
    repeat split; [exact Hp | exact Hr | exact Hn | apply apply_response_confidence].
  - intros i it p e Hi Hp Hr.
    destruct (validate_loop_raises item_type items 0 i it p e Hi Hp Hr) as [e' E].
    exact (validate_with_llama_after_raise item_type items e' E).
Qed.

(** The confidence in the JSON object that the oracle prints for the
    candidate at position [i] of a pass: what the call made for the
    candidate, with the prompt built from it, holds under "confidence", or
    0.7 when the object has no such key.  It is [None] when that call does
    not complete with status 0 and a JSON object on its output. *)
Definition oracle_confidence (i : nat) (it : item) (item_type : string) : option value :=
  match _build_validation_prompt it item_type with
  | Ok p =>
      match subprocess_run i p with
      | Ok result =>
          if Z.eqb (returncode result) 0 then
            match json_loads (stdout result) with
            | Some (VDict response) => Some (dict_get "confidence" response (VFloat 0.7))
            | _ => None
            end
          else None
      | Raise _ => None
      end
  | Raise _ => None
  end.

(** How the candidate at position [i] of a returned list came by its
    confidence: it carries its fallback confidence or, with the oracle in
    use, the confidence of the JSON object printed for it; so that it is a
    float between 0 and 1 as soon as the confidence printed for this one
    candidate, if any, is. *)
Definition confidence_resolved (oracle_used : bool) (item_type : string) (i : nat)
    (it : item) : Prop :=
  (confidence_score it = VFloat (_calculate_confidence it item_type)
   \/ (oracle_used = true
       /\ oracle_confidence i it item_type = Some (confidence_score it)))
  /\ ((oracle_used = true ->
       forall v, oracle_confidence i it item_type = Some v -> in_unit_interval v) ->
      in_unit_interval (confidence_score it)).

Lemma confidence_resolved_intro (oracle_used : bool) (item_type : string) (i : nat)
    (it : item) :
  confidence_score it = VFloat (_calculate_confidence it item_type)
  \/ (oracle_used = true /\ oracle_confidence i it item_type = Some (confidence_score it)) ->
  confidence_resolved oracle_used item_type i it.
Proof.
  intros H. split; [exact H|]. intros Hrange.
  destruct H as [->|[Hu Ho]]; [apply fallback_in_unit_interval|].
  exact (Hrange Hu _ Ho).
Qed.

(** The prompt reads no entry that a validation pass writes. *)
Lemma build_validation_prompt_apply_response (it : item) (item_type : string)
    (result : CompletedProcess) :
  _build_validation_prompt (apply_response it item_type result) item_type
  = _build_validation_prompt it item_type.
Proof.
  unfold apply_response.
  destruct (Z.eqb (returncode result) 0); [|reflexivity].
  destruct (json_loads (stdout result)) as [[]|]; reflexivity.
Qed.

(** After a loop that ended normally each item carries its fallback
    confidence or the confidence printed for it. *)
Lemma validate_loop_per_candidate (item_type : string) (items : list item) (n : nat)
    (items' : list item) :
  validate_loop item_type n items = (Ok tt, items') ->
  forall i it, nth_error items' i = Some it ->
    confidence_score it = VFloat (_calculate_confidence it item_type)
    \/ oracle_confidence (n + i) it item_type = Some (confidence_score it).
Proof.
  revert n items'. induction items as [|hd rest IH]; intros n items'; simpl.
  - intros [= <-] [|i] it; discriminate.
  - destruct (_build_validation_prompt hd item_type) as [p|e] eqn:Hp; [|discriminate].
    destruct (subprocess_run n p) as [result|e] eqn:Hr; [|discriminate].
    specialize (IH (S n)). destruct (validate_loop item_type (S n) rest) as [o rest'].
    intros [= -> <-] [|i] it Hi; simpl in Hi.
    + injection Hi as <-. rewrite Nat.add_0_r.
      unfold oracle_confidence.
      rewrite build_validation_prompt_apply_response, Hp, Hr.
      rewrite apply_response_confidence, apply_response_fallback.
      unfold resolved_confidence.
      destruct (Z.eqb (returncode result) 0); [|now left].
      destruct (json_loads (stdout result)) as [[]|]; auto.
    + rewrite Nat.add_succ_r. exact (IH rest' eq_refl i it Hi).
Qed.

(** After a pass each candidate carries its fallback confidence or the
    confidence printed for it. *)
Lemma validate_per_candidate (items : list item) (item_type : string) (i : nat)
    (it : item) :
  nth_error (_validate_with_llama items item_type) i = Some it ->
  confidence_score it = VFloat (_calculate_confidence it item_type)
  \/ oracle_confidence i it item_type = Some (confidence_score it).
Proof.
  unfold _validate_with_llama.
  destruct (validate_loop item_type 0 items) as [[[]|e] items'] eqn:E.
  - exact (validate_loop_per_candidate item_type items 0 items' E i it).
  - intros Hi. apply nth_error_In in Hi. apply in_map_iff in Hi as (x & <- & _).
    left. reflexivity.
Qed.

(** C6, as the code has it, candidate by candidate: the pipeline returns on
    every input, and every candidate it returns, task or decision, carries
    either its fallback confidence, which is a float between 0 and 1, or,
    with the oracle in use, the confidence of the JSON object that the
    oracle printed for this candidate (0.7 when the object has none).  So
    the confidence of a candidate is a float between 0 and 1 whenever the
    confidence printed for this one candidate is, whatever was printed for
    the others; without the oracle, and for a candidate that fell back,
    nothing is assumed. *)
Theorem confidence_in_unit_interval_if_oracle_is (self : HybridExtractionPipeline)
    (segments : list segment) :
  exists out,
    extract_from_segments self segments = Ok out
    /\ (forall i it, nth_error (tasks out) i = Some it ->
          (confidence_score it = VFloat (_calculate_confidence it "task")
           \/ (ollama_available self = true
               /\ oracle_confidence i it "task" = Some (confidence_score it)))
          /\ ((ollama_available self = true ->
               forall v, oracle_confidence i it "task" = Some v -> in_unit_interval v) ->
              in_unit_interval (confidence_score it)))
    /\ (forall i it, nth_error (decisions out) i = Some it ->
          (confidence_score it = VFloat (_calculate_confidence it "decision")
           \/ (ollama_available self = true
               /\ oracle_confidence i it "decision" = Some (confidence_score it)))
          /\ ((ollama_available self = true ->
               forall v, oracle_confidence i it "decision" = Some v ->
                         in_unit_interval v) ->
              in_unit_interval (confidence_score it))).
Proof.
  destruct (extract_from_segments_total self segments) as [out E].
  exists out. split; [exact E|]. revert E. unfold extract_from_segments. cbv zeta.
  destruct (_detect_tasks_rules _) as [found_tasks|e]; [|discriminate].
  destruct (_detect_decisions_rules _) as [found_decisions|e]; [|discriminate].
  destruct (_enrich_with_spacy self found_tasks _) as [tasks0|e]; [|discriminate].
  destruct (_enrich_with_spacy self found_decisions _) as [decisions0|e];
    [|discriminate].
  destruct (ollama_available self).
  - intros [= <-]. cbn [tasks decisions].
    split; intros i it Hi; apply (confidence_resolved_intro true);
      destruct (validate_per_candidate _ _ i it Hi) as [H|H]; auto.
  - intros [= <-]. cbn [tasks decisions].
    split; intros i it Hi; apply (confidence_resolved_intro false); left;
      apply nth_error_In in Hi; apply in_map_iff in Hi as (x & <- & _); reflexivity.
Qed.

(** ** Further facts about the pipeline *)

(** *** Deduplication *)

Lemma seen_spec (k : string) (seen : list string) :
  existsb (String.eqb k) seen = true <-> In k seen.
Proof.
  rewrite existsb_exists. split.
  - intros (x & Hin & E). apply String.eqb_eq in E. subst x. exact Hin.
  - intros H. exists k. split; [exact H | apply String.eqb_refl].
Qed.

Lemma unique_subsequence (key : item -> string) (seen : list string) (items : list item) :
  subsequence (unique key seen items) items.
Proof.
  revert seen. induction items as [|it rest IH]; intros seen; simpl; [constructor|].
  destruct (existsb _ seen); constructor; apply IH.
Qed.

Lemma unique_avoids_seen (key : item -> string) (seen : list string) (items : list item)
    (it : item) :
  In it (unique key seen items) -> ~ In (lower (key it)) seen.
Proof.
  revert seen. induction items as [|x rest IH]; intros seen; simpl; [tauto|].
  destruct (existsb _ seen) eqn:E.
  - apply IH.
  - intros [<-|H].
    + intros Hin. apply seen_spec in Hin. congruence.
    + intros Hin. apply (IH _ H). right. exact Hin.
Qed.

Lemma unique_nodup (key : item -> string) (seen : list string) (items : list item) :
  NoDup (map (fun it => lower (key it)) (unique key seen items)).
Proof.
  revert seen. induction items as [|x rest IH]; intros seen; simpl; [constructor|].
  destruct (existsb _ seen); [apply IH|]. simpl. constructor; [|apply IH].
  intros Hin. apply in_map_iff in Hin as (y & E & Hy).
  apply unique_avoids_seen in Hy. apply Hy. left. symmetry. exact E.
Qed.

Lemma unique_keeps_first (key : item -> string) (seen : list string)
    (before after : list item) (it : item) :
  ~ In (lower (key it)) seen ->
  ~ In (lower (key it)) (map (fun x => lower (key x)) before) ->
  In it (unique key seen (before ++ it :: after)).
Proof.
  revert seen. induction before as [|x before IH]; intros seen Hs Hb; simpl.
  - destruct (existsb _ seen) eqn:E; [apply seen_spec in E; contradiction | now left].
  - simpl in Hb. destruct (existsb _ seen).
    + apply IH; tauto.
    + right. apply IH; [|tauto]. intros [E|Hin]; [|contradiction]. apply Hb. now left.
Qed.

Lemma unique_covers (key : item -> string) (seen : list string) (items : list item)
    (it : item) :
  In it items ->
  In (lower (key it)) seen
  \/ In (lower (key it)) (map (fun x => lower (key x)) (unique key seen items)).
Proof.
  revert seen. induction items as [|x rest IH]; intros seen; simpl; [tauto|].
  intros [->|Hin].
  - destruct (existsb _ seen) eqn:E; [left; apply seen_spec, E | right; now left].
  - destruct (existsb _ seen) eqn:E.
    + apply IH, Hin.
    + destruct (IH (lower (key x) :: seen) Hin) as [[E'|H]|H].
      * right. left. exact E'.
      * left. exact H.
      * right. right. exact H.
Qed.

(** What the deduplication loop makes of the raw candidates: no two kept
    candidates have the same text up to case; the kept ones are raw
    candidates in their order; every raw text is still represented; and the
    first candidate with a text is the one kept. *)
Definition deduplicated (key : item -> string) (raw kept : list item) : Prop :=
  NoDup (map (fun it => lower (key it)) kept)
  /\ subsequence kept raw
  /\ (forall it, In it raw ->
        In (lower (key it)) (map (fun x => lower (key x)) kept))
  /\ (forall before it after,
        raw = (before ++ it :: after)%list ->
        ~ In (lower (key it)) (map (fun x => lower (key x)) before) ->
        In it kept).

Lemma unique_deduplicated (key : item -> string) (raw : list item) :
  deduplicated key raw (unique key [] raw).
Proof.
  split; [apply unique_nodup|]. split; [apply unique_subsequence|]. split.
  - intros it Hin. destruct (unique_covers key [] raw it Hin) as [[]|H]. exact H.
  - intros before it after -> Hb. apply unique_keeps_first; [intros [] | exact Hb].
Qed.

(** X1: the tasks and the decisions that the rules return are the raw
    matches with exact duplicates up to case removed, the first occurrence
    kept and the order preserved. *)
Theorem detected_candidates_are_deduplicated (full_text : string) :
  exists raw_tasks found_tasks raw_decisions found_decisions,
    candidates TASK_PATTERNS task_of_match full_text = Ok raw_tasks
    /\ _detect_tasks_rules full_text = Ok found_tasks
    /\ deduplicated (fun it => text_or_empty (task it)) raw_tasks found_tasks
    /\ candidates DECISION_PATTERNS decision_of_match full_text = Ok raw_decisions
    /\ _detect_decisions_rules full_text = Ok found_decisions
    /\ deduplicated (fun it => text_or_empty (decision it)) raw_decisions found_decisions.
Proof.
  destruct (candidates_total TASK_PATTERNS task_of_match full_text) as [rt Ht].
  { repeat constructor. }
  { intros sent p m Hm. unfold task_of_match.
    destruct (matched_text_ok sent p m Hm) as [t ->]. eauto. }
  destruct (candidates_total DECISION_PATTERNS decision_of_match full_text) as [rd Hd].
  { repeat constructor. }
  { intros sent p m Hm. unfold decision_of_match.
    destruct (matched_text_ok sent p m Hm) as [t ->]. eauto. }
  exists rt, (unique (fun it => text_or_empty (task it)) [] rt),
         rd, (unique (fun it => text_or_empty (decision it)) [] rd).
  unfold _detect_tasks_rules, _detect_decisions_rules. rewrite Ht, Hd.
  repeat split; try apply unique_deduplicated.
Qed.

(** *** What enrichment and validation leave alone *)

(** The entries of a candidate that the rules write and no later step
    touches. *)
Definition extracted_fields (it : item)
    : string * option string * option string * option string * option string
      * string * string :=
  (type it, task it, decision it, assignee it, deadline it, source_sentence it,
   pattern_matched it).

Lemma enrich_untouched (self : HybridExtractionPipeline) (items items' : list item)
    (doc : option Doc) :
  _enrich_with_spacy self items doc = Ok items' ->
  map (fun it => (extracted_fields it, confidence_score it, llama_validation it)) items'
  = map (fun it => (extracted_fields it, confidence_score it, llama_validation it)) items.
Proof.
  unfold _enrich_with_spacy.
  destruct doc as [d|]; [|intros [= <-]; reflexivity].
  destruct (Nat.eqb (n_tokens d) 0); [intros [= <-]; reflexivity|].
  destruct (nlp self) as [annotate|].
  - intros [= <-]. rewrite map_map. reflexivity.
  - destruct items; [intros [= <-]; reflexivity | discriminate].
Qed.

(** X2: enrichment with spaCy is additive.  When it returns, it returns as
    many candidates, in the same order, with the same type, text, assignee,
    deadline, source sentence, pattern, confidence and validation flag; and
    it returns its argument unchanged when the document is [None] or has no
    token.  It raises, and then TypeError, exactly when it is given a
    document with tokens and at least one candidate while no model is
    loaded: the loop calls the missing model.  The pipeline builds the
    document with the model it enriches with, so there the enrichment
    always returns. *)
Theorem enrichment_is_additive (self : HybridExtractionPipeline) (items : list item)
    (doc : option Doc) :
  (forall items',
     _enrich_with_spacy self items doc = Ok items' ->
     map (fun it => (extracted_fields it, confidence_score it, llama_validation it)) items'
     = map (fun it => (extracted_fields it, confidence_score it, llama_validation it))
         items)
  /\ (doc = None \/ (exists d, doc = Some d /\ n_tokens d = 0%nat) ->
      _enrich_with_spacy self items doc = Ok items)
  /\ (forall e,
        _enrich_with_spacy self items doc = Raise e <->
        e = TypeError /\ nlp self = None /\ items <> []
        /\ exists d, doc = Some d /\ n_tokens d <> 0%nat)
  /\ (forall full_text,
        exists items',
          _enrich_with_spacy self items
            (match nlp self with
             | Some annotate => Some (annotate full_text)
             | None => None
             end)
          = Ok items').
Proof.
  split; [intros items'; apply enrich_untouched|]. split; [|split].
  - unfold _enrich_with_spacy. intros [->|(d & -> & Hn)]; [reflexivity|].
    rewrite Hn. reflexivity.
  - intros e. unfold _enrich_with_spacy. split.
    + destruct doc as [d|]; [|discriminate].
      destruct (Nat.eqb_spec (n_tokens d) 0) as [|Hn]; [discriminate|].
      destruct (nlp self) as [annotate|]; [discriminate|].
      destruct items as [|it rest]; [discriminate|].
      intros [= <-]. repeat split; [discriminate|]. exists d. auto.
    + intros (-> & Hnlp & Hitems & d & -> & Hn). rewrite Hnlp.
      destruct (Nat.eqb_spec (n_tokens d) 0) as [|_]; [contradiction|].
      destruct items; [contradiction | reflexivity].
  - intros full_text. apply enrich_in_pipeline.
Qed.

Lemma enrich_fields (self : HybridExtractionPipeline) (items items' : list item)
    (doc : option Doc) :
  _enrich_with_spacy self items doc = Ok items' ->
  map extracted_fields items' = map extracted_fields items.
Proof.
  intros H.
  pose proof (f_equal (map (fun t : _ * value * option value => fst (fst t)))
                (enrich_untouched self items items' doc H)) as E.
  rewrite !map_map in E. exact E.
Qed.

Lemma apply_response_untouched (it : item) (item_type : string)
    (result : CompletedProcess) :
  (extracted_fields (apply_response it item_type result),
   entities (apply_response it item_type result),
   spacy_processed (apply_response it item_type result))
  = (extracted_fields it, entities it, spacy_processed it).
Proof.
  unfold apply_response.
  destruct (Z.eqb (returncode result) 0); [|reflexivity].
  destruct (json_loads (stdout result)) as [[]|]; reflexivity.
Qed.

Lemma validate_loop_untouched (item_type : string) (items : list item) (n : nat) :
  map (fun it => (extracted_fields it, entities it, spacy_processed it))
      (snd (validate_loop item_type n items))
  = map (fun it => (extracted_fields it, entities it, spacy_processed it)) items.
Proof.
  revert n. induction items as [|it rest IH]; intros n; simpl; [reflexivity|].
  destruct (_build_validation_prompt it item_type) as [p|e]; [|reflexivity].
  destruct (subprocess_run n p) as [result|e]; [|reflexivity].
  specialize (IH (S n)). destruct (validate_loop item_type (S n) rest) as [o rest'].
  simpl in *. rewrite IH, apply_response_untouched. reflexivity.
Qed.

Lemma validate_untouched (items : list item) (item_type : string) :
  map (fun it => (extracted_fields it, entities it, spacy_processed it))
      (_validate_with_llama items item_type)
  = map (fun it => (extracted_fields it, entities it, spacy_processed it)) items.
Proof.
  unfold _validate_with_llama.
  pose proof (validate_loop_untouched item_type items 0) as H.
  destruct (validate_loop item_type 0 items) as [[[]|e] items']; simpl in H;
    [exact H|].
  rewrite map_map. simpl. exact H.
Qed.

(** X3: a validation pass writes the confidence and the validation flag
    and nothing else: whatever the oracle answers and however it fails, the
    pass returns the same candidates in the same order with the same type,
    text, assignee, deadline, source sentence, pattern and entities. *)
Theorem validation_changes_confidence_only (items : list item) (item_type : string) :
  map (fun it => (extracted_fields it, entities it, spacy_processed it))
      (_validate_with_llama items item_type)
  = map (fun it => (extracted_fields it, entities it, spacy_processed it)) items.
Proof. exact (validate_untouched items item_type). Qed.

Lemma validate_fields (items : list item) (item_type : string) :
  map extracted_fields (_validate_with_llama items item_type) = map extracted_fields items.
Proof.
  pose proof (f_equal (map (fun t : _ * option (list (string * string)) * bool =>
                              fst (fst t)))
                (validate_untouched items item_type)) as H.
  rewrite !map_map in H. exact H.
Qed.

Lemma fallback_fields (items : list item) (item_type : string) :
  map extracted_fields
      (map (fun it => set_confidence_score it
                        (VFloat (_calculate_confidence it item_type))) items)
  = map extracted_fields items.
Proof. rewrite map_map. reflexivity. Qed.

(** The candidates the pipeline returns, with the fields the rules gave
    them. *)
Lemma extract_from_segments_fields (self : HybridExtractionPipeline)
    (segments : list segment) :
  exists found_tasks found_decisions out,
    _detect_tasks_rules (join " " (map text segments)) = Ok found_tasks
    /\ _detect_decisions_rules (join " " (map text segments)) = Ok found_decisions
    /\ extract_from_segments self segments = Ok out
    /\ map extracted_fields (tasks out) = map extracted_fields found_tasks
    /\ map extracted_fields (decisions out) = map extracted_fields found_decisions
    /\ raw_text out = join " " (map text segments)
    /\ meta out = {| segment_count := List.length segments;
                     rule_based_tasks_found := List.length found_tasks;
                     rule_based_decisions_found := List.length found_decisions;
                     ollama_validation_used := ollama_available self |}.
Proof.
  unfold extract_from_segments. cbv zeta.
  destruct (detect_tasks_rules_total (join " " (map text segments))) as [ts ->].
  destruct (detect_decisions_rules_total (join " " (map text segments))) as [ds ->].
  exists ts, ds.
  destruct (enrich_in_pipeline self ts (join " " (map text segments))) as [ts' Ets].
  destruct (enrich_in_pipeline self ds (join " " (map text segments))) as [ds' Eds].
  rewrite Ets, Eds.
  pose proof (enrich_fields self ts ts' _ Ets) as Fts.
  pose proof (enrich_fields self ds ds' _ Eds) as Fds.
  destruct (ollama_available self); eexists; (split; [reflexivity|]);
    (split; [reflexivity|]); (split; [reflexivity|]); simpl.
  - rewrite !validate_fields, Fts, Fds. repeat split.
  - rewrite !fallback_fields, Fts, Fds. repeat split.
Qed.

(** X4: the pipeline returns on every input, and its metadata describe what
    it returns: the number of segments, the numbers of tasks and decisions
    returned (enrichment and validation drop and add none), whether the
    oracle was used, and the segment texts joined by single spaces as raw
    text.  Without any segment there is no task and no decision. *)
Theorem extraction_metadata_counts (self : HybridExtractionPipeline)
    (segments : list segment) :
  exists out,
    extract_from_segments self segments = Ok out
    /\ segment_count (meta out) = List.length segments
    /\ rule_based_tasks_found (meta out) = List.length (tasks out)
    /\ rule_based_decisions_found (meta out) = List.length (decisions out)
    /\ ollama_validation_used (meta out) = ollama_available self
    /\ raw_text out = join " " (map text segments)
    /\ (segments = [] -> tasks out = [] /\ decisions out = []).
Proof.
  destruct (extract_from_segments_fields self segments)
    as (ts & ds & out & Ht & Hd & E & Ft & Fd & Hr & Hm).
  exists out. split; [exact E|]. rewrite Hm. simpl.
  apply (f_equal (@List.length _)) in Ft as Lt. apply (f_equal (@List.length _)) in Fd as Ld.
  rewrite !length_map in Lt, Ld.
  split; [reflexivity|]. split; [symmetry; exact Lt|]. split; [symmetry; exact Ld|].
  split; [reflexivity|]. split; [exact Hr|].
  intros ->. simpl in Ht, Hd. vm_compute in Ht, Hd.
  injection Ht as <-. injection Hd as <-.
  destruct (tasks out); [|discriminate]. destruct (decisions out); [|discriminate].
  split; reflexivity.
Qed.

(** *** The assignee *)

Lemma assignee_pattern_sets_group (keyword : string) :
  always_sets 1 (assignee_pattern keyword) = true.
Proof.
  unfold assignee_pattern. cbn [seq always_sets]. simpl (Nat.eqb 1 1).
  rewrite !orb_true_r. reflexivity.
Qed.

Lemma assignee_match_has_group (text keyword : string) (m : rmatch) :
  re_search (assignee_pattern keyword) true text = Some m ->
  exists t, re_group text m 1 = Some t.
Proof.
  intros H. apply group_of_set_span.
  exact (search_from_sets true (chars text) _ 1 _ (assignee_pattern_sets_group keyword)
           _ _ _ H).
Qed.

Lemma first_assignee_none (text : string) (keywords : list string) :
  first_assignee text keywords = None <->
  forall k, In k keywords -> re_search (assignee_pattern k) true text = None.
Proof.
  induction keywords as [|kw rest IH]; cbn [first_assignee In].
  - split; [intros _ k [] | reflexivity].
  - destruct (re_search (assignee_pattern kw) true text) as [m|] eqn:E.
    + destruct (assignee_match_has_group _ _ _ E) as [t ->]. cbn [option_map].
      split; [discriminate|]. intros H. specialize (H kw (or_introl eq_refl)). congruence.
    + rewrite IH. split.
      * intros H k [<-|Hin]; [exact E | exact (H k Hin)].
      * intros H k Hin. apply H. right. exact Hin.
Qed.

Lemma first_assignee_some (text : string) (keywords : list string) (a : string) :
  first_assignee text keywords = Some a <->
  exists before keyword after m t,
    keywords = (before ++ keyword :: after)%list
    /\ (forall k, In k before -> re_search (assignee_pattern k) true text = None)
    /\ re_search (assignee_pattern keyword) true text = Some m
    /\ re_group text m 1 = Some t
    /\ a = strip t.
Proof.
  induction keywords as [|kw rest IH]; cbn [first_assignee].
  - split; [discriminate|]. intros (before & k & after & m & t & E & _).
    destruct before; discriminate.
  - destruct (re_search (assignee_pattern kw) true text) as [m|] eqn:E.
    + destruct (assignee_match_has_group _ _ _ E) as [t Ht]. rewrite Ht.
      cbn [option_map]. split.
      * intros [= <-]. exists [], kw, rest, m, t. repeat split; auto. intros k [].
      * intros (before & k & after & m' & t' & Hk & Hb & Hm & Hg & ->).
        destruct before as [|b before].
        -- injection Hk as -> ->. congruence.
        -- injection Hk as -> ->. rewrite (Hb b (or_introl eq_refl)) in E. discriminate.
    + rewrite IH. split.
      * intros (before & k & after & m & t & -> & Hb & Hm & Hg & ->).
        exists (kw :: before), k, after, m, t. repeat split; auto.
        intros k' [<-|Hin]; [exact E | exact (Hb k' Hin)].
      * intros (before & k & after & m & t & Hk & Hb & Hm & Hg & ->).
        destruct before as [|b before].
        -- injection Hk as -> ->. congruence.
        -- injection Hk as -> ->. exists before, k, after, m, t. repeat split; auto.
           intros k' Hin. apply Hb. right. exact Hin.
Qed.

(** X5: the assignee is the word that follows the first keyword, in the
    order "assigned to", "assign to", "owner:", "responsible:", "lead:", that
    occurs in the sentence; a keyword later in the order is looked for only
    when none before it occurs, and the result is none exactly when no
    keyword occurs followed by a word. *)
Theorem extract_assignee_first_keyword (text : string) :
  (_extract_assignee text = None <->
   forall k, In k ASSIGNEE_KEYWORDS -> re_search (assignee_pattern k) true text = None)
  /\ forall a,
       _extract_assignee text = Some a <->
       exists before keyword after m t,
         ASSIGNEE_KEYWORDS = (before ++ keyword :: after)%list
         /\ (forall k, In k before -> re_search (assignee_pattern k) true text = None)
         /\ re_search (assignee_pattern keyword) true text = Some m
         /\ re_group text m 1 = Some t
         /\ a = strip t.
Proof.
  split; [apply first_assignee_none | intros a; apply first_assignee_some].
Qed.

(** *** The fallback confidence *)

(** X6: the fallback confidence lies between 0.6 and 1.0.  For a task it is
    1.0 exactly when the task has an assignee, a deadline and a text of more
    than 10 characters, and 0.6 exactly when it has none of the three; for a
    decision it is 0.8 when the text has more than 15 characters and 0.6
    otherwise. *)
Theorem fallback_confidence_values (it : item) (item_type : string) :
  (0.6 <=? _calculate_confidence it item_type)%float = true
  /\ (_calculate_confidence it item_type <=? 1)%float = true
  /\ (item_type = "task" ->
      ((_calculate_confidence it item_type =? 1)%float = true <->
       truthy (assignee it) = true /\ truthy (deadline it) = true
       /\ Nat.ltb 10 (String.length (text_or_empty (task it))) = true)
      /\ ((_calculate_confidence it item_type =? 0.6)%float = true <->
          truthy (assignee it) = false /\ truthy (deadline it) = false
          /\ Nat.ltb 10 (String.length (text_or_empty (task it))) = false))
  /\ (item_type <> "task" ->
      _calculate_confidence it item_type
      = if Nat.ltb 15 (String.length (text_or_empty (decision it)))
        then 0.8%float else 0.6%float).
Proof.
  unfold _calculate_confidence.
  destruct (String.eqb_spec item_type "task") as [->|Hne].
  - destruct (truthy (assignee it)), (truthy (deadline it)), (Nat.ltb 10 _);
      (split; [reflexivity|]); (split; [reflexivity|]);
      (split; [|intros H; contradiction]); intros _;
      split; split; vm_compute; intuition discriminate.
  - destruct (Nat.ltb 15 _);
      (split; [reflexivity|]); (split; [reflexivity|]);
      (split; [intros H; contradiction|]); intros _; reflexivity.
Qed.

(** *** Nothing is invented *)

Lemma collect_in {A : Type} (l : list (outcome A)) (r : list A) (a : A) :
  collect l = Ok r -> In a r -> In (Ok a) l.
Proof.
  revert r. induction l as [|[x|e] l IH]; intros r; simpl.
  - intros [= <-] [].
  - destruct (collect l) as [r'|e]; [|discriminate].
    intros [= <-] [->|Hin]; [now left | right; exact (IH r' eq_refl Hin)].
  - discriminate.
Qed.

Lemma candidates_in (table : list pattern)
    (build : string -> pattern -> rmatch -> outcome item) (full_text : string)
    (found : list item) (it : item) :
  candidates table build full_text = Ok found -> In it found ->
  exists sent p m,
    In sent (re_split sentence_boundary full_text)
    /\ In p table
    /\ In m (re_finditer (compiled p) true sent)
    /\ build sent p m = Ok it.
Proof.
  unfold candidates. intros Hc Hin. pose proof (collect_in _ _ _ Hc Hin) as H.
  apply in_flat_map in H as (sent & Hs & H).
  apply in_flat_map in H as (p & Hp & H).
  apply in_map_iff in H as (m & Hb & Hm).
  exists sent, p, m. auto.
Qed.

Lemma matched_text_occurs (sent : string) (p : pattern) (m : rmatch) (t : string) :
  matched_text sent p m = Ok t -> occurs_in (chars t) (chars sent).
Proof.
  unfold matched_text, re_group.
  destruct (group (chars sent) m _) as [t0|] eqn:E; [|discriminate].
  intros [= <-]. eapply occurs_in_trans; [apply strip_occurs|].
  exact (group_occurs _ _ _ _ E).
Qed.

Lemma first_assignee_occurs (sent : string) (keywords : list string) (a : string) :
  first_assignee sent keywords = Some a -> occurs_in (chars a) (chars sent).
Proof.
  induction keywords as [|kw rest IH]; cbn [first_assignee]; [discriminate|].
  destruct (re_search (assignee_pattern kw) true sent) as [m|]; [|exact IH].
  unfold re_group. destruct (group (chars sent) m 1) as [t|] eqn:E; [|discriminate].
  intros [= <-]. eapply occurs_in_trans; [apply strip_occurs|].
  exact (group_occurs _ _ _ _ E).
Qed.

(** The words of a candidate, as the rules found them, occur in a text. *)
Definition verbatim (fields : string * option string * option string * option string
                              * option string * string * string)
    (full : list ascii) : Prop :=
  let '(_, task, decision, assignee, _, source_sentence, _) := fields in
  occurs_in (chars (text_or_empty task)) full
  /\ occurs_in (chars (text_or_empty decision)) full
  /\ occurs_in (chars (text_or_empty assignee)) full
  /\ occurs_in (chars source_sentence) full.

Lemma empty_occurs (full : list ascii) : occurs_in (chars "") full.
Proof. exists [], full. reflexivity. Qed.

Lemma task_of_match_verbatim (full_text sent : string) (p : pattern) (m : rmatch)
    (it : item) :
  occurs_in (chars sent) (chars full_text) ->
  task_of_match sent p m = Ok it ->
  verbatim (extracted_fields it) (chars full_text).
Proof.
  intros Hs. unfold task_of_match.
  destruct (matched_text sent p m) as [t|e] eqn:E; [|discriminate].
  intros [= <-]. unfold verbatim, extracted_fields; simpl.
  split; [exact (occurs_in_trans _ _ _ (matched_text_occurs _ _ _ _ E) Hs)|].
  split; [apply empty_occurs|]. split.
  - unfold _extract_assignee.
    destruct (first_assignee sent ASSIGNEE_KEYWORDS) as [a|] eqn:Ea; [|apply empty_occurs].
    exact (occurs_in_trans _ _ _ (first_assignee_occurs _ _ _ Ea) Hs).
  - exact (occurs_in_trans _ _ _ (strip_occurs sent) Hs).
Qed.

Lemma decision_of_match_verbatim (full_text sent : string) (p : pattern) (m : rmatch)
    (it : item) :
  occurs_in (chars sent) (chars full_text) ->
  decision_of_match sent p m = Ok it ->
  verbatim (extracted_fields it) (chars full_text).
Proof.
  intros Hs. unfold decision_of_match.
  destruct (matched_text sent p m) as [t|e] eqn:E; [|discriminate].
  intros [= <-]. unfold verbatim, extracted_fields; simpl.
  split; [apply empty_occurs|].
  split; [exact (occurs_in_trans _ _ _ (matched_text_occurs _ _ _ _ E) Hs)|].
  split; [apply empty_occurs|].
  exact (occurs_in_trans _ _ _ (strip_occurs sent) Hs).
Qed.

Lemma detect_tasks_verbatim (full_text : string) (found : list item) (it : item) :
  _detect_tasks_rules full_text = Ok found -> In it found ->
  verbatim (extracted_fields it) (chars full_text).
Proof.
  unfold _detect_tasks_rules.
  destruct (candidates TASK_PATTERNS task_of_match full_text) as [raw|e] eqn:E;
    [|discriminate].
  intros [= <-] Hin. apply (subsequence_in _ _ _ (unique_subsequence _ _ _)) in Hin.
  destruct (candidates_in _ _ _ _ _ E Hin) as (sent & p & m & Hs & _ & _ & Hb).
  exact (task_of_match_verbatim _ _ _ _ _ (re_split_occurs _ _ _ Hs) Hb).
Qed.

Lemma detect_decisions_verbatim (full_text : string) (found : list item) (it : item) :
  _detect_decisions_rules full_text = Ok found -> In it found ->
  verbatim (extracted_fields it) (chars full_text).
Proof.
  unfold _detect_decisions_rules.
  destruct (candidates DECISION_PATTERNS decision_of_match full_text) as [raw|e] eqn:E;
    [|discriminate].
  intros [= <-] Hin. apply (subsequence_in _ _ _ (unique_subsequence _ _ _)) in Hin.
  destruct (candidates_in _ _ _ _ _ E Hin) as (sent & p & m & Hs & _ & _ & Hb).
  exact (decision_of_match_verbatim _ _ _ _ _ (re_split_occurs _ _ _ Hs) Hb).
Qed.

(** X7: nothing is invented.  The text of every task and of every decision
    the pipeline returns, its assignee and its source sentence occur
    character for character in the raw text, whatever spaCy and the oracle
    do. *)
Theorem candidates_occur_in_raw_text (self : HybridExtractionPipeline)
    (segments : list segment) :
  exists out,
    extract_from_segments self segments = Ok out
    /\ forall it, In it (tasks out ++ decisions out) ->
         occurs_in (chars (text_or_empty (task it))) (chars (raw_text out))
         /\ occurs_in (chars (text_or_empty (decision it))) (chars (raw_text out))
         /\ occurs_in (chars (text_or_empty (assignee it))) (chars (raw_text out))
         /\ occurs_in (chars (source_sentence it)) (chars (raw_text out)).
Proof.
  destruct (extract_from_segments_fields self segments)
    as (ts & ds & out & Ht & Hd & E & Ft & Fd & Hr & _).
  exists out. split; [exact E|]. rewrite Hr. intros it Hin.
  change (verbatim (extracted_fields it) (chars (join " " (map text segments)))).
  apply in_app_or in Hin. destruct Hin as [Hin|Hin].
  - apply (in_map extracted_fields) in Hin. rewrite Ft in Hin.
    apply in_map_iff in Hin as (it0 & <- & Hin0).
    exact (detect_tasks_verbatim _ _ _ Ht Hin0).
  - apply (in_map extracted_fields) in Hin. rewrite Fd in Hin.
    apply in_map_iff in Hin as (it0 & <- & Hin0).
    exact (detect_decisions_verbatim _ _ _ Hd Hin0).
Qed.

(** *** What a task and a decision carry *)

Lemma first_deadline_parsed (text : string) (keywords : list string) (iso : string) :
  first_deadline text keywords = Some iso ->
  exists s d, parse_date s = Some d /\ iso = isoformat d.
Proof.
  induction keywords as [|kw rest IH]; cbn [first_deadline]; [discriminate|].
  destruct (deadline_attempt text kw) as [iso'|] eqn:E; [|exact IH].
  intros [= <-]. unfold deadline_attempt in E.
  destruct (re_search _ true text) as [m|]; [|discriminate].
  destruct (re_group text m 1) as [date_str|]; [|discriminate].
  destruct (parse_date (strip date_str)) as [d|] eqn:P; [|discriminate].
  injection E as <-. eauto.
Qed.

(** The fields of a task as the rules write them. *)
Definition task_shaped (fields : string * option string * option string * option string
                                 * option string * string * string) : Prop :=
  let '(type, task, decision, _, deadline, _, pattern_matched) := fields in
  type = "task" /\ (exists t, task = Some t) /\ decision = None
  /\ In pattern_matched (map source TASK_PATTERNS)
  /\ (deadline = None
      \/ exists s d, parse_date s = Some d /\ deadline = Some (isoformat d)).

(** The fields of a decision as the rules write them. *)
Definition decision_shaped (fields : string * option string * option string
                                     * option string * option string * string * string)
    : Prop :=
  let '(type, task, decision, assignee, deadline, _, pattern_matched) := fields in
  type = "decision" /\ (exists d, decision = Some d) /\ task = None
  /\ assignee = None /\ deadline = None
  /\ In pattern_matched (map source DECISION_PATTERNS).

Lemma detect_tasks_shaped (full_text : string) (found : list item) (it : item) :
  _detect_tasks_rules full_text = Ok found -> In it found ->
  task_shaped (extracted_fields it).
Proof.
  unfold _detect_tasks_rules.
  destruct (candidates TASK_PATTERNS task_of_match full_text) as [raw|e] eqn:E;
    [|discriminate].
  intros [= <-] Hin. apply (subsequence_in _ _ _ (unique_subsequence _ _ _)) in Hin.
  destruct (candidates_in _ _ _ _ _ E Hin) as (sent & p & m & _ & Hp & _ & Hb).
  unfold task_of_match in Hb. destruct (matched_text sent p m) as [t|]; [|discriminate].
  injection Hb as <-. unfold task_shaped, extracted_fields; cbn [type task decision
    assignee deadline source_sentence pattern_matched].
  split; [reflexivity|]. split; [eauto|]. split; [reflexivity|].
  split; [apply in_map; exact Hp|].
  unfold _extract_deadline.
  destruct (first_deadline sent DEADLINE_KEYWORDS) as [iso|] eqn:D; [|now left].
  right. destruct (first_deadline_parsed _ _ _ D) as (s & d & P & ->). eauto.
Qed.

Lemma detect_decisions_shaped (full_text : string) (found : list item) (it : item) :
  _detect_decisions_rules full_text = Ok found -> In it found ->
  decision_shaped (extracted_fields it).
Proof.
  unfold _detect_decisions_rules.
  destruct (candidates DECISION_PATTERNS decision_of_match full_text) as [raw|e] eqn:E;
    [|discriminate].
  intros [= <-] Hin. apply (subsequence_in _ _ _ (unique_subsequence _ _ _)) in Hin.
  destruct (candidates_in _ _ _ _ _ E Hin) as (sent & p & m & _ & Hp & _ & Hb).
  unfold decision_of_match in Hb.
  destruct (matched_text sent p m) as [t|]; [|discriminate].
  injection Hb as <-. unfold decision_shaped, extracted_fields; cbn [type task decision
    assignee deadline source_sentence pattern_matched].
  split; [reflexivity|]. split; [eauto|]. repeat (split; [reflexivity|]).
  apply in_map. exact Hp.
Qed.

Lemma extracted_tasks_shaped (self : HybridExtractionPipeline) (segments : list segment)
    (out : extraction) (it : item) :
  extract_from_segments self segments = Ok out -> In it (tasks out) ->
  task_shaped (extracted_fields it).
Proof.
  destruct (extract_from_segments_fields self segments)
    as (ts & ds & out' & Ht & Hd & E & Ft & Fd & _).
  rewrite E. intros [= <-] Hin.
  apply (in_map extracted_fields) in Hin. rewrite Ft in Hin.
  apply in_map_iff in Hin as (it0 & <- & Hin0).
  exact (detect_tasks_shaped _ _ _ Ht Hin0).
Qed.

(** X9: every item of the returned task list is a task: its type is
    "task", it has a task text and no decision text, the pattern recorded
    with it is one of the task patterns, and its deadline is absent or the
    ISO text of a date the date parser returned.  Every item of the returned
    decision list is a decision, matched by a decision pattern, and carries
    neither assignee nor deadline. *)
Theorem candidates_are_well_shaped (self : HybridExtractionPipeline)
    (segments : list segment) :
  exists out,
    extract_from_segments self segments = Ok out
    /\ (forall it, In it (tasks out) ->
          type it = "task" /\ (exists t, task it = Some t) /\ decision it = None
          /\ In (pattern_matched it) (map source TASK_PATTERNS)
          /\ (deadline it = None
              \/ exists s d, parse_date s = Some d /\ deadline it = Some (isoformat d)))
    /\ (forall it, In it (decisions out) ->
          type it = "decision" /\ (exists d, decision it = Some d) /\ task it = None
          /\ assignee it = None /\ deadline it = None
          /\ In (pattern_matched it) (map source DECISION_PATTERNS)).
Proof.
  destruct (extract_from_segments_fields self segments)
    as (ts & ds & out & Ht & Hd & E & Ft & Fd & _).
  exists out. split; [exact E|]. split; intros it Hin.
  - exact (extracted_tasks_shaped self segments out it E Hin).
  - apply (in_map extracted_fields) in Hin. rewrite Fd in Hin.
    apply in_map_iff in Hin as (it0 & Hf & Hin0).
    pose proof (detect_decisions_shaped _ _ _ Hd Hin0) as H. rewrite Hf in H. exact H.
Qed.

End Pipeline.

(** ** Concrete runs *)

(** A date parser that knows one date, and its rendering. *)
Definition sample_parse_date (s : string) : option datetime :=
  if String.eqb s "2024-05-01"
  then Some {| instant := 1714521600000000; aware := false |}
  else None.

Definition sample_isoformat (d : datetime) : string :=
  if Z.eqb (instant d) 1714521600000000 then "2024-05-01T00:00:00" else "".

(** The text of a JSON object with the one key "confidence". *)
Definition quote : string := String "034" EmptyString.

Definition confidence_reply (number : string) : string :=
  "{" ++ quote ++ "confidence" ++ quote ++ ": " ++ number ++ "}".

(** [json.loads] on the replies used below. *)
Definition sample_json_loads (s : string) : option value :=
  if String.eqb s (confidence_reply "1.5")
  then Some (VDict [("confidence", VFloat 1.5)])
  else if String.eqb s (confidence_reply "0.9")
  then Some (VDict [("confidence", VFloat 0.9)])
  else None.

(** An oracle that answers every prompt with a confidence of 0.9, one that
    answers with 1.5, and one whose second call times out. *)
Definition steady_oracle (n : nat) (p : prompt) : outcome CompletedProcess :=
  Ok {| returncode := 0; stdout := confidence_reply "0.9" |}.

Definition overconfident_oracle (n : nat) (p : prompt) : outcome CompletedProcess :=
  Ok {| returncode := 0; stdout := confidence_reply "1.5" |}.

Definition oracle_timing_out_on_second_call (n : nat) (p : prompt)
    : outcome CompletedProcess :=
  match n with
  | O => Ok {| returncode := 0; stdout := confidence_reply "0.9" |}
  | S _ => Raise TimeoutExpired
  end.

Definition vendor_sentence : string :=
  "We decided to migrate to the new vendor going forward.".

Definition said (t : string) : segment :=
  {| speaker := "Speaker 1"; start_time := "0.0"; end_time := "4.0"; text := t |}.

Definition with_oracle : HybridExtractionPipeline :=
  {| nlp := None; ollama_available := true |}.

(** C4 as stated fails: on the vendor sentence the rules find one decision,
    but its text is what follows "decided to" up to the full stop, not "to
    migrate to the new vendor". *)
Lemma vendor_decision_text_differs :
  match _detect_decisions_rules vendor_sentence with
  | Ok found =>
      map decision found = [Some "migrate to the new vendor going forward"]
      /\ map decision found <> [Some "to migrate to the new vendor"]
  | Raise _ => False
  end.
Proof. vm_compute. split; [reflexivity | discriminate]. Qed.

(** C4, as the code has it: on the vendor sentence the rule-based decision
    detection produces exactly one candidate, matched by the first decision
    pattern, and its text is "migrate to the new vendor going forward". *)
Theorem vendor_sentence_one_decision :
  exists d,
    _detect_decisions_rules vendor_sentence = Ok [d]
    /\ decision d = Some "migrate to the new vendor going forward"
    /\ source_sentence d = vendor_sentence
    /\ pattern_matched d = "(?:we )?decided\s+(?:to|that)\s+(.*?)(?:\.|,|$)".
Proof. eexists. split; [vm_compute; reflexivity|]. repeat split. Qed.

(** C5 as stated fails: in this sentence "by" is the first keyword of the
    order that occurs, its capture "courier" is no date, and yet the result
    is not none: the loop goes on to "due". *)
Lemma later_deadline_keyword_is_tried :
  let sentence := "Send it by courier, due 2024-05-01." in
  match re_search (deadline_pattern "by") true sentence with
  | Some m => re_group sentence m 1 = Some "courier"
  | None => False
  end
  /\ sample_parse_date "courier" = None
  /\ _extract_deadline sample_parse_date sample_isoformat sentence
     = Some "2024-05-01T00:00:00"
  /\ _extract_deadline sample_parse_date sample_isoformat sentence <> None.
Proof. vm_compute. repeat split; discriminate. Qed.

(** C6 as stated fails: with the oracle in use and answering 1.5, the
    decision found in the vendor sentence leaves the pipeline with a
    confidence of 1.5. *)
Lemma oracle_confidence_is_not_clamped :
  match extract_from_segments sample_parse_date sample_isoformat overconfident_oracle
          sample_json_loads with_oracle [said vendor_sentence] with
  | Ok out =>
      map confidence_score (decisions out) = [VFloat 1.5]
      /\ (1.5 <=? 1)%float = false
      /\ exists it, In it (tasks out ++ decisions out)
                    /\ ~ in_unit_interval (confidence_score it)
  | Raise _ => False
  end.
Proof.
  vm_compute. split; [reflexivity|]. split; [reflexivity|].
  eexists. split; [left; reflexivity|].
  intros (x & [= <-] & _ & H). vm_compute in H. discriminate.
Qed.

(** Two decisions in one batch. *)
Definition two_decisions : string :=
  "We decided to migrate to the new vendor going forward. We agreed to ship it.".

(** An oracle that answers the first call of a pass with 0.9 and every later
    call with 1.5. *)
Definition oracle_overconfident_after_first_call (n : nat) (p : prompt)
    : outcome CompletedProcess :=
  match n with
  | O => Ok {| returncode := 0; stdout := confidence_reply "0.9" |}
  | S _ => Ok {| returncode := 0; stdout := confidence_reply "1.5" |}
  end.

(** The two decisions with that oracle: the first decision was answered
    within range and its confidence is between 0 and 1, although the second
    leaves the pipeline with 1.5. *)
Lemma confidence_in_unit_interval_if_oracle_is_witness :
  exists out first second,
    extract_from_segments sample_parse_date sample_isoformat
      oracle_overconfident_after_first_call sample_json_loads with_oracle
      [said two_decisions] = Ok out
    /\ decisions out = [first; second]
    /\ in_unit_interval (confidence_score first)
    /\ confidence_score second = VFloat 1.5.
Proof.
  destruct (confidence_in_unit_interval_if_oracle_is sample_parse_date sample_isoformat
              oracle_overconfident_after_first_call sample_json_loads with_oracle
              [said two_decisions]) as (out & E & _ & Hd).
  assert (exists first second,
            decisions out = [first; second]
            /\ oracle_confidence oracle_overconfident_after_first_call
                 sample_json_loads 0 first "decision" = Some (VFloat 0.9)
            /\ confidence_score second = VFloat 1.5) as (first & second & Hl & Ho & Hs).
  { vm_compute in E. injection E as <-. do 2 eexists.
    split; [reflexivity|]. split; vm_compute; reflexivity. }
  exists out, first, second. split; [exact E|]. split; [exact Hl|]. split; [|exact Hs].
  apply (proj2 (Hd 0%nat first ltac:(rewrite Hl; reflexivity))).
  intros _ v Hv. rewrite Ho in Hv. injection Hv as <-.
  exists 0.9%float. repeat split.
Defined.

(** C7 as stated fails: the oracle answers the first candidate with 0.9 and
    times out on the second.  The first candidate was validated (its
    [llama_validation] is set), yet both leave the pass with their fallback
    confidence, 0.8 and 0.6; the 0.9 is lost. *)
Lemma timeout_resets_validated_candidates :
  match _detect_decisions_rules two_decisions with
  | Ok found =>
      map decision found = [Some "migrate to the new vendor going forward"; Some "ship it"]
      /\ oracle_timing_out_on_second_call 0
           (DecisionPrompt "migrate to the new vendor going forward")
         = Ok {| returncode := 0; stdout := confidence_reply "0.9" |}
      /\ sample_json_loads (confidence_reply "0.9")
         = Some (VDict [("confidence", VFloat 0.9)])
      /\ map confidence_score
           (_validate_with_llama oracle_timing_out_on_second_call sample_json_loads
              found "decision")
         = [VFloat 0.8; VFloat 0.6]
      /\ map llama_validation
           (_validate_with_llama oracle_timing_out_on_second_call sample_json_loads
              found "decision")
         = [Some (VBool true); None]
      /\ VFloat 0.8 <> VFloat 0.9
  | Raise _ => False
  end.
Proof. vm_compute. repeat split; discriminate. Qed.

(** In the courier sentence the keyword that gives the deadline is "due",
    after "by" was tried and passed over. *)
Lemma extract_deadline_first_parsing_keyword_witness :
  exists before keyword after,
    DEADLINE_KEYWORDS = (before ++ keyword :: after)%list
    /\ deadline_attempt sample_parse_date sample_isoformat
         "Send it by courier, due 2024-05-01." keyword = Some "2024-05-01T00:00:00"
    /\ forall k, In k before ->
         deadline_attempt sample_parse_date sample_isoformat
           "Send it by courier, due 2024-05-01." k = None.
Proof.
  apply (proj1 (proj1 (extract_deadline_first_parsing_keyword sample_parse_date
                         sample_isoformat "Send it by courier, due 2024-05-01.") _)).
  vm_compute. reflexivity.
Defined.

(** The two decisions of [two_decisions], as the rules find them. *)
Definition vendor_and_ship : list item :=
  match _detect_decisions_rules two_decisions with
  | Ok found => found
  | Raise _ => []
  end.

(** The two decisions with an oracle that times out on its second call
    (every candidate falls back) and with one that always answers 0.9 (the
    second candidate carries 0.9). *)
Lemma oracle_failure_handling_witness :
  map confidence_score
    (_validate_with_llama oracle_timing_out_on_second_call sample_json_loads
       vendor_and_ship "decision")
  = map (fun it => VFloat (_calculate_confidence it "decision")) vendor_and_ship
  /\ exists it',
       nth_error (_validate_with_llama steady_oracle sample_json_loads
                    vendor_and_ship "decision") 1 = Some it'
       /\ confidence_score it' = VFloat 0.9.
Proof.
  split.
  - eapply (proj2 (proj2 (oracle_failure_handling oracle_timing_out_on_second_call
                            sample_json_loads vendor_and_ship "decision")) 1%nat);
      vm_compute; reflexivity.
  - destruct (proj1 (proj2 (oracle_failure_handling steady_oracle sample_json_loads
                              vendor_and_ship "decision"))) with (i := 1%nat)
      (it := {| type := "decision"; task := None; decision := Some "ship it";
                assignee := None; deadline := None;
                source_sentence := "We agreed to ship it.";
                pattern_matched := "(?:agreed\s+(?:to|that|on)?)\s+(.*?)(?:\.|,|$)";
                confidence_score := VFloat 0.0; entities := None;
                spacy_processed := false; llama_validation := None |})
      as (p & result & it' & Hp & Hr & Hn & Hc).
    + intros i it Hi. destruct i as [|[|i]]; vm_compute in Hi.
      * injection Hi as <-. eexists; eexists. split; vm_compute; reflexivity.
      * injection Hi as <-. eexists; eexists. split; vm_compute; reflexivity.
      * destruct i; discriminate.
    + vm_compute. reflexivity.
    + exists it'. split; [exact Hn|]. rewrite Hc.
      injection Hr as <-. vm_compute. reflexivity.
Defined.

Definition without_oracle : HybridExtractionPipeline :=
  {| nlp := None; ollama_available := false |}.

(** X8: when Ollama is not available the oracle plays no part: the pipeline
    returns the same result whatever [subprocess.run] and [json.loads] would
    have answered. *)
Theorem unavailable_oracle_is_not_consulted
    (parse_date : string -> option datetime) (isoformat : datetime -> string)
    (run1 run2 : nat -> prompt -> outcome CompletedProcess)
    (loads1 loads2 : string -> option value)
    (self : HybridExtractionPipeline) (segments : list segment) :
  ollama_available self = false ->
  extract_from_segments parse_date isoformat run1 loads1 self segments
  = extract_from_segments parse_date isoformat run2 loads2 self segments.
Proof.
  intros H. unfold extract_from_segments. rewrite H. reflexivity.
Qed.

Lemma unavailable_oracle_is_not_consulted_witness :
  extract_from_segments sample_parse_date sample_isoformat steady_oracle
    sample_json_loads without_oracle [said vendor_sentence]
  = extract_from_segments sample_parse_date sample_isoformat
      oracle_timing_out_on_second_call (fun _ => None) without_oracle
      [said vendor_sentence].
Proof.
  apply (unavailable_oracle_is_not_consulted sample_parse_date sample_isoformat
           steady_oracle oracle_timing_out_on_second_call sample_json_loads
           (fun _ => None) without_oracle [said vendor_sentence]).
  reflexivity.
Defined.

End Extraction.

(** * [app/risk/risk_engine.py] *)

Module Risk.

Local Open Scope Z_scope.

Module database.
(** Modelled from the spec: [app.models.database.Task], the mapped class of
    the task table, is not among the sources; its columns are the ones the
    historical store lists ([description], [status], [assignee]) and the ones
    the engine reads ([id], [task_description], [status], [assignee]). *)
Record Task : Type := {
  id : string;
  task_description : string;
  status : string;
  assignee : option string
}.
End database.

(** The two statements the engine executes. *)
Inductive statement : Type :=
| select_other_tasks (current_task_id : option string) (limit : nat)
    (* select(Task).where(Task.id != current_task_id).limit(limit) *)
| select_overdue_tasks (assignee : string).
    (* select(Task).where(and_(Task.assignee == assignee, Task.status == "overdue")) *)

(** The database session: [execute] followed by [.scalars().all()] gives the
    rows or raises. *)
Record AsyncSession : Type := {
  execute : statement -> outcome (list database.Task)
}.

Module transformers.
(** One entry of what the sentiment pipeline returns. *)
Record classification : Type := { label : string; score : float }.
End transformers.

(** [self]; [__init__] stores the session and sets [max_score]. *)
Record RiskEngine : Type := {
  db_session : option AsyncSession;
  max_score : Z
}.

Definition init (db_session : option AsyncSession) : RiskEngine :=
  {| db_session := db_session; max_score := 100 |}.

(** The keys of [task_data] the assessment reads; [task_description]
    defaults to the empty string. *)
Record task_data : Type := {
  task_id : option string;
  task_description : string;
  assignee : option string;
  deadline : option string
}.

Record risk_factor : Type := {
  factor : string;
  points : Z;
  explanation : string
}.

Record risk_breakdown : Type := {
  assignee_risk : Z;
  deadline_risk : Z;
  sentiment_risk : Z;
  repetition_risk : Z;
  historical_risk : Z
}.

Record assessment : Type := {
  result_task_id : option string;
  risk_score : Z;
  risk_level : string;
  risk_factors : list risk_factor;
  total_risk_breakdown : risk_breakdown;
  assessment_timestamp : string
}.

(** What a run can change outside itself: how many times the clock was read
    and which statements were executed, the latest first. *)
Record world : Type := {
  clock_reads : nat;
  executed : list statement
}.

(** A computation that may raise and that acts on the world. *)
Definition M (A : Type) : Type := world -> outcome A * world.

Definition ret {A : Type} (a : A) : M A := fun w => (Ok a, w).

Definition raise {A : Type} (e : exn) : M A := fun w => (Raise e, w).

Definition bind {A B : Type} (c : M A) (k : A -> M B) : M B :=
  fun w =>
    match c w with
    | (Ok a, w') => k a w'
    | (Raise e, w') => (Raise e, w')
    end.

(** [try: c  except Exception: h] *)
Definition try_except {A : Type} (c : M A) (h : exn -> M A) : M A :=
  fun w =>
    match c w with
    | (Ok a, w') => (Ok a, w')
    | (Raise e, w') => h e w'
    end.

Notation "x <- c ;; k" := (bind c (fun x => k))
  (at level 61, c at next level, right associativity).

(** The locals of [assess_task_risk] that the factors update. *)
Record locals : Type := {
  score : Z;
  factors : list risk_factor;
  breakdown : risk_breakdown
}.

Definition award (st : locals) (name : string) (pts : Z) (why : string)
    (update : risk_breakdown -> risk_breakdown) : locals :=
  {| score := score st + pts;
     factors := factors st ++ [ {| factor := name; points := pts; explanation := why |} ];
     breakdown := update (breakdown st) |}.

Definition set_assignee_risk (v : Z) (b : risk_breakdown) : risk_breakdown :=
  {| assignee_risk := v; deadline_risk := deadline_risk b;
     sentiment_risk := sentiment_risk b; repetition_risk := repetition_risk b;
     historical_risk := historical_risk b |}.

Definition set_deadline_risk (v : Z) (b : risk_breakdown) : risk_breakdown :=
  {| assignee_risk := assignee_risk b; deadline_risk := v;
     sentiment_risk := sentiment_risk b; repetition_risk := repetition_risk b;
     historical_risk := historical_risk b |}.

Definition set_sentiment_risk (v : Z) (b : risk_breakdown) : risk_breakdown :=
  {| assignee_risk := assignee_risk b; deadline_risk := deadline_risk b;
     sentiment_risk := v; repetition_risk := repetition_risk b;
     historical_risk := historical_risk b |}.

Definition set_repetition_risk (v : Z) (b : risk_breakdown) : risk_breakdown :=
  {| assignee_risk := assignee_risk b; deadline_risk := deadline_risk b;
     sentiment_risk := sentiment_risk b; repetition_risk := v;
     historical_risk := historical_risk b |}.

Definition set_historical_risk (v : Z) (b : risk_breakdown) : risk_breakdown :=
  {| assignee_risk := assignee_risk b; deadline_risk := deadline_risk b;
     sentiment_risk := sentiment_risk b; repetition_risk := repetition_risk b;
     historical_risk := v |}.

Definition _get_risk_level (score : Z) : string :=
  if score <=? 30 then "Low"
  else if score <=? 60 then "Medium"
  else if score <=? 85 then "High"
  else "Critical".

(** [a < b] on datetimes: a naive and an aware one do not compare. *)
Definition datetime_lt (a b : datetime) : outcome bool :=
  if Bool.eqb (aware a) (aware b) then Ok (instant a <? instant b)
  else Raise TypeError.

Section Engine.

(** The module's [sentiment_pipeline]; [None] when loading the model failed,
    which is when [SENTIMENT_AVAILABLE] is false. *)
Variable sentiment_pipeline : option (string -> outcome (list transformers.classification)).
(** [datetime.fromisoformat]: [None] when it raises [ValueError]. *)
Variable fromisoformat : string -> option datetime.
(** [datetime.isoformat] *)
Variable isoformat : datetime -> string.
(** What the n-th reading of the clock shows. *)
Variable clock : nat -> Z.
(** [difflib.SequenceMatcher(None, a, b).ratio()] *)
Variable ratio : string -> string -> float.

Definition SENTIMENT_AVAILABLE : bool :=
  match sentiment_pipeline with Some _ => true | None => false end.

(** [datetime.utcnow()]: a naive datetime. *)
Definition utcnow : M datetime :=
  fun w => (Ok {| instant := clock (clock_reads w); aware := false |},
            {| clock_reads := S (clock_reads w); executed := executed w |}).

(** [await session.execute(q)], then [.scalars().all()]. *)
Definition run_query (session : AsyncSession) (q : statement) : M (list database.Task) :=
  fun w => (execute session q,
            {| clock_reads := clock_reads w; executed := q :: executed w |}).

Definition _assess_sentiment (text : string) : Z :=
  match sentiment_pipeline with
  | Some classify =>
      match classify (substring 0 512 text) with
      | Ok (result :: _) =>
          if String.eqb (transformers.label result) "NEGATIVE" then 20 else 0
      | Ok [] => 0        (* IndexError, caught *)
      | Raise _ => 0      (* caught *)
      end
  | None => 0             (* NameError, caught *)
  end.

(** The scan over the past tasks. *)
Fixpoint first_repetition (task_desc : string) (past_tasks : list database.Task) : Z :=
  match past_tasks with
  | [] => 0
  | past_task :: rest =>
      let similarity := ratio (lower task_desc) (lower (database.task_description past_task)) in
      if ((0.7 <? similarity)%float
          && existsb (String.eqb (database.status past_task)) ["pending"; "in_progress"])%bool
      then 15
      else first_repetition task_desc rest
  end.

Definition _check_repetition (self : RiskEngine) (task_desc : string)
    (current_task_id : option string) : M Z :=
  match db_session self with
  | None => ret 0
  | Some session =>
      try_except
        (past_tasks <- run_query session (select_other_tasks current_task_id 10) ;;
         ret (first_repetition task_desc past_tasks))
        (fun _ => ret 0)
  end.

Definition _check_historical_delays (self : RiskEngine) (assignee : string) : M Z :=
  match db_session self with
  | None => ret 0
  | Some session =>
      try_except
        (rows <- run_query session (select_overdue_tasks assignee) ;;
         let overdue_count := Z.of_nat (List.length rows) in
         if 3 <=? overdue_count then ret 10
         else if 1 <=? overdue_count then ret 5
         else ret 0)
        (fun _ => ret 0)
  end.

(** Factor 1 *)
Definition assignee_factor (task : task_data) (st : locals) : locals :=
  if (negb (truthy (assignee task))
      || String.eqb (lower (match assignee task with Some a => a | None => "" end)) "none")%bool
  then award st "No Assignee" 30
         "Task ownership is unclear. No one is explicitly responsible."
         (set_assignee_risk 30)
  else st.

(** Factor 2 *)
Definition deadline_factor (task : task_data) (st : locals) : M locals :=
  if negb (truthy (deadline task))
  then ret (award st "No Deadline" 25 "Urgency and completion target undefined."
              (set_deadline_risk 25))
  else
    match fromisoformat (match deadline task with Some d => d | None => "" end) with
    | None => raise ValueError
    | Some due =>
        now <- utcnow ;;
        match datetime_lt due now with
        | Raise e => raise e
        | Ok true =>
            ret (award st "Deadline Passed" 35 "Task deadline has already elapsed."
                   (set_deadline_risk 35))
        | Ok false => ret st
        end
    end.

(** Factor 3 *)
Definition sentiment_factor (task : task_data) (st : locals) : locals :=
  if (SENTIMENT_AVAILABLE && negb (String.eqb (task_description task) ""))%bool
  then
    let sentiment_risk := _assess_sentiment (task_description task) in
    if 0 <? sentiment_risk
    then award st "Negative Sentiment Detected" sentiment_risk
           "Task description contains language suggesting friction or disagreement."
           (set_sentiment_risk sentiment_risk)
    else st
  else st.

(** Factor 4 *)
Definition repetition_factor (self : RiskEngine) (task : task_data) (st : locals)
    : M locals :=
  match db_session self with
  | Some _ =>
      repetition_risk <- _check_repetition self (task_description task) (task_id task) ;;
      if 0 <? repetition_risk
      then ret (award st "Topic Repeated" repetition_risk
                  "Similar tasks have been discussed before but not resolved."
                  (set_repetition_risk repetition_risk))
      else ret st
  | None => ret st
  end.

(** Factor 5 *)
Definition historical_factor (self : RiskEngine) (task : task_data) (st : locals)
    : M locals :=
  match db_session self, truthy (assignee task), assignee task with
  | Some _, true, Some who =>
      historical_risk <- _check_historical_delays self who ;;
      if 0 <? historical_risk
      then ret (award st "Assignee History of Delays" historical_risk
                  (who ++ " has missed deadlines on " ++ str_of_int (historical_risk / 5)
                       ++ " previous tasks.")
                  (set_historical_risk historical_risk))
      else ret st
  | _, _, _ => ret st
  end.

(** The five factors in order, from the initial locals. *)
Definition run_factors (self : RiskEngine) (task : task_data) : M locals :=
  let st := {| score := 0; factors := [];
               breakdown := {| assignee_risk := 0; deadline_risk := 0;
                               sentiment_risk := 0; repetition_risk := 0;
                               historical_risk := 0 |} |} in
  let st := assignee_factor task st in
  st <- deadline_factor task st ;;
  let st := sentiment_factor task st in
  st <- repetition_factor self task st ;;
  historical_factor self task st.

Definition assess_task_risk (self : RiskEngine) (task : task_data) : M assessment :=
  st <- run_factors self task ;;
  let final_score := Z.min (score st) (max_score self) in
  let risk_level := _get_risk_level final_score in
  stamp <- utcnow ;;
  ret {| result_task_id := task_id task;
         risk_score := final_score;
         risk_level := risk_level;
         risk_factors := factors st;
         total_risk_breakdown := breakdown st;
         assessment_timestamp := isoformat stamp |}.

End Engine.

(** ** The run of the five factors in closed form

    What each factor awards, as a function of the task, of the instant the
    clock shows and of what the session answers. *)

Section EngineFacts.

Variable sentiment_pipeline : option (string -> outcome (list transformers.classification)).
Variable fromisoformat : string -> option datetime.
Variable isoformat : datetime -> string.
Variable clock : nat -> Z.
Variable ratio : string -> string -> float.

Definition award_opt (st : locals) (f : option risk_factor)
    (set : Z -> risk_breakdown -> risk_breakdown) : locals :=
  match f with
  | Some f => {| score := score st + points f;
                 factors := factors st ++ [f];
                 breakdown := set (points f) (breakdown st) |}
  | None => st
  end.

Definition no_assignee : risk_factor :=
  {| factor := "No Assignee"; points := 30;
     explanation := "Task ownership is unclear. No one is explicitly responsible." |}.

Definition no_deadline : risk_factor :=
  {| factor := "No Deadline"; points := 25;
     explanation := "Urgency and completion target undefined." |}.

Definition deadline_passed : risk_factor :=
  {| factor := "Deadline Passed"; points := 35;
     explanation := "Task deadline has already elapsed." |}.

Definition negative_sentiment : risk_factor :=
  {| factor := "Negative Sentiment Detected"; points := 20;
     explanation := "Task description contains language suggesting friction or disagreement." |}.

Definition topic_repeated : risk_factor :=
  {| factor := "Topic Repeated"; points := 15;
     explanation := "Similar tasks have been discussed before but not resolved." |}.

Definition history_of_delays (who : string) (pts : Z) : risk_factor :=
  {| factor := "Assignee History of Delays"; points := pts;
     explanation := who ++ " has missed deadlines on " ++ str_of_int (pts / 5)
                        ++ " previous tasks." |}.

Definition assignee_award (task : task_data) : option risk_factor :=
  if (negb (truthy (assignee task))
      || String.eqb (lower (match assignee task with Some a => a | None => "" end)) "none")%bool
  then Some no_assignee else None.

Definition deadline_award (task : task_data) (now : Z) : outcome (option risk_factor) :=
  if negb (truthy (deadline task)) then Ok (Some no_deadline)
  else
    match fromisoformat (match deadline task with Some d => d | None => "" end) with
    | None => Raise ValueError
    | Some due =>
        if aware due then Raise TypeError
        else Ok (if instant due <? now then Some deadline_passed else None)
    end.

Definition sentiment_award (task : task_data) : option risk_factor :=
  if (SENTIMENT_AVAILABLE sentiment_pipeline
      && negb (String.eqb (task_description task) "")
      && (0 <? _assess_sentiment sentiment_pipeline (task_description task)))%bool
  then Some negative_sentiment else None.

(** What [_check_repetition] returns on a session. *)
Definition repetition_points (session : AsyncSession) (task : task_data) : Z :=
  match execute session (select_other_tasks (task_id task) 10) with
  | Ok past_tasks => first_repetition ratio (task_description task) past_tasks
  | Raise _ => 0
  end.

(** What [_check_historical_delays] returns on a session. *)
Definition delay_points (session : AsyncSession) (who : string) : Z :=
  match execute session (select_overdue_tasks who) with
  | Ok rows =>
      if 3 <=? Z.of_nat (List.length rows) then 10
      else if 1 <=? Z.of_nat (List.length rows) then 5
      else 0
  | Raise _ => 0
  end.

Definition repetition_award (db : option AsyncSession) (task : task_data)
    : option risk_factor :=
  match db with
  | Some session =>
      if 0 <? repetition_points session task then Some topic_repeated else None
  | None => None
  end.

Definition historical_award (db : option AsyncSession) (task : task_data)
    : option risk_factor :=
  match db, truthy (assignee task), assignee task with
  | Some session, true, Some who =>
      if 0 <? delay_points session who
      then Some (history_of_delays who (delay_points session who)) else None
  | _, _, _ => None
  end.

(** The statements a run executes, the latest first. *)
Definition statements_of (db : option AsyncSession) (task : task_data) : list statement :=
  match db with
  | Some _ =>
      (if truthy (assignee task)
       then match assignee task with
            | Some who => [select_overdue_tasks who]
            | None => []
            end
       else [])
      ++ [select_other_tasks (task_id task) 10]
  | None => []
  end.

Definition initial_locals : locals :=
  {| score := 0; factors := [];
     breakdown := {| assignee_risk := 0; deadline_risk := 0; sentiment_risk := 0;
                     repetition_risk := 0; historical_risk := 0 |} |}.

Definition assemble (f1 f2 f3 f4 f5 : option risk_factor) : locals :=
  award_opt
    (award_opt
       (award_opt
          (award_opt (award_opt initial_locals f1 set_assignee_risk) f2 set_deadline_risk)
          f3 set_sentiment_risk)
       f4 set_repetition_risk)
    f5 set_historical_risk.

Lemma first_repetition_cases (task_desc : string) (past_tasks : list database.Task) :
  first_repetition ratio task_desc past_tasks = 0
  \/ first_repetition ratio task_desc past_tasks = 15.
Proof.
  induction past_tasks as [|t rest IH]; simpl.
  - now left.
  - destruct (_ && _)%bool; [now right | exact IH].
Qed.

Lemma assess_sentiment_cases (text : string) :
  _assess_sentiment sentiment_pipeline text = 0
  \/ _assess_sentiment sentiment_pipeline text = 20.
Proof.
  unfold _assess_sentiment.
  destruct sentiment_pipeline as [classify|]; [|now left].
  destruct (classify _) as [[|c l]|e]; try now left.
  destruct (String.eqb _ _); [now right | now left].
Qed.

Lemma delay_points_cases (session : AsyncSession) (who : string) :
  delay_points session who = 0 \/ delay_points session who = 5
  \/ delay_points session who = 10.
Proof.
  unfold delay_points.
  destruct (execute session _); [|now left].
  destruct (3 <=? _); [now right; right|].
  destruct (1 <=? _); [now right; left | now left].
Qed.

Lemma assignee_factor_eq (task : task_data) (st : locals) :
  assignee_factor task st = award_opt st (assignee_award task) set_assignee_risk.
Proof.
  unfold assignee_factor, assignee_award.
  destruct (_ || _)%bool; reflexivity.
Qed.

Lemma sentiment_factor_eq (task : task_data) (st : locals) :
  sentiment_factor sentiment_pipeline task st
  = award_opt st (sentiment_award task) set_sentiment_risk.
Proof.
  unfold sentiment_factor, sentiment_award.
  destruct (SENTIMENT_AVAILABLE _ && _)%bool; simpl; [|reflexivity].
  destruct (assess_sentiment_cases (task_description task)) as [E|E];
    rewrite E; reflexivity.
Qed.

Lemma deadline_factor_ok (task : task_data) (st : locals) (w : world)
    (f : option risk_factor) :
  deadline_award task (clock (clock_reads w)) = Ok f ->
  deadline_factor fromisoformat clock task st w
  = (Ok (award_opt st f set_deadline_risk),
     {| clock_reads := (if truthy (deadline task) then S (clock_reads w) else clock_reads w);
        executed := executed w |}).
Proof.
  unfold deadline_award, deadline_factor.
  destruct (truthy (deadline task)); simpl.
  - destruct (fromisoformat _) as [due|]; [|discriminate].
    unfold bind, utcnow, datetime_lt; simpl.
    destruct (aware due); simpl; [discriminate|].
    intros [= <-]. destruct (instant due <? _); reflexivity.
  - intros [= <-]. destruct w; reflexivity.
Qed.

Lemma deadline_factor_raise (task : task_data) (st : locals) (w : world) (e : exn) :
  deadline_award task (clock (clock_reads w)) = Raise e ->
  exists w', deadline_factor fromisoformat clock task st w = (Raise e, w')
             /\ executed w' = executed w.
Proof.
  unfold deadline_award, deadline_factor.
  destruct (truthy (deadline task)); simpl; [|discriminate].
  destruct (fromisoformat _) as [due|].
  - unfold bind, utcnow, datetime_lt; simpl.
    destruct (aware due); simpl; [|discriminate].
    intros [= <-]. eexists; split; reflexivity.
  - intros [= <-]. eexists; split; reflexivity.
Qed.

Lemma check_repetition_eq (session : AsyncSession) (task : task_data) (w : world) :
  _check_repetition ratio (init (Some session)) (task_description task) (task_id task) w
  = (Ok (repetition_points session task),
     {| clock_reads := clock_reads w;
        executed := select_other_tasks (task_id task) 10 :: executed w |}).
Proof.
  unfold _check_repetition, repetition_points, try_except, bind, run_query, ret; simpl.
  destruct (execute session _); reflexivity.
Qed.

Lemma check_historical_delays_eq (session : AsyncSession) (who : string) (w : world) :
  _check_historical_delays (init (Some session)) who w
  = (Ok (delay_points session who),
     {| clock_reads := clock_reads w;
        executed := select_overdue_tasks who :: executed w |}).
Proof.
  unfold _check_historical_delays, delay_points, try_except, bind, run_query, ret; simpl.
  destruct (execute session _); [|reflexivity].
  destruct (3 <=? _); [reflexivity|]. destruct (1 <=? _); reflexivity.
Qed.

Lemma repetition_factor_eq (db : option AsyncSession) (task : task_data)
    (st : locals) (w : world) :
  repetition_factor ratio (init db) task st w
  = (Ok (award_opt st (repetition_award db task) set_repetition_risk),
     {| clock_reads := clock_reads w;
        executed := match db with
                    | Some _ => select_other_tasks (task_id task) 10 :: executed w
                    | None => executed w
                    end |}).
Proof.
  unfold repetition_factor, repetition_award. destruct db as [session|]; simpl.
  - unfold bind. fold (init (Some session)). rewrite check_repetition_eq.
    destruct (first_repetition_cases (task_description task)
                match execute session (select_other_tasks (task_id task) 10) with
                | Ok l => l | Raise _ => [] end) as [E|E];
      unfold repetition_points in *;
      destruct (execute session _); simpl in *; try rewrite E; reflexivity.
  - destruct w; reflexivity.
Qed.

Lemma historical_factor_eq (db : option AsyncSession) (task : task_data)
    (st : locals) (w : world) :
  historical_factor (init db) task st w
  = (Ok (award_opt st (historical_award db task) set_historical_risk),
     {| clock_reads := clock_reads w;
        executed := match db, truthy (assignee task), assignee task with
                    | Some _, true, Some who => select_overdue_tasks who :: executed w
                    | _, _, _ => executed w
                    end |}).
Proof.
  unfold historical_factor, historical_award.
  destruct db as [session|]; simpl; [|destruct w; reflexivity].
  destruct (truthy (assignee task)); [|destruct w; reflexivity].
  destruct (assignee task) as [who|]; [|destruct w; reflexivity].
  unfold bind. fold (init (Some session)). rewrite check_historical_delays_eq.
  destruct (delay_points_cases session who) as [E|[E|E]]; rewrite E; reflexivity.
Qed.

Definition world_after_factors (db : option AsyncSession) (task : task_data) (w : world)
    : world :=
  {| clock_reads := (if truthy (deadline task) then S (clock_reads w) else clock_reads w);
     executed := statements_of db task ++ executed w |}.

Definition assessment_of (task : task_data) (st : locals) (stamp : Z) : assessment :=
  {| result_task_id := task_id task;
     risk_score := Z.min (score st) 100;
     risk_level := _get_risk_level (Z.min (score st) 100);
     risk_factors := factors st;
     total_risk_breakdown := breakdown st;
     assessment_timestamp := isoformat {| instant := stamp; aware := false |} |}.

Lemma run_factors_ok (db : option AsyncSession) (task : task_data) (w : world)
    (f2 : option risk_factor) :
  deadline_award task (clock (clock_reads w)) = Ok f2 ->
  run_factors sentiment_pipeline fromisoformat clock ratio (init db) task w
  = (Ok (assemble (assignee_award task) f2 (sentiment_award task)
           (repetition_award db task) (historical_award db task)),
     world_after_factors db task w).
Proof.
  intros H. unfold run_factors, bind.
  rewrite (deadline_factor_ok _ _ _ _ H), repetition_factor_eq, historical_factor_eq.
  rewrite assignee_factor_eq, sentiment_factor_eq. simpl.
  unfold assemble, initial_locals, world_after_factors, statements_of.
  do 2 f_equal.
  destruct db as [session|]; [|reflexivity].
  destruct (truthy (assignee task)); [|reflexivity].
  destruct (assignee task); reflexivity.
Qed.

Lemma run_factors_raise (db : option AsyncSession) (task : task_data) (w : world)
    (e : exn) :
  deadline_award task (clock (clock_reads w)) = Raise e ->
  exists w', run_factors sentiment_pipeline fromisoformat clock ratio (init db) task w
             = (Raise e, w')
             /\ executed w' = executed w.
Proof.
  intros H. unfold run_factors, bind.
  destruct (deadline_factor_raise task
              (assignee_factor task
                 {| score := 0; factors := [];
                    breakdown := {| assignee_risk := 0; deadline_risk := 0;
                                    sentiment_risk := 0; repetition_risk := 0;
                                    historical_risk := 0 |} |}) w e H) as (w' & E & Hw).
  rewrite E. exists w'. split; [reflexivity | exact Hw].
Qed.

(** A run that returns: what it returns and what it leaves behind. *)
Lemma assess_returns (db : option AsyncSession) (task : task_data) (w : world)
    (r : assessment) (w' : world) :
  assess_task_risk sentiment_pipeline fromisoformat isoformat clock ratio (init db) task w
  = (Ok r, w') ->
  exists f2,
    deadline_award task (clock (clock_reads w)) = Ok f2
    /\ r = assessment_of task
             (assemble (assignee_award task) f2 (sentiment_award task)
                (repetition_award db task) (historical_award db task))
             (clock (clock_reads (world_after_factors db task w)))
    /\ executed w' = (statements_of db task ++ executed w)%list.
Proof.
  unfold assess_task_risk, bind at 1.
  destruct (deadline_award task (clock (clock_reads w))) as [f2|e] eqn:H.
  - rewrite (run_factors_ok db task w f2 H). unfold bind, utcnow, ret; simpl.
    intros [= <- <-]. exists f2. repeat split.
  - destruct (run_factors_raise db task w e H) as (w1 & E & _). rewrite E. discriminate.
Qed.

(** A run raises only out of the deadline comparison, before any statement
    is executed. *)
Lemma assess_raises (db : option AsyncSession) (task : task_data) (w : world)
    (e : exn) (w' : world) :
  assess_task_risk sentiment_pipeline fromisoformat isoformat clock ratio (init db) task w
  = (Raise e, w') ->
  deadline_award task (clock (clock_reads w)) = Raise e /\ executed w' = executed w.
Proof.
  unfold assess_task_risk, bind at 1.
  destruct (deadline_award task (clock (clock_reads w))) as [f2|e'] eqn:H.
  - rewrite (run_factors_ok db task w f2 H). unfold bind, utcnow, ret; simpl. discriminate.
  - destruct (run_factors_raise db task w e' H) as (w1 & E & Hw). rewrite E.
    intros [= <- <-]. split; [reflexivity | exact Hw].
Qed.

(** A deadline the comparison of factor 2 accepts: missing, or the text of
    a naive datetime. *)
Definition deadline_well_formed (task : task_data) : Prop :=
  truthy (deadline task) = false
  \/ exists s due, deadline task = Some s /\ fromisoformat s = Some due
                   /\ aware due = false.

(** The run returns whenever the deadline is well formed. *)
Lemma assess_total (db : option AsyncSession) (task : task_data) (w : world) :
  deadline_well_formed task ->
  exists r w',
    assess_task_risk sentiment_pipeline fromisoformat isoformat clock ratio (init db) task w
    = (Ok r, w').
Proof.
  intros H.
  assert (exists f2, deadline_award task (clock (clock_reads w)) = Ok f2) as [f2 E].
  { unfold deadline_award. destruct H as [H|(s & due & Hd & Hp & Ha)].
    - rewrite H. simpl. eauto.
    - destruct (truthy (deadline task)); simpl; [|eauto].
      rewrite Hd, Hp, Ha. eauto. }
  unfold assess_task_risk, bind at 1. rewrite (run_factors_ok db task w f2 E).
  unfold bind, utcnow, ret; simpl. eauto.
Qed.

Lemma assignee_award_cases (task : task_data) :
  assignee_award task = None \/ assignee_award task = Some no_assignee.
Proof. unfold assignee_award. destruct (_ || _)%bool; auto. Qed.

Lemma deadline_award_cases (task : task_data) (now : Z) (f2 : option risk_factor) :
  deadline_award task now = Ok f2 ->
  f2 = None \/ f2 = Some no_deadline \/ f2 = Some deadline_passed.
Proof.
  unfold deadline_award. destruct (negb _); [intros [= <-]; auto|].
  destruct (fromisoformat _) as [due|]; [|discriminate].
  destruct (aware due); [discriminate|].
  intros [= <-]. destruct (_ <? _); auto.
Qed.

Lemma sentiment_award_cases (task : task_data) :
  sentiment_award task = None \/ sentiment_award task = Some negative_sentiment.
Proof. unfold sentiment_award. destruct (_ && _)%bool; auto. Qed.

Lemma repetition_award_cases (db : option AsyncSession) (task : task_data) :
  repetition_award db task = None \/ repetition_award db task = Some topic_repeated.
Proof.
  unfold repetition_award. destruct db; [|auto]. destruct (_ <? _); auto.
Qed.

Lemma historical_award_cases (db : option AsyncSession) (task : task_data) :
  historical_award db task = None
  \/ exists who, historical_award db task = Some (history_of_delays who 5)
                 \/ historical_award db task = Some (history_of_delays who 10).
Proof.
  unfold historical_award. destruct db as [session|]; [|auto].
  destruct (truthy _); [|auto]. destruct (assignee task) as [who|]; [|auto].
  destruct (delay_points_cases session who) as [E|[E|E]]; rewrite E; simpl; eauto.
Qed.

(** Points, list and name of an award that may be absent. *)
Definition pts (f : option risk_factor) : Z :=
  match f with Some f => points f | None => 0 end.

Definition listed (f : option risk_factor) : list risk_factor :=
  match f with Some f => [f] | None => [] end.

Definition named (name : string) (f : option risk_factor) : Prop :=
  match f with Some f => factor f = name | None => True end.

Lemma score_of_assemble (f1 f2 f3 f4 f5 : option risk_factor) :
  score (assemble f1 f2 f3 f4 f5) = pts f1 + pts f2 + pts f3 + pts f4 + pts f5.
Proof. destruct f1, f2, f3, f4, f5; simpl; lia. Qed.

Lemma factors_of_assemble (f1 f2 f3 f4 f5 : option risk_factor) :
  factors (assemble f1 f2 f3 f4 f5)
  = (listed f1 ++ listed f2 ++ listed f3 ++ listed f4 ++ listed f5)%list.
Proof. destruct f1, f2, f3, f4, f5; reflexivity. Qed.

Lemma breakdown_of_assemble (f1 f2 f3 f4 f5 : option risk_factor) :
  breakdown (assemble f1 f2 f3 f4 f5)
  = {| assignee_risk := pts f1; deadline_risk := pts f2; sentiment_risk := pts f3;
       repetition_risk := pts f4; historical_risk := pts f5 |}.
Proof. destruct f1, f2, f3, f4, f5; reflexivity. Qed.

Lemma assignee_award_facts (task : task_data) :
  named "No Assignee" (assignee_award task) /\ 0 <= pts (assignee_award task) <= 30.
Proof.
  destruct (assignee_award_cases task) as [-> | ->]; simpl; split; auto; lia.
Qed.

Lemma deadline_award_facts (task : task_data) (now : Z) (f2 : option risk_factor) :
  deadline_award task now = Ok f2 ->
  (named "No Deadline" f2 \/ named "Deadline Passed" f2) /\ 0 <= pts f2 <= 35.
Proof.
  intros H. destruct (deadline_award_cases task now f2 H) as [-> | [-> | ->]];
    simpl; split; auto; lia.
Qed.

Lemma sentiment_award_facts (task : task_data) :
  named "Negative Sentiment Detected" (sentiment_award task)
  /\ 0 <= pts (sentiment_award task) <= 20.
Proof.
  destruct (sentiment_award_cases task) as [-> | ->]; simpl; split; auto; lia.
Qed.

Lemma repetition_award_facts (db : option AsyncSession) (task : task_data) :
  named "Topic Repeated" (repetition_award db task)
  /\ 0 <= pts (repetition_award db task) <= 15.
Proof.
  destruct (repetition_award_cases db task) as [-> | ->]; simpl; split; auto; lia.
Qed.

Lemma historical_award_facts (db : option AsyncSession) (task : task_data) :
  named "Assignee History of Delays" (historical_award db task)
  /\ 0 <= pts (historical_award db task) <= 10.
Proof.
  destruct (historical_award_cases db task) as [-> | [who [-> | ->]]];
    simpl; split; auto; lia.
Qed.

(** A name that no award carries is not among the factors. *)
Lemma name_not_listed (name other : string) (f : option risk_factor) :
  named other f -> other <> name -> ~ In name (map factor (listed f)).
Proof.
  destruct f as [f|]; simpl; [|tauto].
  intros -> Hne [E|[]]. exact (Hne E).
Qed.

Lemma sum_points_listed (f : option risk_factor) :
  fold_right Z.add 0 (map points (listed f)) = pts f.
Proof. destruct f; simpl; lia. Qed.

Lemma sum_points_app (l1 l2 : list risk_factor) :
  fold_right Z.add 0 (map points (l1 ++ l2))
  = fold_right Z.add 0 (map points l1) + fold_right Z.add 0 (map points l2).
Proof. induction l1 as [|f l1 IH]; simpl; [reflexivity | rewrite IH; lia]. Qed.

(** The sum of the five entries of a breakdown. *)
Definition breakdown_total (b : risk_breakdown) : Z :=
  assignee_risk b + deadline_risk b + sentiment_risk b + repetition_risk b
  + historical_risk b.

(** The factors of an assessment that speak about the deadline. *)
Definition deadline_factors (r : assessment) : list risk_factor :=
  filter (fun f => (String.eqb (factor f) "No Deadline"
                    || String.eqb (factor f) "Deadline Passed")%bool)
         (risk_factors r).

(** C1: whatever the task and whatever the session answers, the run
    returns an assessment when the deadline is well formed, and the score of
    every assessment it returns lies between 0 and 100, with a level that is
    the threshold mapping of that score, with inclusive upper bounds 30, 60
    and 85: 30 is Low, 31 and 60 are Medium, 61 and 85 are High, 86 is
    Critical. *)
Theorem risk_score_bounds_and_level (db : option AsyncSession) (task : task_data)
    (w : world) :
  (deadline_well_formed task ->
   exists r w',
     assess_task_risk sentiment_pipeline fromisoformat isoformat clock ratio
       (init db) task w = (Ok r, w'))
  /\ forall r w',
       assess_task_risk sentiment_pipeline fromisoformat isoformat clock ratio
         (init db) task w = (Ok r, w') ->
       0 <= risk_score r <= 100
       /\ risk_level r = _get_risk_level (risk_score r)
       /\ (risk_score r <= 30 -> risk_level r = "Low")
       /\ (30 < risk_score r <= 60 -> risk_level r = "Medium")
       /\ (60 < risk_score r <= 85 -> risk_level r = "High")
       /\ (85 < risk_score r -> risk_level r = "Critical")
       /\ _get_risk_level 30 = "Low" /\ _get_risk_level 31 = "Medium"
       /\ _get_risk_level 60 = "Medium" /\ _get_risk_level 61 = "High"
       /\ _get_risk_level 85 = "High" /\ _get_risk_level 86 = "Critical".
Proof.
  split; [apply assess_total|].
  intros r w' H. destruct (assess_returns db task w r w' H) as (f2 & Hd & -> & _).
  unfold assessment_of; simpl. rewrite score_of_assemble.
  pose proof (assignee_award_facts task) as [_ B1].
  pose proof (deadline_award_facts _ _ _ Hd) as [_ B2].
  pose proof (sentiment_award_facts task) as [_ B3].
  pose proof (repetition_award_facts db task) as [_ B4].
  pose proof (historical_award_facts db task) as [_ B5].
  set (total := pts _ + _ + _ + _ + _) in *.
  split; [lia|]. split; [reflexivity|].
  unfold _get_risk_level.
  repeat split; try reflexivity; intros Hs;
    repeat match goal with
           | |- context [?a <=? ?b] => destruct (Z.leb_spec a b)
           end; try reflexivity; lia.
Qed.

(** C9: the run returns an assessment when the deadline is well formed,
    and in every assessment it returns the five entries of the breakdown add
    up to the total before the cap (the [score] the five factors leave, which is also the sum of the
    points of the listed factors); the returned score is that total clamped
    to the range 0..100; and the level is a function of the returned score
    alone. *)
Theorem breakdown_sums_to_preclamp_total (db : option AsyncSession) (task : task_data)
    (w : world) :
  (deadline_well_formed task ->
   exists r w',
     assess_task_risk sentiment_pipeline fromisoformat isoformat clock ratio
       (init db) task w = (Ok r, w'))
  /\ forall r w',
       assess_task_risk sentiment_pipeline fromisoformat isoformat clock ratio
         (init db) task w = (Ok r, w') ->
       exists st w1,
         run_factors sentiment_pipeline fromisoformat clock ratio (init db) task w
         = (Ok st, w1)
         /\ breakdown_total (total_risk_breakdown r) = score st
         /\ fold_right Z.add 0 (map points (risk_factors r)) = score st
         /\ risk_score r = Z.max 0 (Z.min (score st) 100)
         /\ risk_level r = _get_risk_level (risk_score r).
Proof.
  split; [apply assess_total|].
  intros r w' H. destruct (assess_returns db task w r w' H) as (f2 & Hd & -> & _).
  eexists; eexists. split; [exact (run_factors_ok db task w f2 Hd)|].
  unfold assessment_of; simpl.
  rewrite breakdown_of_assemble, factors_of_assemble, score_of_assemble.
  pose proof (assignee_award_facts task) as [_ B1].
  pose proof (deadline_award_facts _ _ _ Hd) as [_ B2].
  pose proof (sentiment_award_facts task) as [_ B3].
  pose proof (repetition_award_facts db task) as [_ B4].
  pose proof (historical_award_facts db task) as [_ B5].
  repeat split.
  - rewrite !sum_points_app, !sum_points_listed. lia.
  - lia.
Qed.

Lemma deadline_filter_other (name : string) (f : option risk_factor) :
  named name f -> name <> "No Deadline" -> name <> "Deadline Passed" ->
  filter (fun f => (String.eqb (factor f) "No Deadline"
                    || String.eqb (factor f) "Deadline Passed")%bool) (listed f) = [].
Proof.
  destruct f as [f|]; simpl; [|reflexivity].
  intros -> H1 H2.
  destruct (String.eqb_spec name "No Deadline"); [contradiction|].
  destruct (String.eqb_spec name "Deadline Passed"); [contradiction|]. reflexivity.
Qed.

(** The deadline factors of a returned assessment are what factor 2 awarded. *)
Lemma deadline_factors_eq (db : option AsyncSession) (task : task_data)
    (w : world) (r : assessment) (w' : world) :
  assess_task_risk sentiment_pipeline fromisoformat isoformat clock ratio (init db) task w
  = (Ok r, w') ->
  exists f2, deadline_award task (clock (clock_reads w)) = Ok f2
             /\ deadline_factors r = listed f2.
Proof.
  intros H. destruct (assess_returns db task w r w' H) as (f2 & Hd & -> & _).
  exists f2. split; [exact Hd|].
  unfold deadline_factors, assessment_of; simpl.
  rewrite factors_of_assemble, !filter_app.
  rewrite (deadline_filter_other _ _ (proj1 (assignee_award_facts task))),
          (deadline_filter_other _ _ (proj1 (sentiment_award_facts task))),
          (deadline_filter_other _ _ (proj1 (repetition_award_facts db task))),
          (deadline_filter_other _ _ (proj1 (historical_award_facts db task)));
    try discriminate.
  simpl. rewrite app_nil_r.
  destruct (deadline_award_cases _ _ _ Hd) as [-> | [-> | ->]]; reflexivity.
Qed.

(** C2: the run returns an assessment when the deadline is well formed, and
    in every assessment it returns the factors that speak about the deadline
    are:
    exactly "No Deadline" (25 points) when the deadline is missing; exactly
    "Deadline Passed" (35 points) when the deadline is present and strictly
    before the instant the clock shows when it is compared; none otherwise.
    So the two never occur together. *)
Theorem deadline_factors_exclusive (db : option AsyncSession) (task : task_data)
    (w : world) :
  (deadline_well_formed task ->
   exists r w',
     assess_task_risk sentiment_pipeline fromisoformat isoformat clock ratio
       (init db) task w = (Ok r, w'))
  /\ forall r w',
       assess_task_risk sentiment_pipeline fromisoformat isoformat clock ratio
         (init db) task w = (Ok r, w') ->
       (truthy (deadline task) = false -> deadline_factors r = [no_deadline])
       /\ (forall s due,
             truthy (deadline task) = true -> deadline task = Some s ->
             fromisoformat s = Some due ->
             (instant due < clock (clock_reads w) ->
              deadline_factors r = [deadline_passed])
             /\ (clock (clock_reads w) <= instant due -> deadline_factors r = []))
       /\ ~ (In "No Deadline" (map factor (risk_factors r))
             /\ In "Deadline Passed" (map factor (risk_factors r))).
Proof.
  split; [apply assess_total|].
  intros r w' H. destruct (deadline_factors_eq db task w r w' H) as (f2 & Hd & Hf).
  split; [|split].
  - intros Ht. unfold deadline_award in Hd. rewrite Ht in Hd. simpl in Hd.
    injection Hd as <-. exact Hf.
  - intros s due Ht Hs Hp. unfold deadline_award in Hd.
    rewrite Ht, Hs, Hp in Hd. simpl in Hd.
    destruct (aware due); [discriminate|]. injection Hd as <-.
    split; intros Hc; rewrite Hf.
    + destruct (Z.ltb_spec (instant due) (clock (clock_reads w))); [reflexivity | lia].
    + destruct (Z.ltb_spec (instant due) (clock (clock_reads w))); [lia | reflexivity].
  - intros [H1 H2].
    apply in_map_iff in H1 as (g1 & N1 & I1). apply in_map_iff in H2 as (g2 & N2 & I2).
    assert (In g1 (deadline_factors r)) as J1.
    { apply filter_In. split; [exact I1|]. rewrite N1. reflexivity. }
    assert (In g2 (deadline_factors r)) as J2.
    { apply filter_In. split; [exact I2|]. rewrite N2. reflexivity. }
    rewrite Hf in J1, J2.
    destruct f2 as [f|]; simpl in J1, J2; [|tauto].
    destruct J1 as [<-|[]]. destruct J2 as [<-|[]]. rewrite N1 in N2. discriminate.
Qed.

Lemma name_not_listed2 (name n1 n2 : string) (f : option risk_factor) :
  named n1 f \/ named n2 f -> n1 <> name -> n2 <> name ->
  ~ In name (map factor (listed f)).
Proof. intros [H|H] H1 H2; eapply name_not_listed; eassumption. Qed.

Lemma name_not_in_five (name : string) (f1 f2 f3 f4 f5 : option risk_factor) :
  ~ In name (map factor (listed f1)) -> ~ In name (map factor (listed f2)) ->
  ~ In name (map factor (listed f3)) -> ~ In name (map factor (listed f4)) ->
  ~ In name (map factor (listed f5)) ->
  ~ In name (map factor (listed f1 ++ listed f2 ++ listed f3 ++ listed f4 ++ listed f5)).
Proof. rewrite !map_app, !in_app_iff. tauto. Qed.

(** C3: when a statement that a run executes on the historical store
    raises, the run still returns an assessment (no exception leaves it),
    and in that assessment the factor the statement feeds contributes
    exactly 0 and is not listed: "Topic Repeated" for the scan of the other
    tasks, "Assignee History of Delays" for the count of overdue tasks.  The
    two checks themselves return 0 on a statement that raises. *)
Theorem store_failure_contributes_nothing (session : AsyncSession) (task : task_data)
    (w : world) (out : outcome assessment) (w' : world)
    (new : list statement) (q : statement) (e : exn) :
  assess_task_risk sentiment_pipeline fromisoformat isoformat clock ratio
    (init (Some session)) task w = (out, w') ->
  executed w' = (new ++ executed w)%list ->
  In q new ->
  execute session q = Raise e ->
  (exists r,
     out = Ok r
     /\ (forall id n, q = select_other_tasks id n ->
           repetition_risk (total_risk_breakdown r) = 0
           /\ ~ In "Topic Repeated" (map factor (risk_factors r)))
     /\ (forall who, q = select_overdue_tasks who ->
           historical_risk (total_risk_breakdown r) = 0
           /\ ~ In "Assignee History of Delays" (map factor (risk_factors r))))
  /\ (forall id w0, q = select_other_tasks id 10 ->
        fst (_check_repetition ratio (init (Some session)) (task_description task) id w0)
        = Ok 0)
  /\ (forall who w0, q = select_overdue_tasks who ->
        fst (_check_historical_delays (init (Some session)) who w0) = Ok 0).
Proof.
  intros H Hw Hq He. split; [|split].
  - destruct out as [r|e'].
    + exists r. split; [reflexivity|].
      destruct (assess_returns _ task w r w' H) as (f2 & Hd & -> & Hx).
      rewrite Hx in Hw. apply app_inv_tail in Hw. subst new.
      unfold assessment_of; cbn [total_risk_breakdown risk_factors].
      rewrite breakdown_of_assemble, factors_of_assemble.
      cbn [repetition_risk historical_risk].
      pose proof (assignee_award_facts task) as [N1 _].
      pose proof (deadline_award_facts _ _ _ Hd) as [N2 _].
      pose proof (sentiment_award_facts task) as [N3 _].
      pose proof (repetition_award_facts (Some session) task) as [N4 _].
      pose proof (historical_award_facts (Some session) task) as [N5 _].
      split.
      * intros id n ->.
        assert (repetition_award (Some session) task = None) as E4.
        { unfold statements_of in Hq. apply in_app_or in Hq. destruct Hq as [Hq|Hq].
          - destruct (truthy _); [|destruct Hq]. destruct (assignee task); [|destruct Hq].
            destruct Hq as [Hq|[]]; discriminate.
          - destruct Hq as [Hq|[]]. injection Hq as <- <-.
            unfold repetition_award, repetition_points. rewrite He. reflexivity. }
        rewrite E4. split; [reflexivity|].
        apply name_not_in_five;
          [ eapply name_not_listed | eapply name_not_listed2 | eapply name_not_listed
          | simpl; tauto | eapply name_not_listed ];
          try eassumption; discriminate.
      * intros who ->.
        assert (historical_award (Some session) task = None) as E5.
        { unfold statements_of in Hq. apply in_app_or in Hq. destruct Hq as [Hq|Hq].
          - unfold historical_award.
            destruct (truthy _); [|destruct Hq].
            destruct (assignee task) as [a|]; [|destruct Hq].
            destruct Hq as [Hq|[]]. injection Hq as ->.
            unfold delay_points. rewrite He. reflexivity.
          - destruct Hq as [Hq|[]]; discriminate. }
        rewrite E5. split; [reflexivity|].
        apply name_not_in_five;
          [ eapply name_not_listed | eapply name_not_listed2 | eapply name_not_listed
          | eapply name_not_listed | simpl; tauto ];
          try eassumption; discriminate.
    + exfalso. destruct (assess_raises _ task w e' w' H) as [_ Hx].
      rewrite Hx in Hw.
      assert (List.length (executed w) = List.length (new ++ executed w)%list) as L
        by (rewrite <- Hw; reflexivity).
      rewrite length_app in L. destruct new; [destruct Hq | simpl in L; lia].
  - intros id w0 ->.
    unfold _check_repetition, try_except, bind, run_query, ret; simpl.
    rewrite He. reflexivity.
  - intros who w0 ->.
    unfold _check_historical_delays, try_except, bind, run_query, ret; simpl.
    rewrite He. reflexivity.
Qed.

(** C8, as the code has it: two assessments of the same task on the same
    session list the same factors, with the same points in the same order,
    and give the same score, level and breakdown, provided the clock is on
    the same side of the deadline both times the deadline is compared with
    it.  The clock enters an assessment through that comparison and through
    the timestamp only. *)
Theorem same_side_of_deadline_same_assessment (db : option AsyncSession)
    (task : task_data) (w1 w2 : world) (r1 r2 : assessment) (w1' w2' : world) :
  assess_task_risk sentiment_pipeline fromisoformat isoformat clock ratio (init db) task w1
  = (Ok r1, w1') ->
  assess_task_risk sentiment_pipeline fromisoformat isoformat clock ratio (init db) task w2
  = (Ok r2, w2') ->
  (forall s due, deadline task = Some s -> fromisoformat s = Some due ->
     (instant due <? clock (clock_reads w1)) = (instant due <? clock (clock_reads w2))) ->
  risk_factors r1 = risk_factors r2
  /\ risk_score r1 = risk_score r2
  /\ risk_level r1 = risk_level r2
  /\ total_risk_breakdown r1 = total_risk_breakdown r2.
Proof.
  intros H1 H2 Hside.
  destruct (assess_returns db task w1 r1 w1' H1) as (f & Hf & -> & _).
  destruct (assess_returns db task w2 r2 w2' H2) as (g & Hg & -> & _).
  assert (f = g) as ->.
  { revert Hf Hg. unfold deadline_award.
    destruct (deadline task) as [s|] eqn:Es; simpl; [|congruence].
    destruct (String.eqb s ""); simpl; [congruence|].
    destruct (fromisoformat s) as [due|] eqn:Ep; [|discriminate].
    destruct (aware due); [discriminate|].
    rewrite (Hside s due eq_refl Ep). congruence. }
  unfold assessment_of; simpl. repeat split.
Qed.

(** C10: when the assignee is missing ([None] or the empty string) the run
    executes no statement that counts overdue tasks, whatever the session
    holds, and a returned assessment has 0 points of historical risk and no
    "Assignee History of Delays" factor. *)
Theorem missing_assignee_skips_delay_history (db : option AsyncSession)
    (task : task_data) (w : world) (out : outcome assessment) (w' : world) :
  assignee task = None \/ assignee task = Some "" ->
  assess_task_risk sentiment_pipeline fromisoformat isoformat clock ratio (init db) task w
  = (out, w') ->
  (exists new, executed w' = (new ++ executed w)%list
               /\ forall who, ~ In (select_overdue_tasks who) new)
  /\ (forall r, out = Ok r ->
        historical_risk (total_risk_breakdown r) = 0
        /\ ~ In "Assignee History of Delays" (map factor (risk_factors r))).
Proof.
  intros Ha H.
  assert (truthy (assignee task) = false) as Ht by (destruct Ha as [-> | ->]; reflexivity).
  assert (statements_of db task
          = match db with Some _ => [select_other_tasks (task_id task) 10] | None => [] end)
    as Es by (unfold statements_of; rewrite Ht; reflexivity).
  assert (historical_award db task = None) as E5.
  { unfold historical_award. rewrite Ht. destruct db; reflexivity. }
  destruct out as [r|e].
  - destruct (assess_returns db task w r w' H) as (f2 & Hd & -> & Hx). split.
    + exists (statements_of db task). split; [exact Hx|].
      rewrite Es. intros who Hin. destruct db; simpl in Hin; [|exact Hin].
      destruct Hin as [Hin|[]]. discriminate.
    + intros r' [= <-].
      unfold assessment_of; cbn [total_risk_breakdown risk_factors].
      rewrite breakdown_of_assemble, factors_of_assemble, E5.
      split; [reflexivity|].
      pose proof (assignee_award_facts task) as [N1 _].
      pose proof (deadline_award_facts _ _ _ Hd) as [N2 _].
      pose proof (sentiment_award_facts task) as [N3 _].
      pose proof (repetition_award_facts db task) as [N4 _].
      apply name_not_in_five;
        [ eapply name_not_listed | eapply name_not_listed2 | eapply name_not_listed
        | eapply name_not_listed | simpl; tauto ];
        try eassumption; discriminate.
  - destruct (assess_raises db task w e w' H) as [_ Hx]. split.
    + exists []. split; [exact Hx | intros who []].
    + intros r [=].
Qed.

(** ** Further facts about an assessment *)

(** The names of the factors in the order in which they are evaluated. *)
Definition FACTOR_ORDER : list string :=
  ["No Assignee"; "No Deadline"; "Deadline Passed"; "Negative Sentiment Detected";
   "Topic Repeated"; "Assignee History of Delays"].

(** Whether [names] occur in [order], in that order. *)
Fixpoint in_order (names order : list string) : bool :=
  match order with
  | [] => match names with [] => true | _ :: _ => false end
  | o :: order' =>
      match names with
      | [] => true
      | n :: names' =>
          if String.eqb n o then in_order names' order' else in_order names order'
      end
  end.

(** The breakdown entry a factor is charged to. *)
Definition breakdown_entry (name : string) (b : risk_breakdown) : option Z :=
  if String.eqb name "No Assignee" then Some (assignee_risk b)
  else if (String.eqb name "No Deadline" || String.eqb name "Deadline Passed")%bool
  then Some (deadline_risk b)
  else if String.eqb name "Negative Sentiment Detected" then Some (sentiment_risk b)
  else if String.eqb name "Topic Repeated" then Some (repetition_risk b)
  else if String.eqb name "Assignee History of Delays" then Some (historical_risk b)
  else None.

(** Case analysis on what the five factors awarded. *)
Ltac award_cases db task Hd :=
  let who := fresh "who" in
  destruct (assignee_award_cases task) as [-> | ->];
  destruct (deadline_award_cases _ _ _ Hd) as [-> | [-> | ->]];
  destruct (sentiment_award_cases task) as [-> | ->];
  destruct (repetition_award_cases db task) as [-> | ->];
  destruct (historical_award_cases db task) as [-> | [who [-> | ->]]].

(** X10: the factors of an assessment are listed in the order of their
    evaluation, each at most once, and each with a positive number of
    points: a factor that contributes nothing is not listed. *)
Theorem factors_in_evaluation_order (db : option AsyncSession) (task : task_data)
    (w : world) (r : assessment) (w' : world) :
  assess_task_risk sentiment_pipeline fromisoformat isoformat clock ratio (init db) task w
  = (Ok r, w') ->
  in_order (map factor (risk_factors r)) FACTOR_ORDER = true
  /\ NoDup (map factor (risk_factors r))
  /\ Forall (fun f => 0 < points f) (risk_factors r).
Proof.
  intros H. destruct (assess_returns db task w r w' H) as (f2 & Hd & -> & _).
  unfold assessment_of; cbn [risk_factors]. rewrite factors_of_assemble.
  award_cases db task Hd; cbn [listed app map factor no_assignee no_deadline
    deadline_passed negative_sentiment topic_repeated history_of_delays];
    (split; [reflexivity|]);
    (split; [repeat constructor; cbn [In]; intuition discriminate
            | repeat constructor]).
Qed.

(** X11: every point is traceable.  Each listed factor has exactly the
    points of the breakdown entry it is charged to, and a breakdown entry
    that is not 0 is the points of a listed factor. *)
Theorem every_point_is_traceable (db : option AsyncSession) (task : task_data)
    (w : world) (r : assessment) (w' : world) :
  assess_task_risk sentiment_pipeline fromisoformat isoformat clock ratio (init db) task w
  = (Ok r, w') ->
  (forall f, In f (risk_factors r) ->
     breakdown_entry (factor f) (total_risk_breakdown r) = Some (points f))
  /\ (forall name v,
        breakdown_entry name (total_risk_breakdown r) = Some v -> v <> 0 ->
        exists f, In f (risk_factors r) /\ points f = v
                  /\ breakdown_entry (factor f) (total_risk_breakdown r) = Some v).
Proof.
  intros H. destruct (assess_returns db task w r w' H) as (f2 & Hd & -> & _).
  unfold assessment_of; cbn [risk_factors total_risk_breakdown].
  rewrite factors_of_assemble, breakdown_of_assemble.
  assert (forall f, In f (listed (assignee_award task) ++ listed f2
                          ++ listed (sentiment_award task)
                          ++ listed (repetition_award db task)
                          ++ listed (historical_award db task)) ->
            breakdown_entry (factor f)
              {| assignee_risk := pts (assignee_award task); deadline_risk := pts f2;
                 sentiment_risk := pts (sentiment_award task);
                 repetition_risk := pts (repetition_award db task);
                 historical_risk := pts (historical_award db task) |}
            = Some (points f)) as Hlisted.
  { intros f Hin. revert Hin.
    award_cases db task Hd; cbn [listed app In]; intros Hin;
      repeat (destruct Hin as [<- | Hin]; [reflexivity|]); destruct Hin. }
  split; [exact Hlisted|].
  intros name v He Hv. unfold breakdown_entry in He.
  cbn [assignee_risk deadline_risk sentiment_risk repetition_risk historical_risk] in He.
  assert (forall f : option risk_factor, pts f <> 0 -> exists g, f = Some g) as Hsome.
  { intros [g|]; [eauto | simpl; intros C; contradiction]. }
  assert (forall g, In g (listed (assignee_award task) ++ listed f2
                          ++ listed (sentiment_award task)
                          ++ listed (repetition_award db task)
                          ++ listed (historical_award db task)) ->
            points g = v ->
            exists f, In f (listed (assignee_award task) ++ listed f2
                            ++ listed (sentiment_award task)
                            ++ listed (repetition_award db task)
                            ++ listed (historical_award db task))
                      /\ points f = v
                      /\ breakdown_entry (factor f)
                           {| assignee_risk := pts (assignee_award task);
                              deadline_risk := pts f2;
                              sentiment_risk := pts (sentiment_award task);
                              repetition_risk := pts (repetition_award db task);
                              historical_risk := pts (historical_award db task) |}
                         = Some v) as Hfound.
  { intros g Hin Hp. exists g. split; [exact Hin|]. split; [exact Hp|].
    rewrite <- Hp. apply Hlisted, Hin. }
  destruct (String.eqb name "No Assignee").
  { injection He as <-. destruct (Hsome _ Hv) as [g Eg]. apply (Hfound g).
    - rewrite Eg. rewrite !in_app_iff. left. now left.
    - rewrite Eg. reflexivity. }
  destruct (String.eqb name "No Deadline" || String.eqb name "Deadline Passed")%bool.
  { injection He as <-. destruct (Hsome _ Hv) as [g Eg]. apply (Hfound g).
    - rewrite Eg. rewrite !in_app_iff. right. left. now left.
    - rewrite Eg. reflexivity. }
  destruct (String.eqb name "Negative Sentiment Detected").
  { injection He as <-. destruct (Hsome _ Hv) as [g Eg]. apply (Hfound g).
    - rewrite Eg. rewrite !in_app_iff. right. right. left. now left.
    - rewrite Eg. reflexivity. }
  destruct (String.eqb name "Topic Repeated").
  { injection He as <-. destruct (Hsome _ Hv) as [g Eg]. apply (Hfound g).
    - rewrite Eg. rewrite !in_app_iff. right. right. right. left. now left.
    - rewrite Eg. reflexivity. }
  destruct (String.eqb name "Assignee History of Delays"); [|discriminate].
  injection He as <-. destruct (Hsome _ Hv) as [g Eg]. apply (Hfound g).
  - rewrite Eg. rewrite !in_app_iff. right. right. right. right. now left.
  - rewrite Eg. reflexivity.
Qed.

Lemma no_assignee_awarded_iff (task : task_data) :
  assignee_award task = Some no_assignee <->
  assignee task = None \/ assignee task = Some ""
  \/ exists a, assignee task = Some a /\ lower a = "none".
Proof.
  unfold assignee_award. destruct (assignee task) as [a|]; simpl.
  - destruct (String.eqb_spec a "") as [->|Hne]; simpl.
    + split; auto.
    + destruct (String.eqb_spec (lower a) "none") as [E|Hn]; split; eauto;
        try discriminate.
      intros [H|[H|(b & [= <-] & Hb)]]; try discriminate; congruence.
  - split; auto.
Qed.

Lemma listed_name_in (name : string) (f1 f2 f3 f4 f5 : option risk_factor) :
  In name (map factor (listed f1 ++ listed f2 ++ listed f3 ++ listed f4 ++ listed f5))
  <-> In name (map factor (listed f1)) \/ In name (map factor (listed f2))
      \/ In name (map factor (listed f3)) \/ In name (map factor (listed f4))
      \/ In name (map factor (listed f5)).
Proof. rewrite !map_app, !in_app_iff. tauto. Qed.

(** X12: "No Assignee" is listed, with 30 points, exactly when the assignee
    is missing, is the empty string, or is the word none in any case. *)
Theorem no_assignee_iff_missing_or_none (db : option AsyncSession) (task : task_data)
    (w : world) (r : assessment) (w' : world) :
  assess_task_risk sentiment_pipeline fromisoformat isoformat clock ratio (init db) task w
  = (Ok r, w') ->
  (In "No Assignee" (map factor (risk_factors r)) <->
   assignee task = None \/ assignee task = Some ""
   \/ exists a, assignee task = Some a /\ lower a = "none")
  /\ (In "No Assignee" (map factor (risk_factors r)) ->
      In no_assignee (risk_factors r)
      /\ assignee_risk (total_risk_breakdown r) = 30).
Proof.
  intros H. destruct (assess_returns db task w r w' H) as (f2 & Hd & -> & _).
  unfold assessment_of; cbn [risk_factors total_risk_breakdown].
  rewrite factors_of_assemble, breakdown_of_assemble. cbn [assignee_risk].
  pose proof (deadline_award_facts _ _ _ Hd) as [N2 _].
  pose proof (sentiment_award_facts task) as [N3 _].
  pose proof (repetition_award_facts db task) as [N4 _].
  pose proof (historical_award_facts db task) as [N5 _].
  assert (In "No Assignee"
            (map factor (listed (assignee_award task) ++ listed f2
                         ++ listed (sentiment_award task)
                         ++ listed (repetition_award db task)
                         ++ listed (historical_award db task)))
          <-> assignee_award task = Some no_assignee) as Hiff.
  { rewrite listed_name_in. split.
    - intros [H1|[H1|[H1|[H1|H1]]]].
      + destruct (assignee_award_cases task) as [E|E]; rewrite E in *;
          [destruct H1 | reflexivity].
      + exfalso. revert H1. eapply name_not_listed2; try eassumption; discriminate.
      + exfalso. revert H1. eapply name_not_listed; try eassumption; discriminate.
      + exfalso. revert H1. eapply name_not_listed; try eassumption; discriminate.
      + exfalso. revert H1. eapply name_not_listed; try eassumption; discriminate.
    - intros ->. left. now left. }
  split.
  - rewrite Hiff. apply no_assignee_awarded_iff.
  - intros Hin. apply Hiff in Hin. rewrite Hin. split; [|reflexivity].
    rewrite in_app_iff. left. now left.
Qed.

Lemma both_assignee_factors (db : option AsyncSession) (task : task_data) :
  assignee_award task <> None -> historical_award db task <> None ->
  exists a, assignee task = Some a /\ lower a = "none".
Proof.
  unfold assignee_award, historical_award.
  destruct db as [session|]; [|intros _ C; contradiction].
  destruct (assignee task) as [a|]; simpl.
  - destruct (String.eqb a ""); simpl; [intros _ C; contradiction|].
    destruct (String.eqb_spec (lower a) "none") as [E|_]; [eauto|].
    intros C; contradiction.
  - intros _ C; contradiction.
Qed.

(** X13: the cap at 100 matters only for an assignee that is the word none
    in some case.  For every other task the score is the exact sum of the
    points of the listed factors; and "No Assignee" and "Assignee History
    of Delays" are listed together only for such an assignee, whose overdue
    tasks are looked up although the task counts as unowned. *)
Theorem cap_applies_only_to_assignee_none (db : option AsyncSession) (task : task_data)
    (w : world) (r : assessment) (w' : world) :
  assess_task_risk sentiment_pipeline fromisoformat isoformat clock ratio (init db) task w
  = (Ok r, w') ->
  (risk_score r <> fold_right Z.add 0 (map points (risk_factors r)) ->
   exists a, assignee task = Some a /\ lower a = "none")
  /\ (In "No Assignee" (map factor (risk_factors r)) ->
      In "Assignee History of Delays" (map factor (risk_factors r)) ->
      exists a, assignee task = Some a /\ lower a = "none").
Proof.
  intros H. destruct (assess_returns db task w r w' H) as (f2 & Hd & -> & _).
  unfold assessment_of; cbn [risk_factors risk_score].
  rewrite factors_of_assemble, score_of_assemble.
  pose proof (assignee_award_facts task) as [N1 B1].
  pose proof (deadline_award_facts _ _ _ Hd) as [N2 B2].
  pose proof (sentiment_award_facts task) as [N3 B3].
  pose proof (repetition_award_facts db task) as [N4 B4].
  pose proof (historical_award_facts db task) as [N5 B5].
  split.
  - rewrite !sum_points_app, !sum_points_listed. intros Hne.
    apply both_assignee_factors with (db := db).
    + intros E. rewrite E in *. simpl in *. lia.
    + intros E. rewrite E in *. simpl in *. lia.
  - rewrite !listed_name_in. intros Ha Hh.
    apply both_assignee_factors with (db := db).
    + intros E. rewrite E in Ha. destruct Ha as [Ha|[Ha|[Ha|[Ha|Ha]]]].
      * destruct Ha.
      * revert Ha. eapply name_not_listed2; try eassumption; discriminate.
      * revert Ha. eapply name_not_listed; try eassumption; discriminate.
      * revert Ha. eapply name_not_listed; try eassumption; discriminate.
      * revert Ha. eapply name_not_listed; try eassumption; discriminate.
    + intros E. rewrite E in Hh. destruct Hh as [Hh|[Hh|[Hh|[Hh|Hh]]]].
      * revert Hh. eapply name_not_listed; try eassumption; discriminate.
      * revert Hh. eapply name_not_listed2; try eassumption; discriminate.
      * revert Hh. eapply name_not_listed; try eassumption; discriminate.
      * revert Hh. eapply name_not_listed; try eassumption; discriminate.
      * destruct Hh.
Qed.

Lemma first_repetition_found (task_desc : string) (past_tasks : list database.Task) :
  first_repetition ratio task_desc past_tasks = 15 <->
  Exists (fun past_task =>
            (0.7 <? ratio (lower task_desc)
                      (lower (database.task_description past_task)))%float = true
            /\ (database.status past_task = "pending"
                \/ database.status past_task = "in_progress"))
         past_tasks.
Proof.
  assert (forall s, existsb (String.eqb s) ["pending"; "in_progress"] = true
                    <-> s = "pending" \/ s = "in_progress") as Hst.
  { intros s. rewrite existsb_exists. split.
    - intros (x & [<-|[<-|[]]] & E); apply String.eqb_eq in E; auto.
    - intros [-> | ->]; eexists; (split; [|apply String.eqb_refl]); simpl; auto. }
  induction past_tasks as [|t rest IH]; cbn [first_repetition].
  - split; [discriminate | intros H; inversion H].
  - destruct (0.7 <? _)%float eqn:Er;
      destruct (existsb (String.eqb (database.status t)) ["pending"; "in_progress"])
        eqn:Es; cbn [andb].
    + split; [|reflexivity]. intros _. left. split; [exact Er|]. apply Hst, Es.
    + rewrite IH. split; [intros H; now right|].
      intros H. inversion H as [? ? [_ Hs]|]; subst; [|assumption].
      apply Hst in Hs. congruence.
    + rewrite IH. split; [intros H; now right|].
      intros H. inversion H as [? ? [Hr _]|]; subst; [congruence | assumption].
    + rewrite IH. split; [intros H; now right|].
      intros H. inversion H as [? ? [Hr _]|]; subst; [congruence | assumption].
Qed.

(** X14: "Topic Repeated" is charged, with 15 points, exactly when one of
    the rows that the scan of the other tasks returns has a description
    whose similarity with the task's description, both in lower case, is
    above 0.7 and a status that is pending or in progress; a similar task
    with any other status does not count. *)
Theorem topic_repeated_iff_similar_open_task (session : AsyncSession)
    (task : task_data) (w : world) (r : assessment) (w' : world)
    (rows : list database.Task) :
  assess_task_risk sentiment_pipeline fromisoformat isoformat clock ratio
    (init (Some session)) task w = (Ok r, w') ->
  execute session (select_other_tasks (task_id task) 10) = Ok rows ->
  (repetition_risk (total_risk_breakdown r) = 15
   \/ repetition_risk (total_risk_breakdown r) = 0)
  /\ (repetition_risk (total_risk_breakdown r) = 15 <->
      Exists (fun past_task =>
                (0.7 <? ratio (lower (task_description task))
                          (lower (database.task_description past_task)))%float = true
                /\ (database.status past_task = "pending"
                    \/ database.status past_task = "in_progress"))
             rows)
  /\ (repetition_risk (total_risk_breakdown r) = 15 ->
      In topic_repeated (risk_factors r)).
Proof.
  intros H Hrows. destruct (assess_returns _ task w r w' H) as (f2 & Hd & -> & _).
  unfold assessment_of; cbn [risk_factors total_risk_breakdown].
  rewrite factors_of_assemble, breakdown_of_assemble. cbn [repetition_risk].
  unfold repetition_award, repetition_points. rewrite Hrows.
  rewrite <- first_repetition_found.
  destruct (first_repetition_cases (task_description task) rows) as [E|E]; rewrite E;
    simpl.
  - split; [now right|]. split; [split; discriminate | discriminate].
  - split; [now left|]. split; [tauto|]. intros _.
    rewrite !in_app_iff. right. right. right. now left.
Qed.

(** X15: the history of delays is charged by the number of rows that the
    count of the assignee's overdue tasks returns: 10 points from three rows
    on, 5 points for one or two, nothing for none.  The explanation of the
    factor names 2 previous tasks in the first case and 1 in the second,
    whatever the number of rows. *)
Theorem delay_history_thresholds (session : AsyncSession) (task : task_data)
    (w : world) (r : assessment) (w' : world) (who : string)
    (rows : list database.Task) :
  assess_task_risk sentiment_pipeline fromisoformat isoformat clock ratio
    (init (Some session)) task w = (Ok r, w') ->
  assignee task = Some who -> who <> "" ->
  execute session (select_overdue_tasks who) = Ok rows ->
  ((3 <= List.length rows)%nat ->
   historical_risk (total_risk_breakdown r) = 10
   /\ In {| factor := "Assignee History of Delays"; points := 10;
            explanation := who ++ " has missed deadlines on 2 previous tasks." |}
         (risk_factors r))
  /\ ((1 <= List.length rows <= 2)%nat ->
      historical_risk (total_risk_breakdown r) = 5
      /\ In {| factor := "Assignee History of Delays"; points := 5;
               explanation := who ++ " has missed deadlines on 1 previous tasks." |}
            (risk_factors r))
  /\ (rows = [] ->
      historical_risk (total_risk_breakdown r) = 0
      /\ ~ In "Assignee History of Delays" (map factor (risk_factors r))).
Proof.
  intros H Ha Hne Hrows. destruct (assess_returns _ task w r w' H) as (f2 & Hd & -> & _).
  unfold assessment_of; cbn [risk_factors total_risk_breakdown].
  rewrite factors_of_assemble, breakdown_of_assemble. cbn [historical_risk].
  assert (truthy (assignee task) = true) as Ht.
  { rewrite Ha. simpl. destruct (String.eqb_spec who ""); [contradiction | reflexivity]. }
  assert (delay_points session who
          = if 3 <=? Z.of_nat (List.length rows) then 10
            else if 1 <=? Z.of_nat (List.length rows) then 5 else 0) as Hp.
  { unfold delay_points. rewrite Hrows. reflexivity. }
  assert (historical_award (Some session) task
          = if 0 <? delay_points session who
            then Some (history_of_delays who (delay_points session who)) else None) as Hh.
  { unfold historical_award. rewrite Ht, Ha. reflexivity. }
  split; [|split].
  - intros Hl. destruct (Z.leb_spec 3 (Z.of_nat (List.length rows))); [|lia].
    rewrite Hh, Hp. split; [reflexivity|].
    rewrite !in_app_iff. right. right. right. right. now left.
  - intros Hl. destruct (Z.leb_spec 3 (Z.of_nat (List.length rows))); [lia|].
    destruct (Z.leb_spec 1 (Z.of_nat (List.length rows))); [|lia].
    rewrite Hh, Hp. split; [reflexivity|].
    rewrite !in_app_iff. right. right. right. right. now left.
  - intros ->. rewrite Hh, Hp. cbn [List.length Z.of_nat Z.leb Z.ltb Z.compare pts].
    split; [reflexivity|].
    pose proof (assignee_award_facts task) as [N1 _].
    pose proof (deadline_award_facts _ _ _ Hd) as [N2 _].
    pose proof (sentiment_award_facts task) as [N3 _].
    pose proof (repetition_award_facts (Some session) task) as [N4 _].
    apply name_not_in_five;
      [ eapply name_not_listed | eapply name_not_listed2 | eapply name_not_listed
      | eapply name_not_listed | simpl; tauto ];
      try eassumption; discriminate.
Qed.

(** X16: the sentiment factor is charged, with 20 points, exactly when the
    sentiment model is loaded, the description is not empty and the first
    entry of what the model returns for the first 512 characters of the
    description is labelled NEGATIVE.  A model that raises, returns nothing
    or returns any other label charges nothing. *)
Theorem sentiment_charged_iff_negative (db : option AsyncSession) (task : task_data)
    (w : world) (r : assessment) (w' : world) :
  assess_task_risk sentiment_pipeline fromisoformat isoformat clock ratio (init db) task w
  = (Ok r, w') ->
  (sentiment_risk (total_risk_breakdown r) = 20
   \/ sentiment_risk (total_risk_breakdown r) = 0)
  /\ (sentiment_risk (total_risk_breakdown r) = 20 <->
      exists classify c rest,
        sentiment_pipeline = Some classify
        /\ task_description task <> ""
        /\ classify (substring 0 512 (task_description task)) = Ok (c :: rest)
        /\ transformers.label c = "NEGATIVE")
  /\ (sentiment_risk (total_risk_breakdown r) = 20 ->
      In negative_sentiment (risk_factors r)).
Proof.
  intros H. destruct (assess_returns db task w r w' H) as (f2 & Hd & -> & _).
  unfold assessment_of; cbn [risk_factors total_risk_breakdown].
  rewrite factors_of_assemble, breakdown_of_assemble. cbn [sentiment_risk].
  assert (sentiment_award task = Some negative_sentiment <->
          exists classify c rest,
            sentiment_pipeline = Some classify
            /\ task_description task <> ""
            /\ classify (substring 0 512 (task_description task)) = Ok (c :: rest)
            /\ transformers.label c = "NEGATIVE") as Hiff.
  { unfold sentiment_award, SENTIMENT_AVAILABLE, _assess_sentiment.
    destruct sentiment_pipeline as [classify|]; cbn [andb].
    - destruct (String.eqb_spec (task_description task) "") as [E|Hne]; cbn [negb andb].
      + split; [discriminate|]. intros (c0 & c & rest & _ & Hn & _). contradiction.
      + destruct (classify (substring 0 512 (task_description task)))
          as [[|c rest]|e] eqn:Ec; cbn [Z.ltb Z.compare].
        * split; [discriminate|]. intros (c0 & c & rest & [= <-] & _ & Hc & _).
          congruence.
        * destruct (String.eqb_spec (transformers.label c) "NEGATIVE") as [El|Hl];
            cbn [Z.ltb Z.compare].
          -- split; [|reflexivity]. intros _. exists classify, c, rest. auto.
          -- split; [discriminate|].
             intros (c0 & c' & rest' & [= <-] & _ & Hc & Hlab). congruence.
        * split; [discriminate|]. intros (c0 & c & rest & [= <-] & _ & Hc & _).
          congruence.
    - split; [discriminate|]. intros (c0 & c & rest & C & _). discriminate. }
  rewrite <- Hiff.
  destruct (sentiment_award_cases task) as [E|E]; rewrite E; cbn [pts points
    negative_sentiment].
  - split; [now right|]. split; [split; discriminate | discriminate].
  - split; [now left|]. split; [tauto|]. intros _.
    rewrite !in_app_iff. right. right. left. now left.
Qed.

(** X17: what a run asks of the store.  Without a session nothing is
    executed and repetition and history contribute 0.  With a session a run
    that returns has executed the scan of the other tasks, limited to 10
    rows and leaving out the task's own id, and after it, when the assignee
    is a non-empty string, the count of that assignee's overdue tasks, and
    nothing else.  A run that raises has executed nothing. *)
Theorem store_access_pattern (db : option AsyncSession) (task : task_data)
    (w : world) (out : outcome assessment) (w' : world) :
  assess_task_risk sentiment_pipeline fromisoformat isoformat clock ratio (init db) task w
  = (out, w') ->
  (db = None ->
   executed w' = executed w
   /\ forall r, out = Ok r ->
        repetition_risk (total_risk_breakdown r) = 0
        /\ historical_risk (total_risk_breakdown r) = 0)
  /\ (forall session r, db = Some session -> out = Ok r ->
        executed w'
        = (match assignee task with
           | Some who => if String.eqb who "" then [] else [select_overdue_tasks who]
           | None => []
           end
           ++ select_other_tasks (task_id task) 10 :: executed w)%list)
  /\ (forall e, out = Raise e -> executed w' = executed w).
Proof.
  intros H. destruct out as [r|e].
  - destruct (assess_returns db task w r w' H) as (f2 & Hd & -> & Hx).
    split; [|split].
    + intros Hdb. split; [subst db; exact Hx|]. intros r [= <-].
      unfold assessment_of; cbn [total_risk_breakdown].
      rewrite breakdown_of_assemble. subst db. split; reflexivity.
    + intros session r -> _. rewrite Hx. unfold statements_of.
      destruct (assignee task) as [who|]; simpl; [|reflexivity].
      destruct (String.eqb who ""); reflexivity.
    + intros e [=].
  - destruct (assess_raises db task w e w' H) as [_ Hx].
    split; [|split].
    + intros _. split; [exact Hx|]. intros r [=].
    + intros session r _ [=].
    + intros e' _. exact Hx.
Qed.

End EngineFacts.

(** ** [generate_risk_report] *)

Module task_with_risk.
(** A dict of [tasks_with_risk] as the report reads it, through [get]:
    [None] is a missing key.  A level that is no string compares unequal to
    every level name, as a missing one does.  The score, where the key is
    present, is an int, as [assess_task_risk] stores it. *)
Record t : Type := { risk_level : option string; risk_score : option Z }.
End task_with_risk.

(** The dict [assess_task_risk] returns, as the report reads it. *)
Definition as_task_with_risk (r : assessment) : task_with_risk.t :=
  {| task_with_risk.risk_level := Some (risk_level r);
     task_with_risk.risk_score := Some (risk_score r) |}.

(** [t.get("risk_level") == name] *)
Definition level_is (name : string) (t : task_with_risk.t) : bool :=
  match task_with_risk.risk_level t with
  | Some l => String.eqb l name
  | None => false
  end.

(** [sum(1 for t in tasks_with_risk if t.get("risk_level") == name)] *)
Definition count_level (name : string) (tasks_with_risk : list task_with_risk.t) : Z :=
  fold_left Z.add (map (fun _ => 1) (filter (level_is name) tasks_with_risk)) 0.

(** [t.get("risk_score", 0)] *)
Definition score_or_zero (t : task_with_risk.t) : Z :=
  match task_with_risk.risk_score t with Some s => s | None => 0 end.

Section Report.

(** [a / b] on ints: true division. *)
Variable truediv : Z -> Z -> float.
(** [round(x, ndigits)] on a float. *)
Variable round : float -> Z -> float.

(** [round((count / len(tasks_with_risk)) * 100, 1)] *)
Definition percentage (count n : Z) : value :=
  VFloat (round (PrimFloat.mul (truediv count n) 100%float) 1).

Definition generate_risk_report (tasks_with_risk : list task_with_risk.t)
    : list (string * value) :=
  match tasks_with_risk with
  | [] =>
      [("total_tasks", VInt 0); ("critical_count", VInt 0); ("high_count", VInt 0);
       ("medium_count", VInt 0); ("low_count", VInt 0); ("average_risk_score", VInt 0);
       ("tasks_without_assignee", VInt 0); ("tasks_without_deadline", VInt 0);
       ("overdue_tasks", VInt 0)]
  | _ :: _ =>
      let critical := count_level "Critical" tasks_with_risk in
      let high := count_level "High" tasks_with_risk in
      let medium := count_level "Medium" tasks_with_risk in
      let low := count_level "Low" tasks_with_risk in
      let n := Z.of_nat (List.length tasks_with_risk) in
      let avg_score := truediv (fold_left Z.add (map score_or_zero tasks_with_risk) 0) n in
      [("total_tasks", VInt n); ("critical_count", VInt critical);
       ("high_count", VInt high); ("medium_count", VInt medium); ("low_count", VInt low);
       ("average_risk_score", VFloat (round avg_score 2));
       ("risk_breakdown_percentage",
        VDict [("critical", percentage critical n); ("high", percentage high n);
               ("medium", percentage medium n); ("low", percentage low n)])]
  end.

Variable sentiment_pipeline : option (string -> outcome (list transformers.classification)).
Variable fromisoformat : string -> option datetime.
Variable isoformat : datetime -> string.
Variable clock : nat -> Z.
Variable ratio : string -> string -> float.

Lemma fold_add_from (l : list Z) (a : Z) : fold_left Z.add l a = a + fold_left Z.add l 0.
Proof.
  revert a. induction l as [|x l IH]; intros a; cbn [fold_left]; [lia|].
  rewrite (IH (a + x)), (IH (0 + x)). lia.
Qed.

Lemma count_level_cons (name : string) (t : task_with_risk.t)
    (ts : list task_with_risk.t) :
  count_level name (t :: ts) = (if level_is name t then 1 else 0) + count_level name ts.
Proof.
  unfold count_level. cbn [filter]. destruct (level_is name t); cbn [map fold_left].
  - rewrite fold_add_from. reflexivity.
  - lia.
Qed.

Lemma count_level_nil (name : string) : count_level name [] = 0.
Proof. reflexivity. Qed.

(** The four counts the report holds, read off the list. *)
Lemma report_entries (ts : list task_with_risk.t) :
  dict_get "total_tasks" (generate_risk_report ts) VNone
  = VInt (Z.of_nat (List.length ts))
  /\ dict_get "critical_count" (generate_risk_report ts) VNone
     = VInt (count_level "Critical" ts)
  /\ dict_get "high_count" (generate_risk_report ts) VNone = VInt (count_level "High" ts)
  /\ dict_get "medium_count" (generate_risk_report ts) VNone
     = VInt (count_level "Medium" ts)
  /\ dict_get "low_count" (generate_risk_report ts) VNone = VInt (count_level "Low" ts).
Proof. destruct ts; repeat split; reflexivity. Qed.

(** A level the report counts. *)
Definition counted_level (t : task_with_risk.t) : bool :=
  (level_is "Critical" t || level_is "High" t || level_is "Medium" t
   || level_is "Low" t)%bool.

Lemma levels_exclusive (t : task_with_risk.t) :
  (if level_is "Critical" t then 1 else 0) + (if level_is "High" t then 1 else 0)
  + (if level_is "Medium" t then 1 else 0) + (if level_is "Low" t then 1 else 0)
  = if counted_level t then 1 else 0.
Proof.
  unfold counted_level, level_is. destruct (task_with_risk.risk_level t) as [l|];
    [|reflexivity].
  destruct (String.eqb_spec l "Critical") as [->|]; [reflexivity|].
  destruct (String.eqb_spec l "High") as [->|]; [reflexivity|].
  destruct (String.eqb_spec l "Medium") as [->|]; [reflexivity|].
  destruct (String.eqb l "Low"); reflexivity.
Qed.

Lemma count_level_nonneg (name : string) (ts : list task_with_risk.t) :
  0 <= count_level name ts.
Proof.
  induction ts as [|t ts IH]; [rewrite count_level_nil; lia|].
  rewrite count_level_cons. destruct (level_is name t); lia.
Qed.

Lemma counts_partition (ts : list task_with_risk.t) :
  count_level "Critical" ts + count_level "High" ts + count_level "Medium" ts
  + count_level "Low" ts
  = Z.of_nat (List.length (filter counted_level ts)).
Proof.
  induction ts as [|t ts IH]; [reflexivity|].
  rewrite !count_level_cons. cbn [filter].
  pose proof (levels_exclusive t) as Ht.
  destruct (counted_level t); cbn [List.length]; lia.
Qed.

Lemma filter_all_length {A : Type} (p : A -> bool) (l : list A) :
  List.length (filter p l) = List.length l <-> Forall (fun a => p a = true) l.
Proof.
  induction l as [|a l IH]; cbn [filter List.length].
  - split; auto.
  - pose proof (filter_length_le p l) as Hle. destruct (p a) eqn:E; cbn [List.length].
    + split.
      * intros H. constructor; [exact E|]. apply IH. lia.
      * intros H. inversion H; subst. f_equal. now apply IH.
    + split; [lia|]. intros H. inversion H; subst. congruence.
Qed.

(** X18: the four counts of a report are non-negative ints that add up to
    at most the number of tasks, which is the "total_tasks" entry; they add
    up to it exactly when every task carries one of the levels Critical,
    High, Medium and Low, spelt so.  A task with another level, or with
    none, is in the total and in no count. *)
Theorem report_counts_partition (ts : list task_with_risk.t) :
  exists critical high medium low,
    dict_get "total_tasks" (generate_risk_report ts) VNone
    = VInt (Z.of_nat (List.length ts))
    /\ dict_get "critical_count" (generate_risk_report ts) VNone = VInt critical
    /\ dict_get "high_count" (generate_risk_report ts) VNone = VInt high
    /\ dict_get "medium_count" (generate_risk_report ts) VNone = VInt medium
    /\ dict_get "low_count" (generate_risk_report ts) VNone = VInt low
    /\ 0 <= critical /\ 0 <= high /\ 0 <= medium /\ 0 <= low
    /\ critical + high + medium + low <= Z.of_nat (List.length ts)
    /\ (critical + high + medium + low = Z.of_nat (List.length ts)
        <-> Forall (fun t => exists l, task_with_risk.risk_level t = Some l
                                       /\ In l ["Critical"; "High"; "Medium"; "Low"])
                   ts).
Proof.
  destruct (report_entries ts) as (Hn & Hc & Hh & Hm & Hl).
  exists (count_level "Critical" ts), (count_level "High" ts),
         (count_level "Medium" ts), (count_level "Low" ts).
  repeat (split; [assumption|]).
  repeat (split; [apply count_level_nonneg|]).
  rewrite counts_partition. split.
  - pose proof (filter_length_le counted_level ts). lia.
  - rewrite Nat2Z.inj_iff, filter_all_length, !Forall_forall.
    split; intros H t Hin; specialize (H t Hin).
    + unfold counted_level, level_is in H.
      destruct (task_with_risk.risk_level t) as [l|]; [|discriminate].
      exists l. split; [reflexivity|].
      destruct (String.eqb_spec l "Critical"); [subst; simpl; auto|].
      destruct (String.eqb_spec l "High"); [subst; simpl; auto|].
      destruct (String.eqb_spec l "Medium"); [subst; simpl; auto|].
      destruct (String.eqb_spec l "Low"); [subst; simpl; auto|discriminate].
    + destruct H as (l & Hl' & Hin'). unfold counted_level, level_is. rewrite Hl'.
      simpl in Hin'. destruct Hin' as [<-|[<-|[<-|[<-|[]]]]]; reflexivity.
Qed.

(** How many assessments have a score that [p] accepts. *)
Definition count_scores (p : Z -> bool) (rs : list assessment) : Z :=
  Z.of_nat (List.length (filter (fun r => p (risk_score r)) rs)).

Lemma level_is_of_score (name : string) (r : assessment) :
  risk_level r = _get_risk_level (risk_score r) ->
  level_is name (as_task_with_risk r)
  = String.eqb (_get_risk_level (risk_score r)) name.
Proof. intros H. unfold level_is, as_task_with_risk; cbn. rewrite H. reflexivity. Qed.

Lemma count_level_of_scores (name : string) (p : Z -> bool) (rs : list assessment) :
  (forall s, String.eqb (_get_risk_level s) name = p s) ->
  Forall (fun r => risk_level r = _get_risk_level (risk_score r)) rs ->
  count_level name (map as_task_with_risk rs) = count_scores p rs.
Proof.
  intros Hp H. unfold count_scores. induction H as [|r rs Hr _ IH]; [reflexivity|].
  cbn [map]. rewrite count_level_cons, IH, (level_is_of_score name r Hr), Hp.
  cbn [filter]. destruct (p (risk_score r)); cbn [List.length]; lia.
Qed.

Lemma level_of_score_cases (s : Z) :
  String.eqb (_get_risk_level s) "Critical" = (85 <? s)
  /\ String.eqb (_get_risk_level s) "High" = ((60 <? s) && (s <=? 85))%bool
  /\ String.eqb (_get_risk_level s) "Medium" = ((30 <? s) && (s <=? 60))%bool
  /\ String.eqb (_get_risk_level s) "Low" = (s <=? 30).
Proof.
  unfold _get_risk_level.
  destruct (Z.leb_spec s 30), (Z.leb_spec s 60), (Z.leb_spec s 85),
    (Z.ltb_spec 85 s), (Z.ltb_spec 60 s), (Z.ltb_spec 30 s);
    try lia; repeat split; reflexivity.
Qed.

(** X20: a report built from assessments that [assess_task_risk] returned
    counts them by score: Critical are the scores above 85, High those from
    61 to 85, Medium those from 31 to 60, Low those up to 30; and the four
    counts add up to the total, so that every assessed task is in exactly
    one of them. *)
Theorem report_of_assessments (rs : list assessment) :
  Forall (fun r => exists db task w w',
            assess_task_risk sentiment_pipeline fromisoformat isoformat clock ratio
              (init db) task w = (Ok r, w')) rs ->
  let report := generate_risk_report (map as_task_with_risk rs) in
  dict_get "total_tasks" report VNone = VInt (Z.of_nat (List.length rs))
  /\ dict_get "critical_count" report VNone = VInt (count_scores (fun s => 85 <? s) rs)
  /\ dict_get "high_count" report VNone
     = VInt (count_scores (fun s => (60 <? s) && (s <=? 85))%bool rs)
  /\ dict_get "medium_count" report VNone
     = VInt (count_scores (fun s => (30 <? s) && (s <=? 60))%bool rs)
  /\ dict_get "low_count" report VNone = VInt (count_scores (fun s => s <=? 30) rs)
  /\ count_scores (fun s => 85 <? s) rs
     + count_scores (fun s => (60 <? s) && (s <=? 85))%bool rs
     + count_scores (fun s => (30 <? s) && (s <=? 60))%bool rs
     + count_scores (fun s => s <=? 30) rs
     = Z.of_nat (List.length rs).
Proof.
  intros H report.
  assert (Forall (fun r => risk_level r = _get_risk_level (risk_score r)) rs) as Hl.
  { eapply Forall_impl; [|exact H]. intros r (db & task & w & w' & E).
    destruct (assess_returns sentiment_pipeline fromisoformat isoformat clock ratio
                db task w r w' E) as (f2 & _ & -> & _).
    reflexivity. }
  destruct (report_entries (map as_task_with_risk rs)) as (Hn & Hc & Hh & Hm & Hlo).
  rewrite length_map in Hn.
  rewrite (count_level_of_scores "Critical" (fun s => 85 <? s) rs
             (fun s => proj1 (level_of_score_cases s)) Hl) in Hc.
  rewrite (count_level_of_scores "High" (fun s => (60 <? s) && (s <=? 85))%bool rs
             (fun s => proj1 (proj2 (level_of_score_cases s))) Hl) in Hh.
  rewrite (count_level_of_scores "Medium" (fun s => (30 <? s) && (s <=? 60))%bool rs
             (fun s => proj1 (proj2 (proj2 (level_of_score_cases s)))) Hl) in Hm.
  rewrite (count_level_of_scores "Low" (fun s => s <=? 30) rs
             (fun s => proj2 (proj2 (proj2 (level_of_score_cases s)))) Hl) in Hlo.
  repeat (split; [assumption|]).
  clear. unfold count_scores. induction rs as [|r rs IH]; [reflexivity|].
  cbn [filter List.length].
  destruct (Z.ltb_spec 85 (risk_score r)), (Z.ltb_spec 60 (risk_score r)),
    (Z.ltb_spec 30 (risk_score r)), (Z.leb_spec (risk_score r) 85),
    (Z.leb_spec (risk_score r) 60), (Z.leb_spec (risk_score r) 30);
    try lia; cbn [andb List.length]; lia.
Qed.

End Report.

(** ** Concrete runs *)

(** A process without the sentiment model, a parser that knows one
    timestamp, a clock that shows 30 April 2024 at its first two readings and
    3 May 2024 afterwards, and a similarity that tells equal texts from
    different ones. *)
Definition may_first : string := "2024-05-01T00:00:00".

Definition sample_fromisoformat (s : string) : option datetime :=
  if String.eqb s may_first
  then Some {| instant := 1714521600000000; aware := false |}
  else None.

Definition sample_isoformat (d : datetime) : string := str_of_int (instant d).

Definition sample_clock (n : nat) : Z :=
  if Nat.ltb n 2 then 1714435200000000 else 1714694400000000.

Definition sample_ratio (a b : string) : float :=
  if String.eqb a b then 1.0%float else 0.0%float.

Definition first_call : world := {| clock_reads := 0; executed := [] |}.
Definition later_call : world := {| clock_reads := 2; executed := [] |}.

(** A session on a store that is down, and one on a store where every
    statement finds three overdue tasks of Alice. *)
Definition store_down : AsyncSession := {| execute := fun _ => Raise DBAPIError |}.

Definition overdue_row (n : string) : database.Task :=
  {| database.id := n; database.task_description := "Send the slides";
     database.status := "overdue"; database.assignee := Some "Alice" |}.

Definition store_with_overdue : AsyncSession :=
  {| execute := fun _ => Ok [overdue_row "1"; overdue_row "2"; overdue_row "3"] |}.

Definition unowned_task : task_data :=
  {| task_id := Some "t1"; task_description := "Finish the report";
     assignee := None; deadline := None |}.

Definition alice_task_due_may_first : task_data :=
  {| task_id := Some "t2"; task_description := "Finish the report";
     assignee := Some "Alice"; deadline := Some may_first |}.

Definition alice_open_task : task_data :=
  {| task_id := Some "t3"; task_description := "Finish the report";
     assignee := Some "Alice"; deadline := None |}.

Definition sample_assess (db : option AsyncSession) (task : task_data) (w : world)
    : outcome assessment * world :=
  assess_task_risk None sample_fromisoformat sample_isoformat sample_clock sample_ratio
    (init db) task w.

(** The unowned task without deadline, sentiment model or store: "No
    Assignee" and "No Deadline", 55 points, Medium. *)
Lemma risk_score_bounds_and_level_witness :
  exists r w',
    sample_assess None unowned_task first_call = (Ok r, w')
    /\ risk_score r = 55 /\ 0 <= risk_score r <= 100 /\ risk_level r = "Medium".
Proof.
  eexists; eexists. split; [vm_compute; reflexivity|]. split; [reflexivity|].
  pose proof (proj2 (risk_score_bounds_and_level None sample_fromisoformat
                       sample_isoformat sample_clock sample_ratio None unowned_task
                       first_call) _ _ ltac:(vm_compute; reflexivity))
    as (Hb & _ & _ & Hm & _).
  split; [exact Hb|]. apply Hm. simpl. lia.
Defined.

(** On the same run the breakdown and the listed points add up alike. *)
Lemma breakdown_sums_to_preclamp_total_witness :
  exists r w',
    sample_assess None unowned_task first_call = (Ok r, w')
    /\ breakdown_total (total_risk_breakdown r)
       = fold_right Z.add 0 (map points (risk_factors r)).
Proof.
  eexists; eexists. split; [vm_compute; reflexivity|].
  destruct (proj2 (breakdown_sums_to_preclamp_total None sample_fromisoformat
                     sample_isoformat sample_clock sample_ratio None unowned_task
                     first_call) _ _ ltac:(vm_compute; reflexivity))
    as (st & w1 & _ & Hb & Hs & _).
  rewrite Hb, Hs. reflexivity.
Defined.

(** Alice's task due on 1 May, assessed on 3 May: "Deadline Passed" alone. *)
Lemma deadline_factors_exclusive_witness :
  exists r w',
    sample_assess None alice_task_due_may_first later_call = (Ok r, w')
    /\ deadline_factors r = [deadline_passed].
Proof.
  eexists; eexists. split; [vm_compute; reflexivity|].
  destruct (proj2 (deadline_factors_exclusive None sample_fromisoformat
                     sample_isoformat sample_clock sample_ratio None
                     alice_task_due_may_first later_call) _ _
                     ltac:(vm_compute; reflexivity))
    as (_ & H & _).
  apply (H may_first {| instant := 1714521600000000; aware := false |});
    try reflexivity.
Defined.

(** Alice's open task on a store that is down: the count of overdue tasks
    raises, the run returns, and no history of delays is charged. *)
Lemma store_failure_contributes_nothing_witness :
  exists r w',
    sample_assess (Some store_down) alice_open_task first_call = (Ok r, w')
    /\ historical_risk (total_risk_breakdown r) = 0
    /\ ~ In "Assignee History of Delays" (map factor (risk_factors r)).
Proof.
  destruct (store_failure_contributes_nothing None sample_fromisoformat sample_isoformat
              sample_clock sample_ratio store_down alice_open_task first_call _ _
              [select_overdue_tasks "Alice"; select_other_tasks (Some "t3") 10]
              (select_overdue_tasks "Alice") DBAPIError
              ltac:(vm_compute; reflexivity) eq_refl (or_introl eq_refl) eq_refl)
    as ((r & E & _ & H) & _ & _).
  injection E as <-.
  eexists; eexists. split; [vm_compute; reflexivity|].
  exact (H "Alice" eq_refl).
Defined.

(** Alice's task due on 1 May, assessed twice after that day. *)
Lemma same_side_of_deadline_same_assessment_witness :
  exists r1 r2 w1 w2,
    sample_assess None alice_task_due_may_first later_call = (Ok r1, w1)
    /\ sample_assess None alice_task_due_may_first
         {| clock_reads := 5; executed := [] |} = (Ok r2, w2)
    /\ risk_factors r1 = risk_factors r2 /\ risk_score r1 = risk_score r2.
Proof.
  do 4 eexists. split; [vm_compute; reflexivity|]. split; [vm_compute; reflexivity|].
  destruct (same_side_of_deadline_same_assessment None sample_fromisoformat
              sample_isoformat sample_clock sample_ratio None alice_task_due_may_first
              later_call {| clock_reads := 5; executed := [] |} _ _ _ _
              ltac:(vm_compute; reflexivity) ltac:(vm_compute; reflexivity))
    as (Hf & Hs & _).
  - intros s due _ _. reflexivity.
  - split; [exact Hf | exact Hs].
Defined.

(** The unowned task on a store full of overdue tasks: the count is never
    asked for. *)
Lemma missing_assignee_skips_delay_history_witness :
  exists r w',
    sample_assess (Some store_with_overdue) unowned_task first_call = (Ok r, w')
    /\ historical_risk (total_risk_breakdown r) = 0
    /\ ~ In (select_overdue_tasks "Alice") (executed w').
Proof.
  eexists; eexists. split; [vm_compute; reflexivity|].
  destruct (missing_assignee_skips_delay_history None sample_fromisoformat
              sample_isoformat sample_clock sample_ratio (Some store_with_overdue)
              unowned_task first_call _ _ (or_introl eq_refl)
              ltac:(vm_compute; reflexivity))
    as ((new & Hn & Hno) & Hr).
  split; [exact (proj1 (Hr _ eq_refl))|].
  cbn in Hn. rewrite app_nil_r in Hn. subst new. exact (Hno "Alice").
Defined.

(** Alice has three overdue tasks and a deadline still ahead: the history
    of delays is the only factor, 10 points, Low. *)
Example three_overdue_tasks_ten_points :
  match sample_assess (Some store_with_overdue) alice_task_due_may_first first_call with
  | (Ok r, _) =>
      risk_factors r = [history_of_delays "Alice" 10]
      /\ explanation (history_of_delays "Alice" 10)
         = "Alice has missed deadlines on 2 previous tasks."
      /\ risk_score r = 10 /\ risk_level r = "Low"
  | _ => False
  end.
Proof. vm_compute. repeat split. Qed.

(** C8 as stated fails: the same task on the same (absent) store, assessed
    once on 30 April and once on 3 May, with its deadline on 1 May.  The
    first assessment lists no factor and scores 0, the second lists
    "Deadline Passed" and scores 35. *)
Lemma assessment_changes_with_time :
  match sample_assess None alice_task_due_may_first first_call,
        sample_assess None alice_task_due_may_first later_call with
  | (Ok r1, _), (Ok r2, _) =>
      risk_factors r1 = [] /\ risk_score r1 = 0
      /\ risk_factors r2 = [deadline_passed] /\ risk_score r2 = 35
      /\ risk_factors r1 <> risk_factors r2 /\ risk_score r1 <> risk_score r2
  | _, _ => False
  end.
Proof. vm_compute. repeat split; discriminate. Qed.

(** A store whose every statement returns one pending task with the
    description of the sample tasks. *)
Definition store_with_open_twin : AsyncSession :=
  {| execute := fun _ =>
       Ok [ {| database.id := "9"; database.task_description := "finish the REPORT";
               database.status := "pending"; database.assignee := Some "Bob" |} ] |}.

(** A sentiment model that finds everything negative. *)
Definition gloomy_model (text : string) : outcome (list transformers.classification) :=
  Ok [ {| transformers.label := "NEGATIVE"; transformers.score := 0.99 |} ].

(** A task of an assignee called None, overdue. *)
Definition none_task_due_may_first : task_data :=
  {| task_id := Some "t4"; task_description := "Finish the report";
     assignee := Some "None"; deadline := Some may_first |}.

(** The overdue task of "None" with a gloomy model and a store that holds
    overdue rows: four factors, listed in the order of evaluation. *)
Lemma factors_in_evaluation_order_witness :
  exists r w',
    assess_task_risk (Some gloomy_model) sample_fromisoformat sample_isoformat
      sample_clock sample_ratio (init (Some store_with_overdue))
      none_task_due_may_first later_call = (Ok r, w')
    /\ map factor (risk_factors r)
       = ["No Assignee"; "Deadline Passed"; "Negative Sentiment Detected";
          "Assignee History of Delays"]
    /\ in_order (map factor (risk_factors r)) FACTOR_ORDER = true.
Proof.
  eexists; eexists. split; [vm_compute; reflexivity|]. split; [reflexivity|].
  exact (proj1 (factors_in_evaluation_order (Some gloomy_model) sample_fromisoformat
                  sample_isoformat sample_clock sample_ratio (Some store_with_overdue)
                  none_task_due_may_first later_call _ _
                  ltac:(vm_compute; reflexivity))).
Defined.

Lemma every_point_is_traceable_witness :
  exists r w',
    sample_assess None unowned_task first_call = (Ok r, w')
    /\ forall f, In f (risk_factors r) ->
         breakdown_entry (factor f) (total_risk_breakdown r) = Some (points f).
Proof.
  eexists; eexists. split; [vm_compute; reflexivity|].
  exact (proj1 (every_point_is_traceable None sample_fromisoformat sample_isoformat
                  sample_clock sample_ratio None unowned_task first_call _ _
                  ltac:(vm_compute; reflexivity))).
Defined.

Lemma no_assignee_iff_missing_or_none_witness :
  exists r w',
    sample_assess (Some store_with_overdue) none_task_due_may_first first_call
    = (Ok r, w')
    /\ In "No Assignee" (map factor (risk_factors r)).
Proof.
  eexists; eexists. split; [vm_compute; reflexivity|].
  apply (proj1 (no_assignee_iff_missing_or_none None sample_fromisoformat
                  sample_isoformat sample_clock sample_ratio (Some store_with_overdue)
                  none_task_due_may_first first_call _ _
                  ltac:(vm_compute; reflexivity))).
  right. right. exists "None". split; reflexivity.
Defined.

(** The task of "None" with everything against it: the five factors add up
    to 105 and the score is 100. *)
Lemma cap_applies_only_to_assignee_none_witness :
  exists r w',
    assess_task_risk (Some gloomy_model) sample_fromisoformat sample_isoformat
      sample_clock sample_ratio (init (Some store_with_open_twin))
      none_task_due_may_first later_call = (Ok r, w')
    /\ risk_score r = 100
    /\ fold_right Z.add 0 (map points (risk_factors r)) = 105
    /\ exists a, assignee none_task_due_may_first = Some a /\ lower a = "none".
Proof.
  eexists; eexists. split; [vm_compute; reflexivity|].
  split; [reflexivity|]. split; [reflexivity|].
  apply (proj1 (cap_applies_only_to_assignee_none (Some gloomy_model)
                  sample_fromisoformat sample_isoformat sample_clock sample_ratio
                  (Some store_with_open_twin) none_task_due_may_first later_call _ _
                  ltac:(vm_compute; reflexivity))).
  vm_compute. discriminate.
Defined.

Lemma topic_repeated_iff_similar_open_task_witness :
  exists r w',
    sample_assess (Some store_with_open_twin) alice_open_task first_call = (Ok r, w')
    /\ repetition_risk (total_risk_breakdown r) = 15.
Proof.
  eexists; eexists. split; [vm_compute; reflexivity|].
  apply (proj2 (proj1 (proj2 (topic_repeated_iff_similar_open_task None
                  sample_fromisoformat sample_isoformat sample_clock sample_ratio
                  store_with_open_twin alice_open_task first_call _ _ _
                  ltac:(vm_compute; reflexivity) eq_refl)))).
  left. split; [vm_compute; reflexivity | left; reflexivity].
Defined.

Lemma delay_history_thresholds_witness :
  exists r w',
    sample_assess (Some store_with_overdue) alice_open_task first_call = (Ok r, w')
    /\ historical_risk (total_risk_breakdown r) = 10.
Proof.
  eexists; eexists. split; [vm_compute; reflexivity|].
  apply (proj1 (delay_history_thresholds None sample_fromisoformat sample_isoformat
                  sample_clock sample_ratio store_with_overdue alice_open_task
                  first_call _ _ "Alice" _ ltac:(vm_compute; reflexivity) eq_refl
                  ltac:(discriminate) eq_refl)).
  simpl. lia.
Defined.

Lemma sentiment_charged_iff_negative_witness :
  exists r w',
    assess_task_risk (Some gloomy_model) sample_fromisoformat sample_isoformat
      sample_clock sample_ratio (init None) alice_open_task first_call = (Ok r, w')
    /\ sentiment_risk (total_risk_breakdown r) = 20.
Proof.
  eexists; eexists. split; [vm_compute; reflexivity|].
  apply (proj2 (proj1 (proj2 (sentiment_charged_iff_negative (Some gloomy_model)
                  sample_fromisoformat sample_isoformat sample_clock sample_ratio
                  None alice_open_task first_call _ _
                  ltac:(vm_compute; reflexivity))))).
  exists gloomy_model. eexists. eexists.
  split; [reflexivity|]. split; [discriminate|]. split; reflexivity.
Defined.

Lemma store_access_pattern_witness :
  exists out w',
    sample_assess (Some store_with_overdue) alice_open_task first_call = (out, w')
    /\ executed w'
       = [select_overdue_tasks "Alice"; select_other_tasks (Some "t3") 10].
Proof.
  eexists; eexists. split; [vm_compute; reflexivity|].
  exact (proj1 (proj2 (store_access_pattern None sample_fromisoformat sample_isoformat
                         sample_clock sample_ratio (Some store_with_overdue)
                         alice_open_task first_call _ _
                         ltac:(vm_compute; reflexivity)))
           store_with_overdue _ eq_refl eq_refl).
Defined.

(** A division and a rounding for the report of the runs below: the counts
    and the scores are small, and the quotients have no digit for [round] to
    drop. *)
Definition sample_truediv (a b : Z) : float :=
  PrimFloat.div (PrimFloat.of_uint63 (Uint63.of_Z a)) (PrimFloat.of_uint63 (Uint63.of_Z b)).

Definition sample_round (x : float) (ndigits : Z) : float := x.

(** The report on the unowned task (55, Medium) and on Alice's open task
    (25, Low). *)
Lemma report_of_assessments_witness :
  exists r1 w1 r2 w2,
    sample_assess None unowned_task first_call = (Ok r1, w1)
    /\ sample_assess None alice_open_task first_call = (Ok r2, w2)
    /\ generate_risk_report sample_truediv sample_round (map as_task_with_risk [r1; r2])
       = [("total_tasks", VInt 2); ("critical_count", VInt 0); ("high_count", VInt 0);
          ("medium_count", VInt 1); ("low_count", VInt 1);
          ("average_risk_score", VFloat 40);
          ("risk_breakdown_percentage",
           VDict [("critical", VFloat 0); ("high", VFloat 0); ("medium", VFloat 50);
                  ("low", VFloat 50)])]
    /\ dict_get "medium_count"
         (generate_risk_report sample_truediv sample_round (map as_task_with_risk [r1; r2]))
         VNone = VInt 1.
Proof.
  eexists; eexists; eexists; eexists.
  split; [vm_compute; reflexivity|]. split; [vm_compute; reflexivity|].
  split; [vm_compute; reflexivity|].
  refine (proj1 (proj2 (proj2 (proj2
    (report_of_assessments sample_truediv sample_round None sample_fromisoformat
       sample_isoformat sample_clock sample_ratio [_; _] _))))).
  constructor; [|constructor; [|constructor]].
  - exists None, unowned_task, first_call. eexists. vm_compute. reflexivity.
  - exists None, alice_open_task, first_call. eexists. vm_compute. reflexivity.
Defined.

End Risk.

(** * [app/api/meetings.py], [app/api/documents.py]: from extraction to risk

    Step 3 of both upload routes: every extracted task is handed to the
    risk engine. *)

Module Upload.

Local Open Scope Z_scope.

Section Step3.

Variable parse_date : string -> option datetime.
Variable isoformat : datetime -> string.
Variable subprocess_run : nat -> Extraction.prompt -> outcome Extraction.CompletedProcess.
Variable json_loads : string -> option value.
Variable sentiment_pipeline
  : option (string -> outcome (list Risk.transformers.classification)).
Variable fromisoformat : string -> option datetime.
Variable clock : nat -> Z.
Variable ratio : string -> string -> float.
(** [str(uuid.uuid4())] in the turn of the loop for the task at position
    [i]. *)
Variable uuid4 : nat -> string.

(** The entries of the dict literal that [assess_task_risk] reads. *)
Definition task_data_of (task_id : string) (task : Extraction.item) : Risk.task_data :=
  {| Risk.task_id := Some task_id;
     Risk.task_description := Extraction.text_or_empty (Extraction.task task);
     Risk.assignee := Extraction.assignee task;
     Risk.deadline := Extraction.deadline task |}.

(** [risk_assessment = await risk_engine.assess_task_risk({...})]: the
    literal reads the clock for "created_at" before the call. *)
Definition assess_extracted (risk_engine : Risk.RiskEngine) (i : nat)
    (task : Extraction.item) : Risk.M Risk.assessment :=
  Risk.bind (Risk.utcnow clock) (fun created_at =>
    Risk.assess_task_risk sentiment_pipeline fromisoformat isoformat clock ratio
      risk_engine (task_data_of (uuid4 i) task)).

(** The loop of step 3 from position [i] on; it returns [tasks_with_risk].
    Each turn also copies the score, the level and the factors of the
    assessment into the task dict. *)
Fixpoint assess_tasks (risk_engine : Risk.RiskEngine) (i : nat)
    (tasks : list Extraction.item) : Risk.M (list Risk.assessment) :=
  match tasks with
  | [] => Risk.ret []
  | task :: rest =>
      Risk.bind (assess_extracted risk_engine i task) (fun risk_assessment =>
      Risk.bind (assess_tasks risk_engine (S i) rest) (fun tasks_with_risk =>
      Risk.ret (risk_assessment :: tasks_with_risk)))
  end.

(** The deadline of an extracted task: none, or the ISO text of a parsed
    date. *)
Definition handed_over (it : Extraction.item) : Prop :=
  Extraction.deadline it = None
  \/ exists s d, parse_date s = Some d /\ Extraction.deadline it = Some (isoformat d).

(** [fromisoformat] reads back what [isoformat] wrote for a parsed date, and
    rejects the empty string. *)
Definition round_trip : Prop :=
  fromisoformat "" = None
  /\ forall s d, parse_date s = Some d -> fromisoformat (isoformat d) = Some d.

Lemma iso_not_empty (s : string) (d : datetime) :
  round_trip -> parse_date s = Some d -> String.eqb (isoformat d) "" = false.
Proof.
  intros [H0 H1] Hp. destruct (String.eqb_spec (isoformat d) "") as [E|]; [|reflexivity].
  pose proof (H1 s d Hp) as H. rewrite E, H0 in H. discriminate.
Qed.

Lemma deadline_award_none (u : string) (it : Extraction.item) (now : Z) :
  Extraction.deadline it = None ->
  Risk.deadline_award fromisoformat (task_data_of u it) now = Ok (Some Risk.no_deadline).
Proof. intros H. unfold Risk.deadline_award, task_data_of; cbn. rewrite H. reflexivity. Qed.

Lemma deadline_award_parsed (u : string) (it : Extraction.item) (now : Z)
    (s : string) (d : datetime) :
  round_trip -> parse_date s = Some d -> Extraction.deadline it = Some (isoformat d) ->
  Risk.deadline_award fromisoformat (task_data_of u it) now
  = if aware d then Raise TypeError
    else Ok (if instant d <? now then Some Risk.deadline_passed else None).
Proof.
  intros Hrt Hp Hd. unfold Risk.deadline_award, task_data_of; cbn. rewrite Hd.
  cbn [truthy]. rewrite (iso_not_empty s d Hrt Hp). cbn [negb].
  rewrite (proj2 Hrt s d Hp). reflexivity.
Qed.

(** The world after the clock was read once. *)
Definition after_created_at (w : Risk.world) : Risk.world :=
  {| Risk.clock_reads := S (Risk.clock_reads w); Risk.executed := Risk.executed w |}.

Lemma assess_extracted_eq (db : option Risk.AsyncSession) (i : nat)
    (it : Extraction.item) (w : Risk.world) :
  assess_extracted (Risk.init db) i it w
  = Risk.assess_task_risk sentiment_pipeline fromisoformat isoformat clock ratio
      (Risk.init db) (task_data_of (uuid4 i) it) (after_created_at w).
Proof. reflexivity. Qed.

(** One turn on a task whose deadline award is known. *)
Lemma assess_extracted_ok (db : option Risk.AsyncSession) (i : nat)
    (it : Extraction.item) (w : Risk.world) (f2 : option Risk.risk_factor) :
  Risk.deadline_award fromisoformat (task_data_of (uuid4 i) it)
    (clock (S (Risk.clock_reads w))) = Ok f2 ->
  exists r w',
    assess_extracted (Risk.init db) i it w = (Ok r, w')
    /\ Risk.deadline_risk (Risk.total_risk_breakdown r) = Risk.pts f2
    /\ Risk.result_task_id r = Some (uuid4 i).
Proof.
  intros H. rewrite assess_extracted_eq.
  destruct (Risk.assess_task_risk _ _ _ _ _ _ _ _) as [[r|e] w'] eqn:E.
  - exists r, w'. split; [reflexivity|].
    destruct (Risk.assess_returns _ _ _ _ _ _ _ _ _ _ E) as (f2' & Hd & -> & _).
    cbn [after_created_at Risk.clock_reads] in Hd. rewrite H in Hd. injection Hd as <-.
    unfold Risk.assessment_of; cbn [Risk.total_risk_breakdown Risk.result_task_id].
    rewrite Risk.breakdown_of_assemble. split; reflexivity.
  - destruct (Risk.assess_raises _ _ _ _ _ _ _ _ _ _ E) as [Hd _].
    cbn [after_created_at Risk.clock_reads] in Hd. rewrite H in Hd. discriminate.
Qed.

Lemma assess_extracted_raise (db : option Risk.AsyncSession) (i : nat)
    (it : Extraction.item) (w : Risk.world) (e : exn) :
  Risk.deadline_award fromisoformat (task_data_of (uuid4 i) it)
    (clock (S (Risk.clock_reads w))) = Raise e ->
  exists w',
    assess_extracted (Risk.init db) i it w = (Raise e, w')
    /\ Risk.executed w' = Risk.executed w.
Proof.
  intros H. rewrite assess_extracted_eq.
  destruct (Risk.assess_task_risk _ _ _ _ _ _ _ _) as [[r|e'] w'] eqn:E.
  - destruct (Risk.assess_returns _ _ _ _ _ _ _ _ _ _ E) as (f2' & Hd & _).
    cbn [after_created_at Risk.clock_reads] in Hd. rewrite H in Hd. discriminate.
  - destruct (Risk.assess_raises _ _ _ _ _ _ _ _ _ _ E) as [Hd Hx].
    cbn [after_created_at Risk.clock_reads] in Hd. rewrite H in Hd. injection Hd as <-.
    exists w'. split; [reflexivity | exact Hx].
Qed.

(** What the assessment of an extracted task says about its deadline. *)
Definition deadline_assessed (it : Extraction.item) (r : Risk.assessment) : Prop :=
  (Risk.deadline_risk (Risk.total_risk_breakdown r) = 25
   <-> Extraction.deadline it = None)
  /\ (Risk.deadline_risk (Risk.total_risk_breakdown r) = 25
      \/ Risk.deadline_risk (Risk.total_risk_breakdown r) = 35
      \/ Risk.deadline_risk (Risk.total_risk_breakdown r) = 0).

Lemma assess_tasks_returns (db : option Risk.AsyncSession) (its : list Extraction.item) :
  round_trip ->
  (forall s d, parse_date s = Some d -> aware d = false) ->
  Forall handed_over its ->
  forall (i : nat) (w : Risk.world),
  exists rs w',
    assess_tasks (Risk.init db) i its w = (Ok rs, w')
    /\ Forall2 deadline_assessed its rs
    /\ map Risk.result_task_id rs
       = map (fun k => Some (uuid4 k)) (List.seq i (List.length its)).
Proof.
  intros Hrt Hnaive H. induction H as [|it its Hit _ IH]; intros i w.
  - exists [], w. repeat split. constructor.
  - assert (exists f2,
              Risk.deadline_award fromisoformat (task_data_of (uuid4 i) it)
                (clock (S (Risk.clock_reads w))) = Ok f2
              /\ (Risk.pts f2 = 25 <-> Extraction.deadline it = None)
              /\ (Risk.pts f2 = 25 \/ Risk.pts f2 = 35 \/ Risk.pts f2 = 0))
      as (f2 & Hd & Hiff & Hcases).
    { destruct Hit as [Hn|(s & d & Hp & Hs)].
      - exists (Some Risk.no_deadline). split; [apply deadline_award_none; exact Hn|].
        split; [split; auto | left; reflexivity].
      - rewrite (deadline_award_parsed _ _ _ s d Hrt Hp Hs), (Hnaive s d Hp).
        eexists. split; [reflexivity|]. rewrite Hs.
        destruct (instant d <? _); cbn; (split; [split; [lia|discriminate]|]); auto. }
    destruct (assess_extracted_ok db i it w f2 Hd) as (r & w1 & E & Hr & Hid).
    destruct (IH (S i) w1) as (rs & w2 & E2 & HF & Hids).
    exists (r :: rs), w2. cbn [assess_tasks]. unfold Risk.bind at 1. rewrite E.
    unfold Risk.bind at 1. rewrite E2. split; [reflexivity|]. split.
    + constructor; [|exact HF]. unfold deadline_assessed. rewrite Hr. split; assumption.
    + cbn [map List.length List.seq]. rewrite Hid, Hids. reflexivity.
Qed.

Lemma assess_tasks_raises (db : option Risk.AsyncSession) (its : list Extraction.item)
    (it : Extraction.item) (s : string) (d : datetime) :
  round_trip ->
  Forall handed_over its ->
  In it its -> parse_date s = Some d -> Extraction.deadline it = Some (isoformat d) ->
  aware d = true ->
  forall (i : nat) (w : Risk.world),
  exists w', assess_tasks (Risk.init db) i its w = (Raise TypeError, w').
Proof.
  intros Hrt H Hin Hp Hs Ha. induction H as [|it0 its Hit0 _ IH]; intros i w;
    [contradiction|].
  assert (Risk.deadline_award fromisoformat (task_data_of (uuid4 i) it0)
            (clock (S (Risk.clock_reads w))) = Raise TypeError
          \/ exists f2, Risk.deadline_award fromisoformat (task_data_of (uuid4 i) it0)
                          (clock (S (Risk.clock_reads w))) = Ok f2) as [Hr|[f2 Hok]].
  { destruct Hit0 as [Hn|(s0 & d0 & Hp0 & Hs0)].
    - right. eexists. apply deadline_award_none. exact Hn.
    - rewrite (deadline_award_parsed _ _ _ s0 d0 Hrt Hp0 Hs0).
      destruct (aware d0); [left; reflexivity | right; eexists; reflexivity]. }
  - destruct (assess_extracted_raise db i it0 w TypeError Hr) as (w' & E & _).
    exists w'. cbn [assess_tasks]. unfold Risk.bind at 1. rewrite E. reflexivity.
  - destruct (assess_extracted_ok db i it0 w f2 Hok) as (r & w1 & E & _).
    destruct Hin as [<-|Hin].
    + rewrite (deadline_award_parsed _ _ _ s d Hrt Hp Hs), Ha in Hok. discriminate.
    + destruct (IH Hin (S i) w1) as (w2 & E2).
      exists w2. cbn [assess_tasks]. unfold Risk.bind at 1. rewrite E.
      unfold Risk.bind at 1. rewrite E2. reflexivity.
Qed.

Lemma extracted_tasks_handed_over (self : Extraction.HybridExtractionPipeline)
    (segments : list Extraction.segment) (out : Extraction.extraction) :
  Extraction.extract_from_segments parse_date isoformat subprocess_run json_loads
    self segments = Ok out ->
  Forall handed_over (Extraction.tasks out).
Proof.
  intros E. apply Forall_forall. intros it Hin.
  pose proof (Extraction.extracted_tasks_shaped _ _ _ _ _ _ _ _ E Hin) as H.
  unfold Extraction.task_shaped, Extraction.extracted_fields in H.
  destruct H as (_ & _ & _ & _ & H). exact H.
Qed.

(** X21: from extraction to risk.  When [fromisoformat] reads back the
    deadlines that extraction wrote and the date parser returns naive
    datetimes, step 3 returns for every meeting: one assessment for each
    extracted task, in the order of the tasks, under the ids drawn for them;
    and the assessment of a task charges 25 points for the deadline exactly
    when extraction found no deadline for it, and 35 or nothing otherwise. *)
Theorem extracted_tasks_are_assessed (self : Extraction.HybridExtractionPipeline)
    (segments : list Extraction.segment) (db : option Risk.AsyncSession)
    (w : Risk.world) :
  round_trip ->
  (forall s d, parse_date s = Some d -> aware d = false) ->
  exists out rs w',
    Extraction.extract_from_segments parse_date isoformat subprocess_run json_loads
      self segments = Ok out
    /\ assess_tasks (Risk.init db) 0 (Extraction.tasks out) w = (Ok rs, w')
    /\ Forall2 deadline_assessed (Extraction.tasks out) rs
    /\ map Risk.result_task_id rs
       = map (fun k => Some (uuid4 k)) (List.seq 0 (List.length (Extraction.tasks out))).
Proof.
  intros Hrt Hnaive.
  destruct (Extraction.extract_from_segments_total parse_date isoformat subprocess_run
              json_loads self segments) as [out E].
  destruct (assess_tasks_returns db (Extraction.tasks out) Hrt Hnaive
              (extracted_tasks_handed_over self segments out E) 0%nat w)
    as (rs & w' & H).
  exists out, rs, w'. split; [exact E | exact H].
Qed.

(** X22: a deadline with a UTC offset stops step 3.  When the date parser
    returned an aware datetime for the deadline of one extracted task, the
    loop raises TypeError, out of the comparison with the naive
    [datetime.utcnow()], and returns no assessment for any task. *)
Theorem aware_deadline_stops_assessment (self : Extraction.HybridExtractionPipeline)
    (segments : list Extraction.segment) (db : option Risk.AsyncSession)
    (w : Risk.world) (out : Extraction.extraction) (it : Extraction.item)
    (s : string) (d : datetime) :
  round_trip ->
  Extraction.extract_from_segments parse_date isoformat subprocess_run json_loads
    self segments = Ok out ->
  In it (Extraction.tasks out) ->
  parse_date s = Some d -> Extraction.deadline it = Some (isoformat d) ->
  aware d = true ->
  exists w', assess_tasks (Risk.init db) 0 (Extraction.tasks out) w
             = (Raise TypeError, w').
Proof.
  intros Hrt E Hin Hp Hs Ha.
  exact (assess_tasks_raises db (Extraction.tasks out) it s d Hrt
           (extracted_tasks_handed_over self segments out E) Hin Hp Hs Ha 0%nat w).
Qed.

End Step3.

(** ** Concrete runs *)

Definition sample_uuid4 (i : nat) : string := "task-" ++ str_of_int (Z.of_nat i).

Definition report_segment : Extraction.segment :=
  Extraction.said "Bob will send the report by 2024-05-01.".

(** With the naive date of the samples: one task, assessed under the first
    id, with a deadline that has not passed on 30 April. *)
Lemma extracted_tasks_are_assessed_witness :
  exists out rs w',
    Extraction.extract_from_segments Extraction.sample_parse_date
      Extraction.sample_isoformat Extraction.steady_oracle Extraction.sample_json_loads
      Extraction.without_oracle [report_segment] = Ok out
    /\ assess_tasks Extraction.sample_isoformat None Risk.sample_fromisoformat
         Risk.sample_clock Risk.sample_ratio sample_uuid4 (Risk.init None) 0
         (Extraction.tasks out) Risk.first_call = (Ok rs, w')
    /\ Forall2 deadline_assessed (Extraction.tasks out) rs
    /\ map Risk.result_task_id rs
       = map (fun k => Some (sample_uuid4 k))
           (List.seq 0 (List.length (Extraction.tasks out))).
Proof.
  apply (extracted_tasks_are_assessed Extraction.sample_parse_date
           Extraction.sample_isoformat Extraction.steady_oracle
           Extraction.sample_json_loads None Risk.sample_fromisoformat Risk.sample_clock
           Risk.sample_ratio sample_uuid4 Extraction.without_oracle [report_segment]
           None Risk.first_call).
  - split; [reflexivity|]. intros s d. unfold Extraction.sample_parse_date.
    destruct (String.eqb s "2024-05-01"); [intros [= <-]; reflexivity | discriminate].
  - intros s d. unfold Extraction.sample_parse_date.
    destruct (String.eqb s "2024-05-01"); [intros [= <-]; reflexivity | discriminate].
Defined.

(** A date parser that returns the one date it knows with a UTC offset, and
    the two conversions for it. *)
Definition zoned_may_first : datetime := {| instant := 1714521600000000; aware := true |}.

Definition zoned_parse_date (s : string) : option datetime :=
  if String.eqb s "2024-05-01" then Some zoned_may_first else None.

Definition zoned_isoformat (d : datetime) : string :=
  if aware d then "2024-05-01T00:00:00+00:00" else "2024-05-01T00:00:00".

Definition zoned_fromisoformat (s : string) : option datetime :=
  if String.eqb s "2024-05-01T00:00:00+00:00" then Some zoned_may_first else None.

(** The same sentence with the zoned parser: the task is extracted with the
    deadline "2024-05-01T00:00:00+00:00", and step 3 raises. *)
Lemma aware_deadline_stops_assessment_witness :
  exists out w',
    Extraction.extract_from_segments zoned_parse_date zoned_isoformat
      Extraction.steady_oracle Extraction.sample_json_loads
      Extraction.without_oracle [report_segment] = Ok out
    /\ map Extraction.deadline (Extraction.tasks out)
       = [Some "2024-05-01T00:00:00+00:00"]
    /\ assess_tasks zoned_isoformat None zoned_fromisoformat Risk.sample_clock
         Risk.sample_ratio sample_uuid4 (Risk.init None) 0 (Extraction.tasks out)
         Risk.first_call = (Raise TypeError, w').
Proof.
  destruct (Extraction.extract_from_segments zoned_parse_date zoned_isoformat
              Extraction.steady_oracle Extraction.sample_json_loads
              Extraction.without_oracle [report_segment]) as [out|e] eqn:E;
    [|vm_compute in E; discriminate].
  assert (exists it, Extraction.tasks out = [it]
                     /\ Extraction.deadline it = Some "2024-05-01T00:00:00+00:00")
    as (it & Hts & Hd).
  { vm_compute in E. injection E as <-. eexists. split; reflexivity. }
  destruct (aware_deadline_stops_assessment zoned_parse_date zoned_isoformat
              Extraction.steady_oracle Extraction.sample_json_loads None
              zoned_fromisoformat Risk.sample_clock Risk.sample_ratio sample_uuid4
              Extraction.without_oracle [report_segment] None Risk.first_call out it
              "2024-05-01" zoned_may_first) as [w' H].
  - split; [reflexivity|]. intros s d. unfold zoned_parse_date.
    destruct (String.eqb s "2024-05-01"); [intros [= <-]; reflexivity | discriminate].
  - exact E.
  - rewrite Hts. left. reflexivity.
  - reflexivity.
  - exact Hd.
  - reflexivity.
  - exists out, w'. split; [reflexivity|]. split; [rewrite Hts, <- Hd; reflexivity|].
    exact H.
Defined.

End Upload.

(** * [app/ml/document_processing.py]

    The three readers and their dispatch.  What PyPDF2, python-docx and
    python-pptx read from a file is given; a reader raises what the library
    raises. *)

Module Documents.

Local Open Scope Z_scope.

Definition newline : string := String "010" EmptyString.

(** A paragraph of python-docx: its text and the name of its style. *)
Record Paragraph : Type := { text : string; style_name : string }.

(** An entry of "sections": the three readers write dicts with different
    keys. *)
Inductive section_dict : Type :=
| PageSection (page : Z) (title content : string)
| HeadingSection (title content : string) (level : Z)
| SlideSection (slide : Z) (title content : string).

Definition title_of (s : section_dict) : string :=
  match s with
  | PageSection _ t _ | HeadingSection t _ _ | SlideSection _ t _ => t
  end.

Definition content_of (s : section_dict) : string :=
  match s with
  | PageSection _ _ c | HeadingSection _ c _ | SlideSection _ _ c => c
  end.

Record document : Type := {
  doc_text : string;
  pages : Z;
  sections : list section_dict;
  document_type : string
}.

(** [s.strip()] is true. *)
Definition nonblank (s : string) : bool := negb (String.eqb (strip s) "").

(** [s.endswith(suffix)] *)
Definition endswith (s suffix : string) : bool :=
  (Nat.leb (String.length suffix) (String.length s)
   && String.eqb (substring (String.length s - String.length suffix)
                    (String.length suffix) s) suffix)%bool.

(** [int(name[-1]) if name[-1].isdigit() else 1], on a name that is not
    empty. *)
Definition heading_level (name : string) : Z :=
  let c := last (chars name) " "%char in
  if ascii_between 48 57 c then Z.of_nat (nat_of_ascii c) - 48 else 1.

(** [sections[-1]["content"] += more] *)
Definition add_content (s : section_dict) (more : string) : section_dict :=
  match s with
  | PageSection p t c => PageSection p t (c ++ more)
  | HeadingSection t c l => HeadingSection t (c ++ more) l
  | SlideSection n t c => SlideSection n t (c ++ more)
  end.

Fixpoint append_to_last (sections : list section_dict) (more : string)
    : list section_dict :=
  match sections with
  | [] => []
  | [s] => [add_content s more]
  | s :: rest => s :: append_to_last rest more
  end.

(** One turn of the loop over the paragraphs. *)
Definition docx_step (st : list section_dict * list string) (paragraph : Paragraph)
    : list section_dict * list string :=
  let '(sections, all_text) := st in
  if nonblank (text paragraph) then
    let all_text := (all_text ++ [text paragraph])%list in
    if String.prefix "Heading" (style_name paragraph)
    then ((sections ++ [HeadingSection (text paragraph) ""
                          (heading_level (style_name paragraph))])%list,
          all_text)
    else match sections with
         | [] => (sections, all_text)
         | _ :: _ => (append_to_last sections (text paragraph ++ newline), all_text)
         end
  else st.

(** [_process_docx] on the paragraphs of the document. *)
Definition read_docx (paragraphs : list Paragraph) : document :=
  let '(sections, all_text) := fold_left docx_step paragraphs ([], []) in
  {| doc_text := join (newline ++ newline) all_text;
     pages := 1;
     sections := sections;
     document_type := "docx" |}.

(** The texts of a slide's shapes that have a text that is not blank; a
    shape without the attribute "text" is [None]. *)
Fixpoint slide_texts (shapes : list (option string)) : list string :=
  match shapes with
  | [] => []
  | Some t :: rest => if nonblank t then t :: slide_texts rest else slide_texts rest
  | None :: rest => slide_texts rest
  end.

(** The loop over the slides, from the slide at index [slide_num] on. *)
Fixpoint pptx_loop (slide_num : Z) (slides : list (list (option string)))
    : list section_dict * list string :=
  match slides with
  | [] => ([], [])
  | slide :: rest =>
      let slide_content := slide_texts slide in
      let '(sections, all_text) := pptx_loop (slide_num + 1) rest in
      (SlideSection (slide_num + 1)
         (match slide_content with
          | first :: _ => first
          | [] => "Slide " ++ str_of_int (slide_num + 1)
          end)
         (join newline slide_content) :: sections,
       (slide_content ++ all_text)%list)
  end.

(** [_process_pptx] on the slides of the presentation. *)
Definition read_pptx (slides : list (list (option string))) : document :=
  let '(sections, all_text) := pptx_loop 0 slides in
  {| doc_text := join (newline ++ newline) all_text;
     pages := Z.of_nat (List.length slides);
     sections := sections;
     document_type := "pptx" |}.

(** The loop over the pages, from the page at index [page_num] on, on what
    [extract_text] returned for each. *)
Fixpoint pdf_sections (page_num : Z) (texts : list string) : list section_dict :=
  match texts with
  | [] => []
  | text :: rest =>
      PageSection (page_num + 1) ("Page " ++ str_of_int (page_num + 1)) text
      :: pdf_sections (page_num + 1) rest
  end.

Section Readers.

(** [PyPDF2.PdfReader] on the opened file: the pages, each with what
    [extract_text] does on it. *)
Variable PdfReader : string -> outcome (list (outcome string)).
(** [DocxDocument(file_path).paragraphs] *)
Variable DocxDocument : string -> outcome (list Paragraph).
(** [Presentation(file_path).slides], each with the texts of its shapes. *)
Variable Presentation : string -> outcome (list (list (option string))).

Definition _process_pdf (file_path : string) : outcome document :=
  match PdfReader file_path with
  | Raise e => Raise e
  | Ok pdf_pages =>
      match collect pdf_pages with
      | Raise e => Raise e
      | Ok all_text =>
          Ok {| doc_text := join (newline ++ newline) all_text;
                pages := Z.of_nat (List.length pdf_pages);
                sections := pdf_sections 0 all_text;
                document_type := "pdf" |}
      end
  end.

Definition _process_docx (file_path : string) : outcome document :=
  match DocxDocument file_path with
  | Raise e => Raise e
  | Ok paragraphs => Ok (read_docx paragraphs)
  end.

Definition _process_pptx (file_path : string) : outcome document :=
  match Presentation file_path with
  | Raise e => Raise e
  | Ok slides => Ok (read_pptx slides)
  end.

Definition process_document (file_path doc_type : string) : outcome document :=
  let key := lower doc_type in
  if String.eqb key "pdf" then _process_pdf file_path
  else if String.eqb key "docx" then _process_docx file_path
  else if String.eqb key "pptx" then _process_pptx file_path
  else Raise ValueError.

(** [app/api/documents.py]: the document type the upload route reads off
    the file name; [None] is the answer 400. *)
Definition doc_type_of (file_name : string) : option string :=
  let filename := lower file_name in
  if endswith filename ".pdf" then Some "pdf"
  else if endswith filename ".docx" then Some "docx"
  else if endswith filename ".pptx" then Some "pptx"
  else None.

(** ** The dispatch *)

Lemma processed_type (file_path doc_type : string) (d : document) :
  process_document file_path doc_type = Ok d ->
  document_type d = lower doc_type
  /\ In (lower doc_type) ["pdf"; "docx"; "pptx"].
Proof.
  unfold process_document, _process_pdf, _process_docx, _process_pptx.
  destruct (String.eqb_spec (lower doc_type) "pdf") as [->|_].
  { destruct (PdfReader file_path) as [ps|]; [|discriminate].
    destruct (collect ps); [|discriminate]. intros [= <-]. simpl. auto. }
  destruct (String.eqb_spec (lower doc_type) "docx") as [->|_].
  { destruct (DocxDocument file_path) as [ps|]; [|discriminate].
    intros [= <-]. unfold read_docx. destruct (fold_left _ _ _). simpl. auto. }
  destruct (String.eqb_spec (lower doc_type) "pptx") as [->|_]; [|discriminate].
  destruct (Presentation file_path) as [ss|]; [|discriminate].
  intros [= <-]. unfold read_pptx. destruct (pptx_loop _ _). simpl. auto.
Qed.

(** X23: the dispatch on the document type ignores case and knows pdf, docx
    and pptx: for any other type it raises ValueError whatever the file
    holds, and a document it returns names the type in lower case.  The
    type that the upload route reads off a file name is always one of the
    three, spelt in lower case, so that for it the dispatch is the reader of
    that type. *)
Theorem dispatch_by_document_type (file_path : string) :
  (forall doc_type,
     ~ In (lower doc_type) ["pdf"; "docx"; "pptx"] ->
     process_document file_path doc_type = Raise ValueError)
  /\ (forall doc_type d,
        process_document file_path doc_type = Ok d ->
        document_type d = lower doc_type
        /\ In (lower doc_type) ["pdf"; "docx"; "pptx"])
  /\ (forall file_name doc_type,
        doc_type_of file_name = Some doc_type ->
        process_document file_path doc_type
        = (if String.eqb doc_type "pdf" then _process_pdf file_path
           else if String.eqb doc_type "docx" then _process_docx file_path
           else _process_pptx file_path)
        /\ In doc_type ["pdf"; "docx"; "pptx"]).
Proof.
  split; [|split].
  - intros doc_type H. unfold process_document.
    destruct (String.eqb_spec (lower doc_type) "pdf") as [E|_];
      [exfalso; apply H; rewrite E; simpl; auto|].
    destruct (String.eqb_spec (lower doc_type) "docx") as [E|_];
      [exfalso; apply H; rewrite E; simpl; auto|].
    destruct (String.eqb_spec (lower doc_type) "pptx") as [E|_];
      [exfalso; apply H; rewrite E; simpl; auto|].
    reflexivity.
  - intros doc_type d. apply processed_type.
  - intros file_name doc_type. unfold doc_type_of.
    destruct (endswith _ ".pdf"); [intros [= <-]; split; [reflexivity | simpl; auto]|].
    destruct (endswith _ ".docx"); [intros [= <-]; split; [reflexivity | simpl; auto]|].
    destruct (endswith _ ".pptx"); [intros [= <-]; split; [reflexivity | simpl; auto]|].
    discriminate.
Qed.

End Readers.

(** ** Word documents *)





















(** ** Slides and pages *)

Lemma join_not_blank_head (t : string) : nonblank t = true -> t <> "".
Proof. intros H ->. discriminate. Qed.

Lemma slide_texts_nonblank (shapes : list (option string)) :
  Forall (fun t => nonblank t = true) (slide_texts shapes).
Proof.
  induction shapes as [|[t|] shapes IH]; cbn [slide_texts]; [constructor| |exact IH].
  destruct (nonblank t) eqn:E; [constructor; assumption | exact IH].
Qed.

(** What the loop writes for the slide at index [k]. *)
Definition slide_section (k : Z) (shapes : list (option string)) : section_dict :=
  SlideSection (k + 1)
    (match slide_texts shapes with
     | first :: _ => first
     | [] => "Slide " ++ str_of_int (k + 1)
     end)
    (join newline (slide_texts shapes)).

Lemma slide_section_title (k : Z) (shapes : list (option string)) :
  title_of (slide_section k shapes) <> "".
Proof.
  unfold slide_section; cbn [title_of].
  pose proof (slide_texts_nonblank shapes) as Hn.
  destruct (slide_texts shapes) as [|t ts]; [discriminate|].
  inversion Hn; subst. apply join_not_blank_head. assumption.
Qed.

Lemma pptx_loop_cons (n : Z) (slide : list (option string))
    (slides : list (list (option string))) :
  pptx_loop n (slide :: slides)
  = (slide_section n slide :: fst (pptx_loop (n + 1) slides),
     (slide_texts slide ++ snd (pptx_loop (n + 1) slides))%list).
Proof. cbn [pptx_loop]. destruct (pptx_loop (n + 1) slides). reflexivity. Qed.

Lemma pptx_loop_facts (slides : list (list (option string))) (n : Z) :
  List.length (fst (pptx_loop n slides)) = List.length slides
  /\ snd (pptx_loop n slides) = List.concat (map slide_texts slides)
  /\ (forall k shapes,
        nth_error slides k = Some shapes ->
        nth_error (fst (pptx_loop n slides)) k
        = Some (slide_section (n + Z.of_nat k) shapes))
  /\ Forall (fun s => title_of s <> "") (fst (pptx_loop n slides)).
Proof.
  revert n. induction slides as [|slide slides IH]; intros n.
  - repeat split; [|constructor]. intros k shapes H. destruct k; discriminate.
  - rewrite pptx_loop_cons. cbn [fst snd List.length map List.concat].
    destruct (IH (n + 1)) as (IH1 & IH2 & IH3 & IH4).
    split; [now rewrite IH1|]. split; [now rewrite IH2|]. split.
    + intros [|k] shapes H; cbn [nth_error] in *.
      * injection H as ->. rewrite Z.add_0_r. reflexivity.
      * rewrite (IH3 k shapes H). do 2 f_equal. lia.
    + constructor; [apply slide_section_title | exact IH4].
Qed.

(** X25: a presentation gives one section for each slide, numbered from 1
    in the order of the slides, and as many pages.  The title of a section
    is the first text of the slide that is not blank and, for a slide
    without such a text, the word Slide with the slide's number, so that no
    title is empty; its content is the slide's texts that are not blank,
    one per line.  The text of the document is these texts of all slides in
    order, joined by empty lines. *)
Theorem pptx_one_section_per_slide (slides : list (list (option string))) :
  pages (read_pptx slides) = Z.of_nat (List.length slides)
  /\ List.length (sections (read_pptx slides)) = List.length slides
  /\ doc_text (read_pptx slides)
     = join (newline ++ newline) (List.concat (map slide_texts slides))
  /\ (forall k shapes,
        nth_error slides k = Some shapes ->
        nth_error (sections (read_pptx slides)) k
        = Some (slide_section (Z.of_nat k) shapes))
  /\ Forall (fun s => title_of s <> "") (sections (read_pptx slides)).
Proof.
  unfold read_pptx. destruct (pptx_loop_facts slides 0) as (H1 & H2 & H3 & H4).
  destruct (pptx_loop 0 slides) as [secs txt]. cbn [fst snd] in *.
  cbn [pages sections doc_text]. subst txt.
  split; [reflexivity|]. split; [exact H1|]. split; [reflexivity|].
  split; [exact H3 | exact H4].
Qed.

End Documents.
